(** * Sudoku board ([src/board.py]): a shallow embedding and its properties

    The Python module defines two classes.  [Section] is a 3x3 container
    backed by a nine-element list [_slots]; [Board] inherits from [Section]
    and stores nine [Section] objects in its own [_slots].  Objects are
    mutable and are reached through references, so the embedding keeps an
    explicit object store and every method takes the store it runs in. *)

From Stdlib Require Import ZArith Ascii String DecimalString.
From stdpp Require Import base numbers option list gmap.

Local Open Scope Z_scope.

(** ** Values, objects and the store *)

Module Py.

Definition loc := positive.

(** What a slot can hold: [None], an [int], or a reference to another
    object (a [Section] held by a [Board], or anything else such as a list
    of candidates). *)
Inductive value :=
  | VNone
  | VInt (n : Z)
  | VRef (l : loc).

(** Heap objects.  [OSection] carries the [_slots] list of a [Section] (or
    of a [Board], which is a [Section]); [OList] is a plain Python list. *)
Inductive obj :=
  | OSection (slots : list value)
  | OList (items : list value).

Abbreviation heap := (gmap loc obj).

Inductive error :=
  | IndexError
  | ValueError
  | AttributeError.

Inductive result (A : Type) :=
  | Ok (a : A)
  | Raise (e : error).
Arguments Ok {A} a.
Arguments Raise {A} e.

#[global] Instance value_eq_dec : EqDecision value.
Proof. solve_decision. Defined.

#[global] Instance error_eq_dec : EqDecision error.
Proof. solve_decision. Defined.

(** Readers run in a fixed store and may raise. *)
Definition rbind {A B} (m : result A) (k : A -> result B) : result B :=
  match m with
  | Ok a => k a
  | Raise e => Raise e
  end.

(** Writers thread the store; a raised exception keeps the store reached
    so far (Python does not roll back). *)
Definition M (A : Type) := heap -> result A * heap.

Definition ret {A} (a : A) : M A := fun h => (Ok a, h).
Definition raise {A} (e : error) : M A := fun h => (Raise e, h).
Definition bind {A B} (m : M A) (k : A -> M B) : M B :=
  fun h => match m h with
           | (Ok a, h') => k a h'
           | (Raise e, h') => (Raise e, h')
           end.
(** Run a reader in the current store. *)
Definition read {A} (f : heap -> result A) : M A := fun h => (f h, h).

Declare Scope py_scope.
Delimit Scope py_scope with py.
Local Open Scope py_scope.
Notation "'let!' x ':=' m 'in' k" := (bind m (fun x => k))
  (at level 10, x name, m at level 100, k at level 200) : py_scope.
Notation "'let?' x ':=' m 'in' k" := (rbind m (fun x => k))
  (at level 10, x name, m at level 100, k at level 200) : py_scope.

(** [range(n)] *)
Definition range (n : nat) : list Z := Z.of_nat <$> seq 0 n.

(** [enumerate(l)] *)
Fixpoint enumerate_from {A} (i : Z) (l : list A) : list (Z * A) :=
  match l with
  | [] => []
  | a :: l' => (i, a) :: enumerate_from (i + 1) l'
  end.
Definition enumerate {A} (l : list A) : list (Z * A) := enumerate_from 0 l.

(** [l[i]]: a negative index counts from the end; anything outside
    [-len, len) raises [IndexError]. *)
Definition norm_index {A} (l : list A) (i : Z) : option nat :=
  let n := Z.of_nat (length l) in
  let j := if i <? 0 then i + n else i in
  if (0 <=? j) && (j <? n) then Some (Z.to_nat j) else None.

Definition getitem {A} (l : list A) (i : Z) : result A :=
  match norm_index l i with
  | Some j => match l !! j with
              | Some a => Ok a
              | None => Raise IndexError
              end
  | None => Raise IndexError
  end.

(** [l[i] = a] *)
Definition setitem {A} (l : list A) (i : Z) (a : A) : result (list A) :=
  match norm_index l i with
  | Some j => Ok (<[j:=a]> l)
  | None => Raise IndexError
  end.

(** A for loop whose body may leave the enclosing function with [return]:
    the body yields [Next s] to go on with loop state [s], or [Return r]. *)
Inductive flow (S R : Type) :=
  | Next (s : S)
  | Return (r : R).
Arguments Next {S R} s.
Arguments Return {S R} r.

Fixpoint for_in {A S R} (xs : list A) (body : A -> S -> result (flow S R))
    (s : S) : result (flow S R) :=
  match xs with
  | [] => Ok (Next s)
  | x :: xs' =>
      match body x s with
      | Ok (Next s') => for_in xs' body s'
      | Ok (Return r) => Ok (Return r)
      | Raise e => Raise e
      end
  end.

(** A for loop over a store-mutating body. *)
Fixpoint for_each {A} (xs : list A) (body : A -> M unit) : M unit :=
  match xs with
  | [] => ret tt
  | x :: xs' => let! _ := body x in for_each xs' body
  end.

(** The same, for a body that may [break]: it yields [true] to go on and
    [false] to leave the loop. *)
Fixpoint for_break {A} (xs : list A) (body : A -> M bool) : M unit :=
  match xs with
  | [] => ret tt
  | x :: xs' =>
      let! go := body x in
      if go : bool then for_break xs' body else ret tt
  end.

(** A list comprehension [[f(x) for x in xs]]. *)
Fixpoint comprehension {A B} (xs : list A) (f : A -> result B)
    : result (list B) :=
  match xs with
  | [] => Ok []
  | x :: xs' =>
      let? b := f x in
      let? bs := comprehension xs' f in
      Ok (b :: bs)
  end.

(** Object creation: the new object gets a location the store does not
    use yet. *)
Definition alloc (o : obj) : M loc :=
  fun h => let l := fresh (dom h) in (Ok l, <[l:=o]> h).

(** ** Text: [str.splitlines] and [int] on one character

    A text is a [string]; each character stands for the code point of the
    same number (0 to 255). *)

Definition code (c : ascii) : Z := Z.of_N (N_of_ascii c).

(** The line boundaries of [str.splitlines] below code point 256: LF, VT,
    FF, CR, FS, GS, RS and NEL (CR LF counts as one boundary). *)
Definition is_linebreak (c : ascii) : bool :=
  let n := code c in
  (n =? 10) || (n =? 11) || (n =? 12) || (n =? 13)
  || (n =? 28) || (n =? 29) || (n =? 30) || (n =? 133).

Fixpoint splitlines_from (cur : string) (s : string) : list string :=
  match s with
  | EmptyString =>
      match cur with
      | EmptyString => []
      | _ => [cur]
      end
  | String c rest =>
      if is_linebreak c then
        match rest with
        | String c2 rest' =>
            if (code c =? 13) && (code c2 =? 10)
            then cur :: splitlines_from EmptyString rest'
            else cur :: splitlines_from EmptyString rest
        | EmptyString => cur :: splitlines_from EmptyString rest
        end
      else splitlines_from (cur ++ String c EmptyString) rest
  end.

Definition splitlines (s : string) : list string :=
  splitlines_from EmptyString s.

(** [int(char)] for a one-character string: the decimal digits parse,
    anything else raises [ValueError]. *)
Definition int_of_char (c : ascii) : result Z :=
  let n := code c in
  if (48 <=? n) && (n <=? 57) then Ok (n - 48) else Raise ValueError.

End Py.

Import Py.
Local Open Scope py_scope.

(** ** class Section *)

(** [self._slots] *)
Definition slots_of (self : loc) (h : heap) : result (list value) :=
  match h !! self with
  | Some (OSection slots) => Ok slots
  | _ => Raise AttributeError
  end.

(** [Section()]: [__init__] sets each slot to [None]. *)
Definition Section_init : M loc :=
  alloc (OSection (replicate 9 VNone)).

Definition get_at (self : loc) (x y : Z) (h : heap) : result value :=
  if negb ((0 <=? x) && (x <=? 2) && (0 <=? y) && (y <=? 2))
  then Raise IndexError
  else
    let? slots := slots_of self h in
    getitem slots (x + y * 3).

Definition set_at (self : loc) (item : value) (x y : Z) : M unit :=
  let! slots := read (slots_of self) in
  match setitem slots (x + y * 3) item with
  | Ok slots' => fun h => (Ok tt, <[self:=OSection slots']> h)
  | Raise e => raise e
  end.

(** ** class Board(Section) *)

(** Calling a [Section] method on what a slot holds: only a reference can
    be a [Section]. *)
Definition as_object (v : value) : result loc :=
  match v with
  | VRef l => Ok l
  | _ => Raise AttributeError
  end.

Definition set_sections (self : loc) : M unit :=
  for_each (range 3) (fun x =>
    for_each (range 3) (fun y =>
      let! s := Section_init in
      set_at self (VRef s) x y)).

(** [Board()] *)
Definition Board_init : M loc :=
  let! self := alloc (OSection (replicate 9 VNone)) in
  let! _ := set_sections self in
  ret self.

(** [x // 3] is [x / 3] and [x % 3] is [x mod 3] on [Z]: both round
    towards minus infinity for a positive divisor. *)
Definition set_board_item (self : loc) (number : value) (x y : Z) : M unit :=
  let! sec := read (get_at self (x / 3) (y / 3)) in
  let! s := read (fun _ => as_object sec) in
  set_at s number (x mod 3) (y mod 3).

Definition get_board_item (self : loc) (x y : Z) (h : heap) : result value :=
  if negb ((0 <=? x) && (x <=? 8) && (0 <=? y) && (y <=? 8))
  then Raise IndexError
  else
    let? sec := get_at self (x / 3) (y / 3) h in
    let? s := as_object sec in
    get_at s (x mod 3) (y mod 3) h.

(** [type(v) == int] *)
Definition is_int (v : value) : bool :=
  match v with
  | VInt _ => true
  | _ => false
  end.

Definition contains_value (self : loc) (x y : Z) (h : heap) : result bool :=
  let? v := get_board_item self x y h in
  Ok (is_int v).

Definition get_column (self : loc) (x : Z) (h : heap) : result (list value) :=
  comprehension (range 9) (fun y => get_board_item self x y h).

Definition get_row (self : loc) (y : Z) (h : heap) : result (list value) :=
  comprehension (range 9) (fun x => get_board_item self x y h).

(** What a function returns once its loop is over: the value of an early
    [return], or else the value of the code after the loop. *)
Definition finish {S R} (r : flow S R) (after : S -> result R) : result R :=
  match r with
  | Return b => Ok b
  | Next s => after s
  end.

Definition is_line_valid_horizontal (self : loc) (y : Z) (h : heap)
    : result bool :=
  let? r :=
    for_in (range 9) (fun x taken_numbers =>
      let? number := get_board_item self x y h in
      match number with
      | VInt n =>
          (* number is not None and type(number) == int *)
          let index := n - 1 in
          let? t := getitem taken_numbers index in
          if negb (t =? 0) then Ok (Return false)
          else
            let? taken_numbers' := setitem taken_numbers index 1 in
            Ok (Next taken_numbers')
      | _ => Ok (Next taken_numbers)
      end)
      (replicate 9 0) in
  finish r (fun _ => Ok true).

Definition is_line_valid_vertical (self : loc) (x : Z) (h : heap)
    : result bool :=
  let? r :=
    for_in (range 9) (fun y taken_numbers =>
      let? number := get_board_item self x y h in
      match number with
      | VInt n =>
          (* number is not None and type(number) == int *)
          let index := n - 1 in
          let? t := getitem taken_numbers index in
          if negb (t =? 0) then Ok (Return false)
          else
            let? taken_numbers' := setitem taken_numbers index 1 in
            Ok (Next taken_numbers')
      | _ => Ok (Next taken_numbers)
      end)
      (replicate 9 0) in
  finish r (fun _ => Ok true).

Definition is_section_valid (self : loc) (section_x section_y : Z) (h : heap)
    : result bool :=
  let? section := get_at self section_x section_y h in
  let? r :=
    for_in (range 3) (fun x =>
      for_in (range 3) (fun y taken_numbers =>
        let? s := as_object section in
        let? number := get_at s x y h in
        match number with
        | VInt n =>
            let index := n - 1 in
            let? t := getitem taken_numbers index in
            if t >? 0 then Ok (Return false)
            else
              let? taken_numbers' := setitem taken_numbers index 1 in
              Ok (Next taken_numbers')
        | _ => Ok (Next taken_numbers)
        end))
      (replicate 9 0) in
  finish r (fun _ => Ok true).

Definition is_valid (self : loc) (h : heap) : result bool :=
  (* All vertical lines *)
  let? r1 :=
    for_in (range 9) (fun x (_ : unit) =>
      let? ok := is_line_valid_vertical self x h in
      if negb ok then Ok (Return false) else Ok (Next tt)) tt in
  finish r1 (fun _ =>
  (* All horizontal lines *)
  let? r2 :=
    for_in (range 9) (fun y (_ : unit) =>
      let? ok := is_line_valid_horizontal self y h in
      if negb ok then Ok (Return false) else Ok (Next tt)) tt in
  finish r2 (fun _ =>
  (* All sections *)
  let? r3 :=
    for_in (range 3) (fun x =>
      for_in (range 3) (fun y (_ : unit) =>
        let? ok := is_section_valid self x y h in
        if negb ok then Ok (Return false) else Ok (Next tt))) tt in
  finish r3 (fun _ => Ok true))).

Definition is_solved (self : loc) (h : heap) : result bool :=
  let? r :=
    for_in (range 9) (fun x =>
      for_in (range 9) (fun y (_ : unit) =>
        let? v := get_board_item self x y h in
        match v with
        | VNone => Ok (Return false)
        | _ => Ok (Next tt)
        end)) tt in
  finish r (fun _ => is_valid self h).

(** [load_board], from the text [board_raw] that [file.read()] returned on;
    opening and reading the file stay outside the embedding. *)
Definition load_board (self : loc) (board_raw : string) : M unit :=
  for_each (enumerate (splitlines board_raw)) (fun '(y, line) =>
    for_break (enumerate (list_ascii_of_string line)) (fun '(x, char) =>
      if x >=? 9 then ret false
      else if negb (Ascii.eqb char " ") then
        let! n := read (fun _ => int_of_char char) in
        let! _ := set_board_item self (VInt n) x y in
        ret true
      else ret true)).

Definition get_copy (self : loc) : M loc :=
  let! new_board := Board_init in
  let! _ :=
    for_each (range 9) (fun x =>
      for_each (range 9) (fun y =>
        let! v := read (get_board_item self x y) in
        set_board_item new_board v x y)) in
  ret new_board.

(** * Specification vocabulary, executable checks and sample data *)

(** ** Well-formed boards

    [slot x y] is the position of local coordinate [(x, y)] in [_slots]. *)
Definition slot (x y : Z) : nat := Z.to_nat (x + y * 3).

(** A board as [Board()] builds it and [set_board_item] keeps it: nine
    slots, each a reference to a [Section] object of its own with nine
    slots, none of them the board itself. *)
Definition wf_board (b : loc) (h : heap) : Prop :=
  ∃ slots,
    h !! b = Some (OSection slots) ∧ length slots = 9%nat ∧
    (∀ i, (i < 9)%nat →
       ∃ s cells, slots !! i = Some (VRef s) ∧ s ≠ b ∧
                  h !! s = Some (OSection cells) ∧ length cells = 9%nat) ∧
    (∀ i j s, slots !! i = Some (VRef s) → slots !! j = Some (VRef s) → i = j).

(** The objects a board is made of: itself and the sections in its slots. *)
Definition owns (b : loc) (h : heap) (l : loc) : Prop :=
  l = b ∨ ∃ slots, h !! b = Some (OSection slots) ∧ VRef l ∈ slots.

(** An executable check of [wf_board]. *)
Definition section_okb (b : loc) (h : heap) (v : value) : bool :=
  match v with
  | VRef s =>
      negb (Pos.eqb s b) &&
      match h !! s with
      | Some (OSection cells) => Nat.eqb (length cells) 9
      | _ => false
      end
  | _ => false
  end.

Definition wf_boardb (b : loc) (h : heap) : bool :=
  match h !! b with
  | Some (OSection slots) =>
      Nat.eqb (length slots) 9 && forallb (section_okb b h) slots
      && bool_decide (NoDup slots)
  | _ => false
  end.

(** ** Vocabulary for loops *)

Definition pairs {A B} (xs : list A) (ys : list B) : list (A * B) :=
  x ← xs; (λ y, (x, y)) <$> ys.

(** The body of a loop that tests every element and returns [False] at
    the first one failing the test. *)
Definition check_body {A V} (f : A → result V) (p : V → bool)
    (x : A) (_ : unit) : result (flow unit bool) :=
  let? a := f x in
  if p a then Ok (Next tt) else Ok (Return false).

(** ** The duplicate scan *)

(** The body of the three scans, on a value already read; [test] is the
    way the mark is tested ([if t:] or [t > 0]). *)
Definition mark (test : Z → bool) (number : value) (taken_numbers : list Z)
    : result (flow (list Z) bool) :=
  match number with
  | VInt n =>
      let index := n - 1 in
      let? t := getitem taken_numbers index in
      if test t then Ok (Return false)
      else
        let? taken_numbers' := setitem taken_numbers index 1 in
        Ok (Next taken_numbers')
  | _ => Ok (Next taken_numbers)
  end.

(** What a cell may hold for the scans to work as intended: an [int] has
    to be a digit 1..9; [None] and other objects are skipped. *)
Definition cell_ok (v : value) : Prop := ∀ n, v = VInt n → 1 <= n <= 9.

(** No digit sits at two positions of a list of cells. *)
Definition distinct (vs : list value) : Prop :=
  ∀ i j d, vs !! i = Some (VInt d) → vs !! j = Some (VInt d) → i = j.

Definition marks_ok (taken : list Z) : Prop :=
  length taken = 9%nat ∧ ∀ i t, taken !! i = Some t → t = 0 ∨ t = 1.

Definition unmarked (taken : list Z) (vs : list value) : Prop :=
  ∀ j d, vs !! j = Some (VInt d) → taken !! Z.to_nat (d - 1) = Some 0.

(** ** Rows, columns and boxes *)

(** The value read at a coordinate ([None] where the read raises). *)
Definition cell (b : loc) (h : heap) (x y : Z) : value :=
  match get_board_item b x y h with
  | Ok v => v
  | Raise _ => VNone
  end.

(** Every cell of the grid can be read and holds [None], a digit 1..9, or
    an object that is not an [int]. *)
Definition grid_ok (b : loc) (h : heap) : Prop :=
  ∀ x y, 0 <= x <= 8 → 0 <= y <= 8 →
    ∃ v, get_board_item b x y h = Ok v ∧ cell_ok v.

(** No digit 1..9 occurs in two distinct cells of row [y]. *)
Definition row_distinct (b : loc) (y : Z) (h : heap) : Prop :=
  ∀ x1 x2 d, 0 <= x1 <= 8 → 0 <= x2 <= 8 → 1 <= d <= 9 →
    get_board_item b x1 y h = Ok (VInt d) →
    get_board_item b x2 y h = Ok (VInt d) → x1 = x2.

(** No digit 1..9 occurs in two distinct cells of column [x]. *)
Definition column_distinct (b : loc) (x : Z) (h : heap) : Prop :=
  ∀ y1 y2 d, 0 <= y1 <= 8 → 0 <= y2 <= 8 → 1 <= d <= 9 →
    get_board_item b x y1 h = Ok (VInt d) →
    get_board_item b x y2 h = Ok (VInt d) → y1 = y2.

(** No digit 1..9 occurs in two distinct cells of box [(mx, my)], whose
    cells are the coordinates [(3 * mx + lx, 3 * my + ly)]. *)
Definition box_distinct (b : loc) (mx my : Z) (h : heap) : Prop :=
  ∀ lx1 ly1 lx2 ly2 d,
    0 <= lx1 <= 2 → 0 <= ly1 <= 2 → 0 <= lx2 <= 2 → 0 <= ly2 <= 2 →
    1 <= d <= 9 →
    get_board_item b (3 * mx + lx1) (3 * my + ly1) h = Ok (VInt d) →
    get_board_item b (3 * mx + lx2) (3 * my + ly2) h = Ok (VInt d) →
    lx1 = lx2 ∧ ly1 = ly2.

(** Every integer held in row [y] is a digit 1..9. *)
Definition row_digits (b : loc) (y : Z) (h : heap) : Prop :=
  ∀ x n, 0 <= x <= 8 → get_board_item b x y h = Ok (VInt n) → 1 <= n <= 9.

(** Every integer held in column [x] is a digit 1..9. *)
Definition column_digits (b : loc) (x : Z) (h : heap) : Prop :=
  ∀ y n, 0 <= y <= 8 → get_board_item b x y h = Ok (VInt n) → 1 <= n <= 9.

(** Every integer held in box [(mx, my)] is a digit 1..9. *)
Definition box_digits (b : loc) (mx my : Z) (h : heap) : Prop :=
  ∀ lx ly n, 0 <= lx <= 2 → 0 <= ly <= 2 →
    get_board_item b (3 * mx + lx) (3 * my + ly) h = Ok (VInt n) → 1 <= n <= 9.

(** ** [is_valid] and [is_solved] *)

(** [v is not None] *)
Definition occupied (v : value) : bool :=
  match v with
  | VNone => false
  | _ => true
  end.

(** Every cell holds [None] or a digit 1..9. *)
Definition sudoku_grid (b : loc) (h : heap) : Prop :=
  ∀ x y, 0 <= x <= 8 → 0 <= y <= 8 →
    get_board_item b x y h = Ok VNone ∨
    ∃ d, 1 <= d <= 9 ∧ get_board_item b x y h = Ok (VInt d).

(** None of the 27 unit checks raises. *)
Definition units_return (b : loc) (h : heap) : Prop :=
  (∀ x, 0 <= x <= 8 → ∃ r, is_line_valid_vertical b x h = Ok r) ∧
  (∀ y, 0 <= y <= 8 → ∃ r, is_line_valid_horizontal b y h = Ok r) ∧
  (∀ mx my, 0 <= mx <= 2 → 0 <= my <= 2 → ∃ r, is_section_valid b mx my h = Ok r).

(** ** [Board()] *)

(** The state of the board under construction while [set_sections] runs
    from a store that extends [h] with the new board object. *)
Definition building (b : loc) (h : heap) (done : list (Z * Z)) (h' : heap) : Prop :=
  ∃ slots,
    h' !! b = Some (OSection slots) ∧ length slots = 9%nat ∧
    (∀ l, l ∈ dom h → h' !! l = h !! l) ∧
    (∀ i v, slots !! i = Some v →
       v = VNone ∨
       ∃ s, v = VRef s ∧ s ≠ b ∧ (s ∉ dom h) ∧
            h' !! s = Some (OSection (replicate 9 VNone))) ∧
    (∀ i j s, slots !! i = Some (VRef s) → slots !! j = Some (VRef s) → i = j) ∧
    (∀ p, p ∈ done → ∃ s, slots !! slot p.1 p.2 = Some (VRef s)).

(** ** [get_copy] *)

(** The state of the copy [nb] of [b] while the copying loops run from a
    store that extends [h]. *)
Definition copying (b nb : loc) (h : heap) (done : list (Z * Z)) (h' : heap)
    : Prop :=
  wf_board nb h' ∧
  (∀ l, l ∈ dom h → h' !! l = h !! l) ∧
  (∀ l, owns nb h' l → l ∉ dom h) ∧
  (∀ p, p ∈ done → get_board_item nb p.1 p.2 h' = get_board_item b p.1 p.2 h).

(** ** [load_board] *)

(** The character at column [x] of row [y] of a text, if any. *)
Definition char_at (board_raw : string) (x y : Z) : option ascii :=
  line ← splitlines board_raw !! Z.to_nat y;
  list_ascii_of_string line !! Z.to_nat x.

(** What a cell reads after loading, from the character at its place and
    what it read before. *)
Definition loaded (c : option ascii) (old : result value) : result value :=
  match c with
  | Some c => if Ascii.eqb c " " then old else Ok (VInt (code c - 48))
  | None => old
  end.

(** Texts within the layout [load_board] is written for: in the first nine
    columns, a character other than a space is a decimal digit and sits in
    one of the first nine rows. *)
Definition loadable (board_raw : string) : Prop :=
  ∀ (j k : nat) line c,
    splitlines board_raw !! j = Some line →
    list_ascii_of_string line !! k = Some c →
    (k < 9)%nat → c ≠ " "%char →
    (j < 9)%nat ∧ 48 <= code c <= 57.

(** ** Executable checks of the grid predicates *)

Definition cells_all (P : value → bool) (b : loc) (h : heap) : bool :=
  forallb (λ p : Z * Z,
    match get_board_item b p.1 p.2 h with
    | Ok v => P v
    | Raise _ => false
    end) (pairs (range 9) (range 9)).

Definition grid_okb (b : loc) (h : heap) : bool :=
  cells_all (λ v, match v with
                  | VInt n => (1 <=? n) && (n <=? 9)
                  | _ => true
                  end) b h.

Definition sudoku_gridb (b : loc) (h : heap) : bool :=
  cells_all (λ v, match v with
                  | VNone => true
                  | VInt n => (1 <=? n) && (n <=? 9)
                  | VRef _ => false
                  end) b h.

(** ** Sample stores *)

Definition LF : ascii := ascii_of_nat 10.

(** A text made of the given rows, each ended by a line feed. *)
Definition lines_text (ls : list string) : string :=
  fold_right (λ l acc, (l ++ String LF acc)%string) EmptyString ls.

(** [Board()] run in the empty store puts the board at location 1. *)
Definition board0 : loc := 1%positive.
Definition empty_store : heap := (Board_init ∅).2.

(** Row 0 holds the digit 5 at columns 0 and 3. *)
Definition clash_store : heap :=
  (load_board board0 (lines_text ["5  5"%string; "  3"%string]) empty_store).2.

Definition solved_text : string :=
  lines_text ["534678912"%string; "672195348"%string; "198342567"%string;
              "859761423"%string; "426853791"%string; "713924856"%string;
              "961537284"%string; "287419635"%string; "345286179"%string].
Definition solved_store : heap := (load_board board0 solved_text empty_store).2.

(** Row 0 holds the integers 0 and 9, loaded from the text [09]. *)
Definition zero_nine_store : heap :=
  (load_board board0 "09" empty_store).2.

(** Row 0 holds the integer 10. *)
Definition ten_store : heap :=
  (set_board_item board0 (VInt 10) 0 0 empty_store).2.

(** Column 0 holds the integer 10, column 4 holds the digit 5 twice. *)
Definition ten_fives_store : heap :=
  (set_board_item board0 (VInt 5) 4 1
     (set_board_item board0 (VInt 5) 4 0 ten_store).2).2.

(** The solved grid, with a list of candidates written at (0, 0). *)
Definition candidates_store : heap :=
  match alloc (OList [VInt 1; VInt 5]) solved_store with
  | (Ok l, h) => (set_board_item board0 (VRef l) 0 0 h).2
  | (Raise _, h) => h
  end.

(** Ten rows, the tenth holding a digit. *)
Definition ten_rows : string :=
  lines_text [""%string; ""%string; ""%string; ""%string; ""%string;
              ""%string; ""%string; ""%string; ""%string; "5"%string].
Definition nine_rows : string :=
  lines_text [""%string; ""%string; ""%string; ""%string; ""%string;
              ""%string; ""%string; ""%string; ""%string].

(** An executable check of [loadable]. *)
Fixpoint line_okb (row_ok : bool) (k : nat) (cs : list ascii) : bool :=
  match cs with
  | [] => true
  | c :: cs' =>
      (if Nat.ltb k 9 && negb (Ascii.eqb c " ")
       then row_ok && (48 <=? code c) && (code c <=? 57)
       else true)
      && line_okb row_ok (S k) cs'
  end.

Fixpoint rows_okb (j : nat) (ls : list string) : bool :=
  match ls with
  | [] => true
  | l :: ls' =>
      line_okb (Nat.ltb j 9) 0 (list_ascii_of_string l) && rows_okb (S j) ls'
  end.

Definition loadableb (board_raw : string) : bool :=
  rows_okb 0 (splitlines board_raw).

(** Ten rows: a row longer than nine characters, a short row, blank rows
    and a tenth row of spaces. *)
Definition sample_text : string :=
  lines_text ["123456789xyz"%string; "  3"%string; ""%string; ""%string;
              ""%string; ""%string; ""%string; ""%string; ""%string;
              "   "%string].

(** ** Vocabulary for the further properties *)

(** A [Section] object: nine slots. *)
Definition is_section (s : loc) (h : heap) : Prop :=
  ∃ cells, h !! s = Some (OSection cells) ∧ length cells = 9%nat.

Definition is_sectionb (s : loc) (h : heap) : bool :=
  match h !! s with
  | Some (OSection cells) => Nat.eqb (length cells) 9
  | _ => false
  end.

(** A section of its own in the empty store, at location 1. *)
Definition section0 : loc := 1%positive.
Definition section_store : heap := (Section_init ∅).2.

(** Two distinct cells that share a row, a column or a box. *)
Definition peer (x y x' y' : Z) : Prop :=
  (x', y') ≠ (x, y) ∧
  (y' = y ∨ x' = x ∨ (x' / 3 = x / 3 ∧ y' / 3 = y / 3)).

(** No digit is held by two cells that are peers. *)
Definition no_clash (b : loc) (h : heap) : Prop :=
  ∀ x y x' y' d,
    0 <= x <= 8 → 0 <= y <= 8 → 0 <= x' <= 8 → 0 <= y' <= 8 →
    peer x y x' y' →
    get_board_item b x y h = Ok (VInt d) →
    get_board_item b x' y' h ≠ Ok (VInt d).

(** ** Rendering: [__str__]

    A rendered text is a list of characters. *)
Abbreviation text := (list ascii).


















(** The mark an [int] falls on in [taken_numbers]: index [n - 1], counted
    from the end when negative. *)
Definition mark_of (n : Z) : nat := Z.to_nat ((n - 1) mod 9).

(** The integers whose index [n - 1] is within the nine marks. *)
Definition markable (v : value) : Prop := ∀ n, v = VInt n → -8 <= n <= 9.

(** No two positions of a list of cells hold integers of the same mark. *)
Definition distinct_marks (vs : list value) : Prop :=
  ∀ i j n1 n2, vs !! i = Some (VInt n1) → vs !! j = Some (VInt n2) →
    mark_of n1 = mark_of n2 → i = j.

Definition unmarked_marks (taken : list Z) (vs : list value) : Prop :=
  ∀ j n, vs !! j = Some (VInt n) → taken !! mark_of n = Some 0.

(** Row 0 holds the integers -8 and 1, which share mark 0. *)
Definition wrap_store : heap :=
  (set_board_item board0 (VInt 1) 1 0
     (set_board_item board0 (VInt (-8)) 0 0 empty_store).2).2.


(** * Supporting lemmas *)

(** ** Basic facts about the runtime *)

Lemma rbind_Ok {A B} (m : result A) (k : A → result B) (b : B) :
  rbind m k = Ok b ↔ ∃ a, m = Ok a ∧ k a = Ok b.
Proof.
  destruct m as [a|e]; simpl.
  - split; [eauto | intros (a' & [= <-] & ?); done].
  - split; [done | intros (a' & ? & ?); done].
Qed.

Lemma elem_of_range (n : nat) (x : Z) :
  x ∈ range n ↔ 0 <= x < Z.of_nat n.
Proof.
  unfold range. rewrite list_elem_of_fmap. split.
  - intros (k & -> & Hk). apply elem_of_seq in Hk. lia.
  - intros Hx. exists (Z.to_nat x). split; [lia|]. apply elem_of_seq. lia.
Qed.

Lemma getitem_in {A} (l : list A) (i : Z) :
  0 <= i < Z.of_nat (length l) →
  ∃ a, l !! Z.to_nat i = Some a ∧ getitem l i = Ok a.
Proof.
  intros Hi. unfold getitem, norm_index.
  destruct (i <? 0) eqn:E1; [lia|].
  destruct ((0 <=? i) && (i <? Z.of_nat (length l))) eqn:E2;
    [|apply andb_false_iff in E2; lia].
  destruct (lookup_lt_is_Some_2 l (Z.to_nat i)) as [a Ha]; [lia|].
  exists a. by rewrite Ha.
Qed.

Lemma setitem_in {A} (l : list A) (i : Z) (a : A) :
  0 <= i < Z.of_nat (length l) →
  setitem l i a = Ok (<[Z.to_nat i:=a]> l).
Proof.
  intros Hi. unfold setitem, norm_index.
  destruct (i <? 0) eqn:E1; [lia|].
  destruct ((0 <=? i) && (i <? Z.of_nat (length l))) eqn:E2;
    [done | apply andb_false_iff in E2; lia].
Qed.

(** ** [Section.get_at] and [Section.set_at] inside the 3x3 range *)

Lemma local_guard (x y : Z) :
  0 <= x <= 2 → 0 <= y <= 2 →
  negb ((0 <=? x) && (x <=? 2) && (0 <=? y) && (y <=? 2)) = false.
Proof. intros. apply negb_false_iff. repeat (apply andb_true_iff; split); lia. Qed.

Lemma global_guard (x y : Z) :
  0 <= x <= 8 → 0 <= y <= 8 →
  negb ((0 <=? x) && (x <=? 8) && (0 <=? y) && (y <=? 8)) = false.
Proof. intros. apply negb_false_iff. repeat (apply andb_true_iff; split); lia. Qed.

Lemma slot_lt (x y : Z) : 0 <= x <= 2 → 0 <= y <= 2 → (slot x y < 9)%nat.
Proof. unfold slot. lia. Qed.

Lemma slot_inj (x y x' y' : Z) :
  0 <= x <= 2 → 0 <= y <= 2 → 0 <= x' <= 2 → 0 <= y' <= 2 →
  slot x y = slot x' y' → x = x' ∧ y = y'.
Proof. unfold slot. lia. Qed.

Lemma get_at_in (s : loc) (h : heap) (cells : list value) (x y : Z) :
  h !! s = Some (OSection cells) → length cells = 9%nat →
  0 <= x <= 2 → 0 <= y <= 2 →
  ∃ v, cells !! slot x y = Some v ∧ get_at s x y h = Ok v.
Proof.
  intros Hs Hlen Hx Hy. unfold get_at, slots_of.
  rewrite local_guard, Hs by done. simpl.
  apply getitem_in. lia.
Qed.

Lemma set_at_in (s : loc) (h : heap) (cells : list value) (v : value) (x y : Z) :
  h !! s = Some (OSection cells) → length cells = 9%nat →
  0 <= x <= 2 → 0 <= y <= 2 →
  set_at s v x y h = (Ok tt, <[s:=OSection (<[slot x y:=v]> cells)]> h).
Proof.
  intros Hs Hlen Hx Hy. unfold set_at, bind, read, slots_of.
  rewrite Hs. by rewrite setitem_in by lia.
Qed.

Lemma div3_range (x : Z) : 0 <= x <= 8 → 0 <= x / 3 <= 2 ∧ 0 <= x mod 3 <= 2.
Proof.
  intros Hx. pose proof (Z.mod_pos_bound x 3 eq_refl) as Hm.
  pose proof (Z.div_mod x 3) as Hd. lia.
Qed.

Lemma coord_split (x x' : Z) :
  x / 3 = x' / 3 → x mod 3 = x' mod 3 → x = x'.
Proof. intros Hd Hm. rewrite (Z.div_mod x 3), (Z.div_mod x' 3) by lia. lia. Qed.

(** ** Cells of a well-formed board *)

Lemma get_at_ext (s : loc) (x y : Z) (h h' : heap) :
  h' !! s = h !! s → get_at s x y h' = get_at s x y h.
Proof. intros E. unfold get_at, slots_of. by rewrite E. Qed.

Lemma getitem_elem {A} (l : list A) (i : Z) (a : A) :
  getitem l i = Ok a → a ∈ l.
Proof.
  unfold getitem. destruct (norm_index l i) as [j|]; [|done].
  destruct (l !! j) as [a'|] eqn:E; [|done].
  intros [= <-]. by eapply list_elem_of_lookup_2.
Qed.

Lemma get_at_elem (s : loc) (x y : Z) (h : heap) (v : value) :
  get_at s x y h = Ok v →
  ∃ slots, h !! s = Some (OSection slots) ∧ v ∈ slots.
Proof.
  unfold get_at, slots_of.
  destruct (negb _); [done|].
  destruct (h !! s) as [[slots|]|]; simpl; try done.
  intros Hg. exists slots. split; [done|]. by eapply getitem_elem.
Qed.

Lemma get_board_item_frame (b : loc) (x y : Z) (h h' : heap) :
  (∀ l, owns b h l → h' !! l = h !! l) →
  get_board_item b x y h' = get_board_item b x y h.
Proof.
  intros Hag. unfold get_board_item.
  destruct (negb _); [done|].
  rewrite (get_at_ext b _ _ h h') by (apply Hag; by left).
  destruct (get_at b (x / 3) (y / 3) h) as [sec|e] eqn:Eb; [|done]. simpl.
  destruct sec as [|n|s]; simpl; try done.
  apply get_at_ext, Hag. right.
  by apply get_at_elem in Eb.
Qed.

Lemma owns_frame (b : loc) (h h' : heap) (l : loc) :
  h' !! b = h !! b → owns b h' l ↔ owns b h l.
Proof. intros E. unfold owns. by rewrite E. Qed.

Lemma wf_board_frame (b : loc) (h h' : heap) :
  wf_board b h → (∀ l, owns b h l → h' !! l = h !! l) → wf_board b h'.
Proof.
  intros (slots & Hb & Hlen & Hsec & Hinj) Hag.
  exists slots. split; [rewrite Hag; [done | by left]|].
  split; [done|]. split; [|done].
  intros i Hi. destruct (Hsec i Hi) as (s & cells & Hi' & Hne & Hs & Hc).
  exists s, cells. repeat split; try done.
  rewrite Hag; [done|]. right. exists slots. split; [done|].
  by eapply list_elem_of_lookup_2.
Qed.

Lemma owns_allocated (b : loc) (h : heap) (l : loc) :
  wf_board b h → owns b h l → l ∈ dom h.
Proof.
  intros (slots & Hb & Hlen & Hsec & Hinj) [->|(slots' & Hb' & Hin)].
  - apply elem_of_dom. eauto.
  - rewrite Hb in Hb'. injection Hb' as <-.
    apply list_elem_of_lookup in Hin as [i Hi].
    destruct (Hsec i) as (s & cells & Hi' & _ & Hs & _).
    { apply lookup_lt_Some in Hi. lia. }
    rewrite Hi in Hi'. injection Hi' as <-. apply elem_of_dom. eauto.
Qed.

(** The section behind an in-range coordinate. *)
Lemma board_section (b : loc) (h : heap) (x y : Z) :
  wf_board b h → 0 <= x <= 8 → 0 <= y <= 8 →
  ∃ slots s cells,
    h !! b = Some (OSection slots) ∧
    slots !! slot (x / 3) (y / 3) = Some (VRef s) ∧ s ≠ b ∧
    h !! s = Some (OSection cells) ∧ length cells = 9%nat ∧
    get_at b (x / 3) (y / 3) h = Ok (VRef s).
Proof.
  intros (slots & Hb & Hlen & Hsec & Hinj) Hx Hy.
  destruct (div3_range x Hx) as [Hxd Hxm], (div3_range y Hy) as [Hyd Hym].
  destruct (Hsec (slot (x / 3) (y / 3))) as (s & cells & Hi & Hne & Hs & Hc);
    [by apply slot_lt|].
  exists slots, s, cells. repeat split; try done.
  destruct (get_at_in b h slots (x / 3) (y / 3)) as (v & Hv & ->); try done.
  congruence.
Qed.

Lemma get_board_item_in (b : loc) (h : heap) (x y : Z) :
  wf_board b h → 0 <= x <= 8 → 0 <= y <= 8 →
  ∃ s cells v,
    get_at b (x / 3) (y / 3) h = Ok (VRef s) ∧
    h !! s = Some (OSection cells) ∧ length cells = 9%nat ∧
    cells !! slot (x mod 3) (y mod 3) = Some v ∧
    get_board_item b x y h = Ok v.
Proof.
  intros Hwf Hx Hy.
  destruct (board_section b h x y) as (slots & s & cells & Hb & Hi & Hne & Hs & Hc & Hg);
    try done.
  destruct (div3_range x Hx) as [Hxd Hxm], (div3_range y Hy) as [Hyd Hym].
  destruct (get_at_in s h cells (x mod 3) (y mod 3)) as (v & Hv & Hgs); try done.
  exists s, cells, v. repeat split; try done.
  unfold get_board_item. rewrite global_guard by done.
  rewrite Hg. simpl. done.
Qed.

Lemma get_board_item_total (b : loc) (h : heap) (x y : Z) :
  wf_board b h → 0 <= x <= 8 → 0 <= y <= 8 →
  ∃ v, get_board_item b x y h = Ok v.
Proof.
  intros Hwf Hx Hy.
  destruct (get_board_item_in b h x y) as (? & ? & v & ? & ? & ? & ? & ?); eauto.
Qed.

Lemma get_board_item_out (b : loc) (h : heap) (x y : Z) :
  ¬ (0 <= x <= 8 ∧ 0 <= y <= 8) → get_board_item b x y h = Raise IndexError.
Proof.
  intros Hout. unfold get_board_item.
  destruct (negb _) eqn:E; [done|].
  apply negb_false_iff in E. repeat (apply andb_true_iff in E as [E ?]). lia.
Qed.

(** What [set_board_item] does to a well-formed board, in full. *)
Lemma set_board_item_in (b : loc) (h : heap) (v : value) (x y : Z) :
  wf_board b h → 0 <= x <= 8 → 0 <= y <= 8 →
  ∃ s cells,
    owns b h s ∧ s ≠ b ∧ h !! s = Some (OSection cells) ∧
    let h' := <[s:=OSection (<[slot (x mod 3) (y mod 3):=v]> cells)]> h in
    set_board_item b v x y h = (Ok tt, h') ∧
    wf_board b h' ∧
    get_board_item b x y h' = Ok v ∧
    (∀ x' y', (x', y') ≠ (x, y) →
       get_board_item b x' y' h' = get_board_item b x' y' h).
Proof.
  intros Hwf Hx Hy.
  destruct (board_section b h x y) as (slots & s & cells & Hb & Hi & Hne & Hs & Hc & Hg);
    try done.
  destruct (div3_range x Hx) as [Hxd Hxm], (div3_range y Hy) as [Hyd Hym].
  exists s, cells.
  assert (Hown : owns b h s).
  { right. exists slots. split; [done|]. by eapply list_elem_of_lookup_2. }
  set (k := slot (x mod 3) (y mod 3)).
  assert (Hk : (k < 9)%nat) by by apply slot_lt.
  set (h' := <[s:=OSection (<[k:=v]> cells)]> h).
  assert (Hb' : h' !! b = Some (OSection slots)).
  { unfold h'. by rewrite lookup_insert_ne. }
  assert (Hs' : h' !! s = Some (OSection (<[k:=v]> cells))).
  { unfold h'. by rewrite lookup_insert_eq. }
  assert (Hwf' : wf_board b h').
  { destruct Hwf as (slots0 & Hb0 & Hlen & Hsec & Hinj).
    rewrite Hb in Hb0. injection Hb0 as <-.
    exists slots. repeat split; try done.
    intros i Hi'. destruct (Hsec i Hi') as (s1 & cells1 & Hi1 & Hne1 & Hs1 & Hc1).
    destruct (decide (s1 = s)) as [->|Hd].
    - exists s, (<[k:=v]> cells). repeat split; try done.
      by rewrite length_insert.
    - exists s1, cells1. repeat split; try done.
      unfold h'. by rewrite lookup_insert_ne. }
  repeat split; try done.
  - unfold set_board_item, bind, read. rewrite Hg. simpl.
    by rewrite (set_at_in s h cells) by done.
  - destruct (get_board_item_in b h' x y) as (s1 & cells1 & v1 & Hg1 & Hs1 & _ & Hv1 & ->);
      try done.
    rewrite (get_at_ext b _ _ h h') in Hg1 by congruence.
    rewrite Hg in Hg1. injection Hg1 as <-.
    rewrite Hs' in Hs1. injection Hs1 as <-.
    fold k in Hv1. rewrite list_lookup_insert_eq in Hv1 by lia. congruence.
  - intros x' y' Hdiff.
    destruct (decide (0 <= x' <= 8 ∧ 0 <= y' <= 8)) as [[Hx' Hy']|Hout];
      [|by rewrite !get_board_item_out].
    destruct (div3_range x' Hx') as [Hxd' Hxm'], (div3_range y' Hy') as [Hyd' Hym'].
    destruct (get_board_item_in b h x' y') as (s0 & cells0 & v0 & Hg0 & Hs0 & _ & Hv0 & ->);
      try done.
    destruct (get_board_item_in b h' x' y') as (s1 & cells1 & v1 & Hg1 & Hs1 & _ & Hv1 & ->);
      try done.
    rewrite (get_at_ext b _ _ h h') in Hg1 by congruence.
    rewrite Hg0 in Hg1. injection Hg1 as <-.
    destruct (decide (s0 = s)) as [->|Hd].
    + rewrite Hs' in Hs1. injection Hs1 as <-.
      rewrite Hs in Hs0. injection Hs0 as <-.
      destruct (board_section b h x' y') as (slots' & s' & ? & Hb2 & Hi2 & _ & _ & _ & Hg2);
        try done.
      rewrite Hb in Hb2. injection Hb2 as <-.
      rewrite Hg0 in Hg2. injection Hg2 as <-.
      destruct Hwf as (slots0 & Hb0 & _ & _ & Hinj).
      rewrite Hb in Hb0. injection Hb0 as <-.
      pose proof (Hinj _ _ _ Hi Hi2) as Hsl.
      apply slot_inj in Hsl as [Hdx Hdy]; try done.
      rewrite list_lookup_insert_ne in Hv1; [congruence|].
      unfold k. intros Hsl. apply slot_inj in Hsl as [Hmx Hmy]; try done.
      apply Hdiff. f_equal; by apply coord_split.
    + unfold h' in Hs1. rewrite lookup_insert_ne in Hs1 by done. congruence.
Qed.

(** ** Loops *)

Lemma elem_of_pairs {A B} (xs : list A) (ys : list B) (x : A) (y : B) :
  (x, y) ∈ pairs xs ys ↔ x ∈ xs ∧ y ∈ ys.
Proof.
  unfold pairs. rewrite list_elem_of_bind. split.
  - intros (x' & Hin & Hx). apply list_elem_of_fmap in Hin as (y' & [= -> ->] & Hy). done.
  - intros [Hx Hy]. exists x. split; [|done]. apply list_elem_of_fmap. eauto.
Qed.

Lemma NoDup_pairs {A B} (xs : list A) (ys : list B) :
  NoDup xs → NoDup ys → NoDup (pairs xs ys).
Proof.
  intros Hxs Hys. unfold pairs. induction Hxs as [|x xs Hx Hxs IH]; simpl.
  - constructor.
  - apply NoDup_app. split; [|split; [|done]].
    + apply NoDup_fmap_2; [|done]. by intros ?? [=].
    + intros [x' y'] Hin Hin'.
      apply list_elem_of_fmap in Hin as (? & [= -> ->] & _).
      apply (elem_of_pairs xs ys) in Hin' as [? _]. done.
Qed.

Lemma for_in_ext {A S R} (xs : list A) (f g : A → S → result (flow S R)) (s : S) :
  (∀ x s, x ∈ xs → f x s = g x s) → for_in xs f s = for_in xs g s.
Proof.
  revert s. induction xs as [|x xs IH]; intros s Hfg; simpl; [done|].
  rewrite Hfg by left.
  destruct (g x s) as [[s'|r]|e]; try done.
  apply IH. intros. apply Hfg. by right.
Qed.

Lemma for_in_app {A S R} (xs ys : list A) (f : A → S → result (flow S R)) (s : S) :
  for_in (xs ++ ys) f s =
  match for_in xs f s with
  | Ok (Next s') => for_in ys f s'
  | other => other
  end.
Proof.
  revert s. induction xs as [|x xs IH]; intros s; simpl; [done|].
  destruct (f x s) as [[s'|r]|e]; try done.
Qed.

Lemma for_in_fmap {A B S R} (g : A → B) (xs : list A)
    (f : B → S → result (flow S R)) (s : S) :
  for_in (g <$> xs) f s = for_in xs (λ x, f (g x)) s.
Proof.
  revert s. induction xs as [|x xs IH]; intros s; simpl; [done|].
  destruct (f (g x) s) as [[s'|r]|e]; try done.
Qed.

(** Two nested loops run their body over the pairs in row-major order. *)
Lemma for_in_nested {A B S R} (xs : list A) (ys : list B)
    (f : A → B → S → result (flow S R)) (s : S) :
  for_in xs (λ x, for_in ys (f x)) s =
  for_in (pairs xs ys) (λ p, f p.1 p.2) s.
Proof.
  revert s. unfold pairs. induction xs as [|x xs IH]; intros s; simpl; [done|].
  rewrite for_in_app, for_in_fmap. simpl.
  destruct (for_in ys (f x) s) as [[s'|r]|e]; try done.
Qed.

(** A loop that reads a value per element and feeds it to a step function
    is the step function folded over the values read. *)
Lemma for_in_read {A V S R} (xs : list A) (rd : A → result V) (g : A → V)
    (step : V → S → result (flow S R)) (s : S) :
  (∀ x, x ∈ xs → rd x = Ok (g x)) →
  for_in xs (λ x s, let? v := rd x in step v s) s = for_in (g <$> xs) step s.
Proof.
  intros Hrd. rewrite for_in_fmap. apply for_in_ext.
  intros x s' Hx. by rewrite Hrd.
Qed.

Section checks.
Context {A V : Type} (f : A → result V) (p : V → bool).

Lemma for_in_check_Next (xs : list A) (u : unit) :
  for_in xs (check_body f p) tt = Ok (Next u) ↔
  ∀ x, x ∈ xs → ∃ a, f x = Ok a ∧ p a = true.
Proof.
  destruct u. induction xs as [|x xs IH]; simpl.
  - split; [|done]. intros _ x Hx. by apply elem_of_nil in Hx.
  - unfold check_body at 1. destruct (f x) as [a|e] eqn:Ef; simpl.
    + destruct (p a) eqn:Ep.
      * rewrite IH. split.
        -- intros Hall x' [->|Hin]%elem_of_cons; eauto.
        -- intros Hall x' Hin. apply Hall. by right.
      * split; [done|]. intros Hall.
        destruct (Hall x) as (a' & Ha' & Hp'); [by left|]. congruence.
    + split; [done|]. intros Hall.
      destruct (Hall x) as (a' & Ha' & Hp'); [by left|]. congruence.
Qed.

Lemma for_in_check_Return (xs : list A) (r : bool) :
  for_in xs (check_body f p) tt = Ok (Return r) → r = false.
Proof.
  induction xs as [|x xs IH]; simpl; [done|].
  unfold check_body at 1. destruct (f x) as [a|e]; simpl; [|done].
  destruct (p a); [done|]. by intros [= <-].
Qed.

Lemma for_in_check_total (xs : list A) :
  (∀ x, x ∈ xs → ∃ a, f x = Ok a) →
  ∃ r, for_in xs (check_body f p) tt = Ok r.
Proof.
  induction xs as [|x xs IH]; intros Hall; simpl; [eauto|].
  unfold check_body at 1. destruct (Hall x) as [a ->]; [by left|]. simpl.
  destruct (p a); [|eauto]. apply IH. intros. apply Hall. by right.
Qed.

End checks.

(** ** The duplicate scan *)

Lemma distinct_cons (v : value) (vs : list value) :
  distinct (v :: vs) ↔
  (∀ d j, v = VInt d → vs !! j ≠ Some (VInt d)) ∧ distinct vs.
Proof.
  unfold distinct. split.
  - intros H. split.
    + intros d j -> Hj. specialize (H 0%nat (S j) d eq_refl Hj). done.
    + intros i j d Hi Hj. specialize (H (S i) (S j) d Hi Hj). lia.
  - intros [H1 H2] [|i] [|j] d Hi Hj; simpl in *.
    + done.
    + injection Hi as ->. by destruct (H1 d j eq_refl).
    + injection Hj as ->. by destruct (H1 d i eq_refl).
    + f_equal. eauto.
Qed.

Lemma scan_spec (test : Z → bool) (vs : list value) (taken : list Z) :
  test 0 = false → test 1 = true →
  marks_ok taken → Forall cell_ok vs →
  ∃ r, for_in vs (mark test) taken = Ok r ∧
       (∀ b, r = Return b → b = false) ∧
       ((∃ t, r = Next t) ↔ distinct vs ∧ unmarked taken vs).
Proof.
  intros Ht0 Ht1. revert taken.
  induction vs as [|v vs IH]; intros taken Hm Hok.
  - exists (Next taken). simpl. split; [done|]. split; [done|].
    split; [|eauto]. intros _. split; intros ?; intros; done.
  - apply Forall_cons in Hok as [Hv Hok].
    assert (Hskip : mark test v taken = Ok (Next taken) →
              (∀ d, v ≠ VInt d) →
              ∃ r, for_in (v :: vs) (mark test) taken = Ok r ∧
                (∀ b, r = Return b → b = false) ∧
                ((∃ t, r = Next t) ↔ distinct (v :: vs) ∧ unmarked taken (v :: vs))).
    { intros Hmk Hni. destruct (IH taken Hm Hok) as (r & Hr & Hret & Hiff).
      exists r. simpl. rewrite Hmk. split; [done|]. split; [done|].
      rewrite Hiff, distinct_cons. unfold unmarked. split.
      - intros [Hd Hu]. split; [split; [|done]|].
        + intros d j ->. by destruct (Hni d).
        + intros [|j] d Hj; simpl in Hj; [|by eauto].
          injection Hj as ->. by destruct (Hni d).
      - intros [[_ Hd] Hu]. split; [done|]. intros j d Hj. by apply (Hu (S j)). }
    destruct v as [|n|l]; [apply Hskip; done | | apply Hskip; done].
    clear Hskip. specialize (Hv n eq_refl). destruct Hm as [Hlen Hbit].
    destruct (getitem_in taken (n - 1)) as (t & Hlk & Hget); [lia|].
    destruct (Hbit _ _ Hlk) as [-> | ->].
    + (* the digit is new: mark it and go on *)
      set (taken' := <[Z.to_nat (n - 1):=1]> taken).
      assert (Hm' : marks_ok taken').
      { split; [unfold taken'; by rewrite length_insert|].
        intros i t. unfold taken'.
        destruct (decide (i = Z.to_nat (n - 1))) as [->|Hne].
        - rewrite list_lookup_insert_eq by lia. intros [= <-]. by right.
        - rewrite list_lookup_insert_ne by done. apply Hbit. }
      destruct (IH taken' Hm' Hok) as (r & Hr & Hret & Hiff).
      exists r. simpl. rewrite Hget. simpl. rewrite Ht0.
      rewrite setitem_in by lia. simpl. fold taken'.
      split; [done|]. split; [done|].
      rewrite Hiff, distinct_cons. unfold unmarked. split.
      * intros [Hd Hu]. split; [split; [|done]|].
        -- intros d j [= <-] Hj. specialize (Hu j n Hj).
           unfold taken' in Hu. rewrite list_lookup_insert_eq in Hu by lia. done.
        -- intros [|j] d Hj; simpl in Hj.
           ++ by injection Hj as <-.
           ++ specialize (Hu j d Hj). unfold taken' in Hu.
              destruct (decide (Z.to_nat (n - 1) = Z.to_nat (d - 1))) as [E|Hne].
              ** rewrite E, list_lookup_insert_eq in Hu; [done|].
                 rewrite <- E. lia.
              ** by rewrite list_lookup_insert_ne in Hu.
      * intros [[Hfirst Hd] Hu]. split; [done|]. intros j d Hj.
        assert (Hdn : d ≠ n).
        { intros ->. by destruct (Hfirst n j eq_refl). }
        assert (Hdr : 1 <= d <= 9).
        { rewrite Forall_lookup in Hok. by apply (Hok j (VInt d) Hj d). }
        unfold taken'. rewrite list_lookup_insert_ne by lia.
        by apply (Hu (S j)).
    + (* the digit is already marked *)
      exists (Return false). simpl. rewrite Hget. simpl. rewrite Ht1.
      split; [done|]. split; [by intros b [= <-]|].
      split; [by intros [t [=]]|].
      intros [_ Hu]. specialize (Hu 0%nat n eq_refl). congruence.
Qed.

Lemma unmarked_fresh (vs : list value) :
  Forall cell_ok vs → unmarked (replicate 9 0) vs.
Proof.
  intros Hok j d Hj. rewrite Forall_lookup in Hok.
  pose proof (Hok j _ Hj d eq_refl).
  apply lookup_replicate. split; [done|lia].
Qed.

Lemma marks_ok_fresh : marks_ok (replicate 9 0).
Proof.
  split; [done|]. intros i t [-> _]%lookup_replicate. by left.
Qed.

(** The scan from fresh marks, as its caller sees it. *)
Lemma scan_fresh (test : Z → bool) (vs : list value) :
  test 0 = false → test 1 = true → Forall cell_ok vs →
  ∃ r, (let? r := for_in vs (mark test) (replicate 9 0) in
        finish r (λ _, Ok true)) = Ok r ∧
       (r = true ↔ distinct vs).
Proof.
  intros Ht0 Ht1 Hok.
  destruct (scan_spec test vs (replicate 9 0) Ht0 Ht1 marks_ok_fresh Hok)
    as (r & -> & Hret & Hiff). simpl.
  destruct r as [t|b]; simpl.
  - exists true. split; [done|]. split; [|done]. intros _. apply Hiff. eauto.
  - rewrite (Hret b eq_refl). exists false. split; [done|].
    split; [done|]. intros Hd.
    destruct Hiff as [_ Hiff]. destruct Hiff as [t [=]].
    split; [done | by apply unmarked_fresh].
Qed.

(** A digit sits at two positions of [g <$> keys] exactly when two keys
    carry it. *)
Lemma distinct_fmap {K} (g : K → value) (keys : list K) :
  NoDup keys →
  distinct (g <$> keys) ↔
  ∀ k1 k2 d, k1 ∈ keys → k2 ∈ keys → g k1 = VInt d → g k2 = VInt d → k1 = k2.
Proof.
  intros Hnd. unfold distinct. split.
  - intros H k1 k2 d [i Hi]%list_elem_of_lookup [j Hj]%list_elem_of_lookup H1 H2.
    assert (i = j) as ->.
    { apply (H i j d); rewrite list_lookup_fmap; [rewrite Hi | rewrite Hj];
        simpl; congruence. }
    congruence.
  - intros H i j d Hi Hj. rewrite list_lookup_fmap in Hi, Hj.
    destruct (keys !! i) as [k1|] eqn:E1; [|done].
    destruct (keys !! j) as [k2|] eqn:E2; [|done].
    simpl in Hi, Hj. injection Hi as Hi. injection Hj as Hj.
    assert (k1 = k2) as ->.
    { apply (H k1 k2 d); try done; by eapply list_elem_of_lookup_2. }
    by eapply NoDup_lookup.
Qed.

(** ** Rows, columns and boxes *)

Lemma NoDup_range (n : nat) : NoDup (range n).
Proof.
  unfold range. apply NoDup_fmap_2; [|apply NoDup_seq].
  intros ???. lia.
Qed.

Lemma grid_ok_cell (b : loc) (h : heap) (x y : Z) :
  grid_ok b h → 0 <= x <= 8 → 0 <= y <= 8 →
  get_board_item b x y h = Ok (cell b h x y) ∧ cell_ok (cell b h x y).
Proof.
  intros Hok Hx Hy. destruct (Hok x y Hx Hy) as (v & Hv & Hc).
  unfold cell. by rewrite Hv.
Qed.

Lemma is_line_valid_horizontal_spec (b : loc) (y : Z) (h : heap) :
  grid_ok b h → 0 <= y <= 8 →
  ∃ r, is_line_valid_horizontal b y h = Ok r ∧ (r = true ↔ row_distinct b y h).
Proof.
  intros Hok Hy. unfold is_line_valid_horizontal.
  rewrite (for_in_ext _ _
    (λ x s, let? v := get_board_item b x y h in mark (λ t, negb (t =? 0)) v s))
    by done.
  rewrite (for_in_read _ _ (λ x, cell b h x y)).
  2:{ intros x Hx%elem_of_range. apply grid_ok_cell; [done|lia|done]. }
  destruct (scan_fresh (λ t, negb (t =? 0)) ((λ x, cell b h x y) <$> range 9))
    as (r & Hr & Hiff); [done|done| |].
  { apply Forall_fmap, Forall_forall. intros x Hx%elem_of_range.
    apply grid_ok_cell; [done|lia|done]. }
  exists r. split; [done|].
  rewrite Hiff, distinct_fmap by apply NoDup_range.
  unfold row_distinct. split.
  - intros H x1 x2 d Hx1 Hx2 Hd H1 H2.
    apply (H x1 x2 d); try (apply elem_of_range; lia);
      unfold cell; [by rewrite H1 | by rewrite H2].
  - intros H x1 x2 d Hx1%elem_of_range Hx2%elem_of_range H1 H2.
    destruct (grid_ok_cell b h x1 y) as [G1 C1]; [done|lia|done|].
    destruct (grid_ok_cell b h x2 y) as [G2 C2]; [done|lia|done|].
    apply (H x1 x2 d); try lia; [by apply C1 | congruence | congruence].
Qed.

Lemma is_line_valid_vertical_spec (b : loc) (x : Z) (h : heap) :
  grid_ok b h → 0 <= x <= 8 →
  ∃ r, is_line_valid_vertical b x h = Ok r ∧ (r = true ↔ column_distinct b x h).
Proof.
  intros Hok Hx. unfold is_line_valid_vertical.
  rewrite (for_in_ext _ _
    (λ y s, let? v := get_board_item b x y h in mark (λ t, negb (t =? 0)) v s))
    by done.
  rewrite (for_in_read _ _ (λ y, cell b h x y)).
  2:{ intros y Hy%elem_of_range. apply grid_ok_cell; [done|done|lia]. }
  destruct (scan_fresh (λ t, negb (t =? 0)) ((λ y, cell b h x y) <$> range 9))
    as (r & Hr & Hiff); [done|done| |].
  { apply Forall_fmap, Forall_forall. intros y Hy%elem_of_range.
    apply grid_ok_cell; [done|done|lia]. }
  exists r. split; [done|].
  rewrite Hiff, distinct_fmap by apply NoDup_range.
  unfold column_distinct. split.
  - intros H y1 y2 d Hy1 Hy2 Hd H1 H2.
    apply (H y1 y2 d); try (apply elem_of_range; lia);
      unfold cell; [by rewrite H1 | by rewrite H2].
  - intros H y1 y2 d Hy1%elem_of_range Hy2%elem_of_range H1 H2.
    destruct (grid_ok_cell b h x y1) as [G1 C1]; [done|done|lia|].
    destruct (grid_ok_cell b h x y2) as [G2 C2]; [done|done|lia|].
    apply (H y1 y2 d); try lia; [by apply C1 | congruence | congruence].
Qed.

(** Reading through the board is reading the section that owns the cell. *)
Lemma get_board_item_Ok (b : loc) (x y : Z) (h : heap) (v : value) :
  get_board_item b x y h = Ok v →
  ∃ s, get_at b (x / 3) (y / 3) h = Ok (VRef s) ∧
       get_at s (x mod 3) (y mod 3) h = Ok v.
Proof.
  unfold get_board_item. destruct (negb _); [done|].
  destruct (get_at b (x / 3) (y / 3) h) as [[|n|s]|e]; simpl; try done.
  eauto.
Qed.

Lemma box_coord (m l : Z) :
  0 <= l <= 2 → (3 * m + l) / 3 = m ∧ (3 * m + l) mod 3 = l.
Proof.
  intros Hl.
  pose proof (Z.div_mod (3 * m + l) 3) as Hd.
  pose proof (Z.mod_pos_bound (3 * m + l) 3 eq_refl) as Hm. lia.
Qed.

Lemma box_cells (b : loc) (mx my : Z) (h : heap) :
  grid_ok b h → 0 <= mx <= 2 → 0 <= my <= 2 →
  ∃ s, get_at b mx my h = Ok (VRef s) ∧
       ∀ lx ly, 0 <= lx <= 2 → 0 <= ly <= 2 →
         get_at s lx ly h = Ok (cell b h (3 * mx + lx) (3 * my + ly)).
Proof.
  intros Hok Hmx Hmy.
  assert (Hcell : ∀ lx ly, 0 <= lx <= 2 → 0 <= ly <= 2 →
            ∃ s, get_at b mx my h = Ok (VRef s) ∧
                 get_at s lx ly h = Ok (cell b h (3 * mx + lx) (3 * my + ly))).
  { intros lx ly Hlx Hly.
    destruct (grid_ok_cell b h (3 * mx + lx) (3 * my + ly)) as [G _];
      [done|lia|lia|].
    apply get_board_item_Ok in G as (s & G1 & G2).
    destruct (box_coord mx lx Hlx) as [Ex1 Ex2].
    destruct (box_coord my ly Hly) as [Ey1 Ey2].
    rewrite Ex1, Ey1 in G1. rewrite Ex2, Ey2 in G2. eauto. }
  destruct (Hcell 0 0) as (s & Hs & _); [lia|lia|].
  exists s. split; [done|]. intros lx ly Hlx Hly.
  destruct (Hcell lx ly Hlx Hly) as (s' & Hs' & Hg). congruence.
Qed.

Lemma is_section_valid_spec (b : loc) (mx my : Z) (h : heap) :
  grid_ok b h → 0 <= mx <= 2 → 0 <= my <= 2 →
  ∃ r, is_section_valid b mx my h = Ok r ∧ (r = true ↔ box_distinct b mx my h).
Proof.
  intros Hok Hmx Hmy. unfold is_section_valid.
  destruct (box_cells b mx my h) as (s & Hs & Hcells); try done.
  assert (Hflat : is_section_valid b mx my h =
            let? r := for_in (pairs (range 3) (range 3))
                        (λ p t, let? v := get_at s p.1 p.2 h in
                                mark (λ t, t >? 0) v t) (replicate 9 0) in
            finish r (λ _, Ok true)).
  { unfold is_section_valid. rewrite Hs.
    exact (f_equal (λ m, let? r := m in finish r (λ _, Ok true))
             (for_in_nested (range 3) (range 3)
                (λ x y t, let? v := get_at s x y h in mark (λ t, t >? 0) v t)
                (replicate 9 0))). }
  fold (is_section_valid b mx my h). rewrite Hflat. clear Hflat.
  set (g := λ p : Z * Z, cell b h (3 * mx + p.1) (3 * my + p.2)).
  rewrite (for_in_read _ _ g).
  2:{ intros [lx ly] [Hx%elem_of_range Hy%elem_of_range]%elem_of_pairs.
      apply Hcells; simpl; lia. }
  destruct (scan_fresh (λ t, t >? 0) (g <$> pairs (range 3) (range 3)))
    as (r & Hr & Hiff); [done|done| |].
  { apply Forall_fmap, Forall_forall.
    intros [lx ly] [Hx%elem_of_range Hy%elem_of_range]%elem_of_pairs.
    apply grid_ok_cell; [done|simpl; lia|simpl; lia]. }
  exists r. split; [done|].
  rewrite Hiff, distinct_fmap by (apply NoDup_pairs; apply NoDup_range).
  unfold box_distinct. split.
  - intros H lx1 ly1 lx2 ly2 d Hx1 Hy1 Hx2 Hy2 Hd H1 H2.
    assert ((lx1, ly1) = (lx2, ly2)) as [= -> ->]; [|done].
    apply (H _ _ d); try (apply elem_of_pairs; split; apply elem_of_range; lia);
      unfold g, cell; simpl; [by rewrite H1 | by rewrite H2].
  - intros H [lx1 ly1] [lx2 ly2] d
      [Hx1%elem_of_range Hy1%elem_of_range]%elem_of_pairs
      [Hx2%elem_of_range Hy2%elem_of_range]%elem_of_pairs H1 H2.
    unfold g in H1, H2. simpl in H1, H2.
    destruct (grid_ok_cell b h (3 * mx + lx1) (3 * my + ly1)) as [G1 C1];
      [done|lia|lia|].
    destruct (grid_ok_cell b h (3 * mx + lx2) (3 * my + ly2)) as [G2 C2];
      [done|lia|lia|].
    destruct (H lx1 ly1 lx2 ly2 d) as [-> ->]; try lia; try congruence.
    by apply C1.
Qed.

(** ** [is_valid] and [is_solved] *)

Lemma check_then {A V} (f : A → result V) (p : V → bool) (xs : list A)
    (after : result bool) :
  (let? r := for_in xs (check_body f p) tt in finish r (λ _, after)) = Ok true ↔
  (∀ x, x ∈ xs → ∃ a, f x = Ok a ∧ p a = true) ∧ after = Ok true.
Proof.
  rewrite <- (for_in_check_Next f p xs tt).
  destruct (for_in xs (check_body f p) tt) as [[[]|r]|e] eqn:E; simpl.
  - split; [done | by intros [_ ?]].
  - apply for_in_check_Return in E as ->. split; [done | by intros [? _]].
  - split; [done | by intros [? _]].
Qed.

Lemma check_then_total {A V} (f : A → result V) (p : V → bool) (xs : list A)
    (after : result bool) :
  (∀ x, x ∈ xs → ∃ a, f x = Ok a) → (∃ r, after = Ok r) →
  ∃ r, (let? r := for_in xs (check_body f p) tt in finish r (λ _, after)) = Ok r.
Proof.
  intros Hf [ra Ha].
  destruct (for_in_check_total f p xs Hf) as [r ->]. simpl.
  destruct r; simpl; eauto.
Qed.

Lemma is_valid_unfold (b : loc) (h : heap) :
  is_valid b h =
  let? r1 := for_in (range 9)
               (check_body (λ x, is_line_valid_vertical b x h) (λ ok, ok)) tt in
  finish r1 (λ _,
  let? r2 := for_in (range 9)
               (check_body (λ y, is_line_valid_horizontal b y h) (λ ok, ok)) tt in
  finish r2 (λ _,
  let? r3 := for_in (pairs (range 3) (range 3))
               (check_body (λ p, is_section_valid b p.1 p.2 h) (λ ok, ok)) tt in
  finish r3 (λ _, Ok true))).
Proof.
  unfold is_valid.
  rewrite (for_in_ext (range 9)
    (λ x (_ : unit), let? ok := is_line_valid_vertical b x h in
                     if negb ok then Ok (Return false) else Ok (Next tt))
    (check_body (λ x, is_line_valid_vertical b x h) (λ ok, ok)) tt).
  2:{ intros x [] _. unfold check_body.
      by destruct (is_line_valid_vertical b x h) as [[]|]. }
  rewrite (for_in_ext (range 9)
    (λ y (_ : unit), let? ok := is_line_valid_horizontal b y h in
                     if negb ok then Ok (Return false) else Ok (Next tt))
    (check_body (λ y, is_line_valid_horizontal b y h) (λ ok, ok)) tt).
  2:{ intros y [] _. unfold check_body.
      by destruct (is_line_valid_horizontal b y h) as [[]|]. }
  rewrite (for_in_nested (range 3) (range 3)
    (λ x y (_ : unit), let? ok := is_section_valid b x y h in
                       if negb ok then Ok (Return false) else Ok (Next tt)) tt).
  rewrite (for_in_ext (pairs (range 3) (range 3)) _
    (check_body (λ p, is_section_valid b p.1 p.2 h) (λ ok, ok)) tt).
  2:{ intros [x y] [] _. unfold check_body. simpl.
      by destruct (is_section_valid b x y h) as [[]|]. }
  done.
Qed.

(** [is_valid] answers [True] exactly when each of the 27 unit checks
    does; this needs no assumption on the store. *)
Lemma is_valid_true_iff (b : loc) (h : heap) :
  is_valid b h = Ok true ↔
  (∀ x, 0 <= x <= 8 → is_line_valid_vertical b x h = Ok true) ∧
  (∀ y, 0 <= y <= 8 → is_line_valid_horizontal b y h = Ok true) ∧
  (∀ mx my, 0 <= mx <= 2 → 0 <= my <= 2 → is_section_valid b mx my h = Ok true).
Proof.
  rewrite is_valid_unfold, !check_then. split.
  - intros (Hv & Hh & Hs & _). repeat split.
    + intros x Hx. destruct (Hv x) as (a & ? & ->); [apply elem_of_range; lia|done].
    + intros y Hy. destruct (Hh y) as (a & ? & ->); [apply elem_of_range; lia|done].
    + intros mx my Hx Hy. destruct (Hs (mx, my)) as (a & ? & ->); [|done].
      apply elem_of_pairs. split; apply elem_of_range; lia.
  - intros (Hv & Hh & Hs). repeat split; try done.
    + intros x Hx%elem_of_range. exists true. split; [apply Hv; lia|done].
    + intros y Hy%elem_of_range. exists true. split; [apply Hh; lia|done].
    + intros [mx my] [Hx%elem_of_range Hy%elem_of_range]%elem_of_pairs.
      exists true. split; [apply Hs; simpl; lia|done].
Qed.

Lemma is_valid_total (b : loc) (h : heap) :
  grid_ok b h → ∃ r, is_valid b h = Ok r.
Proof.
  intros Hok. rewrite is_valid_unfold.
  apply check_then_total.
  { intros x Hx%elem_of_range.
    destruct (is_line_valid_vertical_spec b x h) as (r & ? & _); [done|lia|eauto]. }
  apply check_then_total.
  { intros y Hy%elem_of_range.
    destruct (is_line_valid_horizontal_spec b y h) as (r & ? & _); [done|lia|eauto]. }
  apply check_then_total; [|eauto].
  intros [mx my] [Hx%elem_of_range Hy%elem_of_range]%elem_of_pairs.
  destruct (is_section_valid_spec b mx my h) as (r & ? & _);
    [done|simpl;lia|simpl;lia|eauto].
Qed.

Lemma is_solved_unfold (b : loc) (h : heap) :
  is_solved b h =
  let? r := for_in (pairs (range 9) (range 9))
              (check_body (λ p, get_board_item b p.1 p.2 h) occupied) tt in
  finish r (λ _, is_valid b h).
Proof.
  unfold is_solved.
  rewrite (for_in_nested (range 9) (range 9)
    (λ x y (_ : unit), let? v := get_board_item b x y h in
                       match v with
                       | VNone => Ok (Return false)
                       | _ => Ok (Next tt)
                       end) tt).
  rewrite (for_in_ext (pairs (range 9) (range 9)) _
    (check_body (λ p, get_board_item b p.1 p.2 h) occupied) tt); [done|].
  intros [x y] [] _. unfold check_body. simpl.
  by destruct (get_board_item b x y h) as [[]|].
Qed.

(** [is_solved] answers [True] exactly when no cell reads [None] and
    [is_valid] answers [True]; this needs no assumption on the store. *)
Lemma is_solved_true_iff (b : loc) (h : heap) :
  is_solved b h = Ok true ↔
  (∀ x y, 0 <= x <= 8 → 0 <= y <= 8 →
     ∃ v, get_board_item b x y h = Ok v ∧ v ≠ VNone) ∧
  is_valid b h = Ok true.
Proof.
  rewrite is_solved_unfold, check_then. split.
  - intros [Hc Hv]. split; [|done]. intros x y Hx Hy.
    destruct (Hc (x, y)) as (v & Hg & Ho).
    { apply elem_of_pairs. split; apply elem_of_range; lia. }
    exists v. split; [done|]. by intros ->.
  - intros [Hc Hv]. split; [|done].
    intros [x y] [Hx%elem_of_range Hy%elem_of_range]%elem_of_pairs.
    destruct (Hc x y) as (v & Hg & Hne); [lia|lia|].
    exists v. split; [done|]. by destruct v.
Qed.

Lemma sudoku_grid_ok (b : loc) (h : heap) : sudoku_grid b h → grid_ok b h.
Proof.
  intros Hs x y Hx Hy. destruct (Hs x y Hx Hy) as [Hn|(d & Hd & Hg)].
  - exists VNone. split; [done|]. by intros n.
  - exists (VInt d). split; [done|]. by intros n [= <-].
Qed.

Lemma is_solved_total (b : loc) (h : heap) :
  grid_ok b h → ∃ r, is_solved b h = Ok r.
Proof.
  intros Hok. rewrite is_solved_unfold.
  apply check_then_total; [|by apply is_valid_total].
  intros [x y] [Hx%elem_of_range Hy%elem_of_range]%elem_of_pairs.
  destruct (Hok x y) as (v & ? & _); [lia|lia|eauto].
Qed.

(** ** Store-mutating loops *)

Lemma for_each_app {A} (xs ys : list A) (body : A → M unit) (h : heap) :
  for_each (xs ++ ys) body h =
  (let! _ := for_each xs body in for_each ys body) h.
Proof.
  revert h. induction xs as [|x xs IH]; intros h; simpl; [done|].
  unfold bind in *. destruct (body x h) as [[[]|e] h1]; [|done].
  apply IH.
Qed.

Lemma for_each_fmap {A B} (g : A → B) (xs : list A) (body : B → M unit) (h : heap) :
  for_each (g <$> xs) body h = for_each xs (λ x, body (g x)) h.
Proof.
  revert h. induction xs as [|x xs IH]; intros h; simpl; [done|].
  unfold bind. destruct (body (g x) h) as [[[]|e] h1]; [|done]. apply IH.
Qed.

Lemma for_each_nested {A B} (xs : list A) (ys : list B)
    (f : A → B → M unit) (h : heap) :
  for_each xs (λ x, for_each ys (f x)) h =
  for_each (pairs xs ys) (λ p, f p.1 p.2) h.
Proof.
  revert h. unfold pairs. induction xs as [|x xs IH]; intros h; simpl; [done|].
  rewrite for_each_app. unfold bind. rewrite for_each_fmap. simpl.
  destruct (for_each ys (f x) h) as [[[]|e] h1]; [|done]. apply IH.
Qed.

(** The invariant rule: [I done h] holds of the elements done so far. *)
Lemma for_each_inv {A} (I : list A → heap → Prop) (body : A → M unit)
    (xs : list A) (h : heap) :
  I [] h →
  (∀ done x h, I done h → x ∈ xs →
     ∃ h', body x h = (Ok tt, h') ∧ I (done ++ [x]) h') →
  ∃ h', for_each xs body h = (Ok tt, h') ∧ I xs h'.
Proof.
  intros H0 Hstep.
  assert (Hgen : ∀ rest done h, I done h → (∀ x, x ∈ rest → x ∈ xs) →
            ∃ h', for_each rest body h = (Ok tt, h') ∧ I (done ++ rest) h').
  { induction rest as [|x rest IH]; intros done h1 HI Hsub; simpl.
    - exists h1. by rewrite app_nil_r.
    - destruct (Hstep done x h1 HI) as (h2 & Hb & HI2); [apply Hsub; by left|].
      destruct (IH (done ++ [x]) h2 HI2) as (h3 & Hf & HI3).
      { intros. apply Hsub. by right. }
      exists h3. unfold bind. rewrite Hb. split; [done|].
      by rewrite <- app_assoc in HI3. }
  apply (Hgen xs [] h H0). done.
Qed.

Lemma alloc_fresh (o : obj) (h : heap) :
  ∃ l, alloc o h = (Ok l, <[l:=o]> h) ∧ l ∉ dom h.
Proof. exists (fresh (dom h)). split; [done | apply is_fresh]. Qed.

(** ** [Board()] *)

Lemma building_step (b : loc) (h : heap) (done : list (Z * Z)) (h1 : heap)
    (x y : Z) :
  b ∉ dom h → building b h done h1 → 0 <= x <= 2 → 0 <= y <= 2 →
  ∃ h2, (let! s := Section_init in set_at b (VRef s) x y) h1 = (Ok tt, h2) ∧
        building b h (done ++ [(x, y)]) h2.
Proof.
  intros Hb (slots & Hs & Hlen & Hold & Hent & Hinj & Hdone) Hx Hy.
  unfold bind, Section_init.
  destruct (alloc_fresh (OSection (replicate 9 VNone)) h1) as (s & -> & Hfresh).
  assert (Hsb : s ≠ b).
  { intros ->. apply Hfresh, elem_of_dom. eauto. }
  set (h1' := <[s:=OSection (replicate 9 VNone)]> h1).
  assert (Hs' : h1' !! b = Some (OSection slots)).
  { unfold h1'. by rewrite lookup_insert_ne. }
  rewrite (set_at_in b h1' slots) by done.
  eexists. split; [done|].
  set (k := slot x y). assert (Hk : (k < 9)%nat) by by apply slot_lt.
  exists (<[k:=VRef s]> slots).
  assert (Hnew : ∀ l, l ∈ dom h1 → l ≠ b →
            <[b:=OSection (<[k:=VRef s]> slots)]> h1' !! l = h1 !! l).
  { intros l Hl Hlb. rewrite lookup_insert_ne by done.
    unfold h1'. rewrite lookup_insert_ne; [done|]. by intros ->. }
  split; [by rewrite lookup_insert_eq|].
  split; [by rewrite length_insert|].
  split; [|split; [|split]].
  - intros l Hl. rewrite <- (Hold l Hl). apply Hnew.
    + apply elem_of_dom. rewrite Hold by done. by apply elem_of_dom.
    + by intros ->.
  - intros i v Hi. destruct (decide (i = k)) as [->|Hne].
    + rewrite list_lookup_insert_eq in Hi by lia. injection Hi as <-.
      right. exists s. repeat split; try done.
      * intros Hin. apply Hfresh, elem_of_dom. rewrite Hold by done.
        by apply elem_of_dom.
      * rewrite lookup_insert_ne by done. unfold h1'. by rewrite lookup_insert_eq.
    + rewrite list_lookup_insert_ne in Hi by done.
      destruct (Hent i v Hi) as [->|(s0 & -> & Hs0b & Hs0h & Hs0)]; [by left|].
      right. exists s0. repeat split; try done.
      rewrite Hnew; [done| |done]. apply elem_of_dom. eauto.
  - intros i j s0 Hi Hj.
    assert (Hold_ne : ∀ i0, slots !! i0 = Some (VRef s0) → s0 ≠ s).
    { intros i0 Hi0 ->. destruct (Hent i0 _ Hi0) as [|(s1 & [= <-] & _ & _ & Hs1)]; [done|].
      apply Hfresh, elem_of_dom. eauto. }
    destruct (decide (i = k)) as [->|Hik], (decide (j = k)) as [->|Hjk]; try done.
    + rewrite list_lookup_insert_eq in Hi by lia. injection Hi as <-.
      rewrite list_lookup_insert_ne in Hj by done. by destruct (Hold_ne j Hj).
    + rewrite list_lookup_insert_eq in Hj by lia. injection Hj as <-.
      rewrite list_lookup_insert_ne in Hi by done. by destruct (Hold_ne i Hi).
    + rewrite list_lookup_insert_ne in Hi, Hj by done. eauto.
  - intros p [Hp|Hp]%elem_of_app.
    + destruct (Hdone p Hp) as [s0 Hs0].
      destruct (decide (slot p.1 p.2 = k)) as [->|Hne].
      * exists s. by rewrite list_lookup_insert_eq by lia.
      * exists s0. by rewrite list_lookup_insert_ne.
    + apply list_elem_of_singleton in Hp as ->. simpl. fold k.
      exists s. by rewrite list_lookup_insert_eq by lia.
Qed.

Lemma slot_covered (i : nat) :
  (i < 9)%nat →
  ∃ p : Z * Z, p ∈ pairs (range 3) (range 3) ∧ slot p.1 p.2 = i.
Proof.
  intros Hi. exists (Z.of_nat (i mod 3), Z.of_nat (i / 3)).
  pose proof (Nat.mod_upper_bound i 3 ltac:(lia)).
  pose proof (Nat.div_mod_eq i 3).
  assert (i / 3 < 3)%nat by (apply Nat.Div0.div_lt_upper_bound; lia).
  split.
  - apply elem_of_pairs. split; apply elem_of_range; lia.
  - unfold slot. cbn [fst snd]. lia.
Qed.

Lemma Board_init_spec (h : heap) :
  ∃ b h',
    Board_init h = (Ok b, h') ∧ (b ∉ dom h) ∧ wf_board b h' ∧
    (∀ l, l ∈ dom h → h' !! l = h !! l) ∧
    (∀ l, owns b h' l → l ∉ dom h) ∧
    (∀ x y, 0 <= x <= 8 → 0 <= y <= 8 → get_board_item b x y h' = Ok VNone).
Proof.
  unfold Board_init, bind at 1.
  destruct (alloc_fresh (OSection (replicate 9 VNone)) h) as (b & -> & Hb).
  set (h1 := <[b:=OSection (replicate 9 VNone)]> h).
  destruct (for_each_inv (building b h)
              (λ p, let! s := Section_init in set_at b (VRef s) p.1 p.2)
              (pairs (range 3) (range 3)) h1) as (h2 & Hrun & Hfin).
  { exists (replicate 9 VNone). unfold h1. rewrite lookup_insert_eq.
    repeat split; try done.
    - intros l Hl. rewrite lookup_insert_ne; [done|]. by intros ->.
    - intros i v [-> _]%lookup_replicate. by left.
    - by intros i j s [? _]%lookup_replicate.
    - by intros p Hp%elem_of_nil. }
  { intros done [x y] h' HI [Hx%elem_of_range Hy%elem_of_range]%elem_of_pairs.
    apply building_step; simpl; try done; lia. }
  exists b, h2. unfold bind, set_sections. rewrite for_each_nested, Hrun.
  destruct Hfin as (slots & Hs & Hlen & Hold & Hent & Hinj & Hdone).
  assert (Hsec : ∀ i, (i < 9)%nat →
            ∃ s, slots !! i = Some (VRef s) ∧ s ≠ b ∧ (s ∉ dom h) ∧
                 h2 !! s = Some (OSection (replicate 9 VNone))).
  { intros i Hi. destruct (slot_covered i Hi) as (p & Hp & <-).
    destruct (Hdone p Hp) as [s Hi'].
    destruct (Hent _ _ Hi') as [|(s' & [= <-] & ? & ? & ?)]; [done|]. eauto. }
  assert (Hwf : wf_board b h2).
  { exists slots. repeat split; try done. intros i Hi.
    destruct (Hsec i Hi) as (s & ? & ? & ? & ?).
    exists s, (replicate 9 VNone). repeat split; try done. }
  repeat split; try done.
  - intros l [->|(slots' & Hs' & Hin)]; [done|].
    rewrite Hs in Hs'. injection Hs' as <-.
    apply list_elem_of_lookup in Hin as [i Hi].
    destruct (Hent _ _ Hi) as [|(s' & [= <-] & ? & ? & ?)]; done.
  - intros x y Hx Hy.
    destruct (get_board_item_in b h2 x y Hwf Hx Hy)
      as (s & cells & v & Hg & Hc & _ & Hv & ->).
    apply get_at_elem in Hg as (slots' & Hs' & Hin).
    rewrite Hs in Hs'. injection Hs' as <-.
    apply list_elem_of_lookup in Hin as [i Hi].
    destruct (Hent _ _ Hi) as [|(s' & [= <-] & _ & _ & Hs2)]; [done|].
    assert (cells = replicate 9 VNone) as -> by congruence.
    apply lookup_replicate in Hv as [-> _]. done.
Qed.

(** ** [get_copy] *)

Lemma get_board_item_extend (b : loc) (h h' : heap) (x y : Z) :
  wf_board b h → (∀ l, l ∈ dom h → h' !! l = h !! l) →
  get_board_item b x y h' = get_board_item b x y h.
Proof.
  intros Hwf Hext. apply get_board_item_frame.
  intros l Hl. apply Hext. by eapply owns_allocated.
Qed.

Lemma wf_board_extend (b : loc) (h h' : heap) :
  wf_board b h → (∀ l, l ∈ dom h → h' !! l = h !! l) → wf_board b h'.
Proof.
  intros Hwf Hext. apply (wf_board_frame b h); [done|].
  intros l Hl. apply Hext. by eapply owns_allocated.
Qed.

Lemma copying_step (b nb : loc) (h : heap) (done : list (Z * Z)) (h1 : heap)
    (x y : Z) :
  wf_board b h → copying b nb h done h1 → 0 <= x <= 8 → 0 <= y <= 8 →
  ∃ h2, (let! v := read (get_board_item b x y) in
         set_board_item nb v x y) h1 = (Ok tt, h2) ∧
        copying b nb h (done ++ [(x, y)]) h2.
Proof.
  intros Hwf (Hnb & Hext & Hsep & Hdone) Hx Hy.
  unfold bind at 1, read.
  rewrite (get_board_item_extend b h h1) by done.
  destruct (get_board_item_total b h x y) as [v Hv]; try done. rewrite Hv.
  destruct (set_board_item_in nb h1 v x y) as
    (s & cells & Hown & Hsnb & Hs & Hset & Hwf2 & Hget & Hother); try done.
  eexists. split; [exact Hset|].
  assert (Hnbeq : ∀ l, l ≠ s →
            <[s:=OSection (<[slot (x mod 3) (y mod 3):=v]> cells)]> h1 !! l = h1 !! l).
  { intros l Hl. by rewrite lookup_insert_ne. }
  split; [done|]. split; [|split].
  - intros l Hl. rewrite Hnbeq; [by apply Hext|].
    intros ->. by apply (Hsep s).
  - intros l Hl. apply Hsep. eapply owns_frame; [|exact Hl].
    symmetry. by apply Hnbeq.
  - intros p [Hp|Hp]%elem_of_app.
    + destruct (decide (p = (x, y))) as [->|Hne]; [simpl; congruence|].
      rewrite <- (Hdone p Hp). apply Hother. by destruct p.
    + apply list_elem_of_singleton in Hp as ->. simpl. congruence.
Qed.

Lemma get_copy_spec (b : loc) (h : heap) :
  wf_board b h →
  ∃ nb h',
    get_copy b h = (Ok nb, h') ∧ wf_board nb h' ∧ wf_board b h' ∧
    (∀ l, l ∈ dom h → h' !! l = h !! l) ∧
    (∀ l, owns nb h' l → l ∉ dom h) ∧
    (∀ x y, 0 <= x <= 8 → 0 <= y <= 8 →
       get_board_item nb x y h' = get_board_item b x y h).
Proof.
  intros Hwf. unfold get_copy, bind at 1.
  destruct (Board_init_spec h) as (nb & h1 & -> & Hfresh & Hnb & Hext & Hsep & _).
  destruct (for_each_inv (copying b nb h)
              (λ p, let! v := read (get_board_item b p.1 p.2) in
                    set_board_item nb v p.1 p.2)
              (pairs (range 9) (range 9)) h1) as (h2 & Hrun & Hfin).
  { repeat split; try done. by intros p Hp%elem_of_nil. }
  { intros done [x y] h' HI [Hx%elem_of_range Hy%elem_of_range]%elem_of_pairs.
    apply copying_step; simpl; try done; lia. }
  exists nb, h2. unfold bind at 1.
  rewrite (for_each_nested (range 9) (range 9)
    (λ x y, let! v := read (get_board_item b x y) in set_board_item nb v x y)).
  cbv beta. rewrite Hrun.
  destruct Hfin as (Hnb2 & Hext2 & Hsep2 & Hdone).
  repeat split; try done.
  - by apply (wf_board_extend b h).
  - intros x y Hx Hy. apply (Hdone (x, y)).
    apply elem_of_pairs. split; apply elem_of_range; lia.
Qed.


(** ** [load_board] *)

Lemma lookup_cons_shift {A} (a : A) (l : list A) (i x : Z) :
  i < x → (a :: l) !! Z.to_nat (x - i) = l !! Z.to_nat (x - (i + 1)).
Proof.
  intros Hix. replace (Z.to_nat (x - i)) with (S (Z.to_nat (x - (i + 1)))) by lia.
  done.
Qed.

Lemma int_of_char_digit (c : ascii) :
  48 <= code c <= 57 → int_of_char c = Ok (code c - 48).
Proof.
  intros Hc. unfold int_of_char.
  destruct ((48 <=? code c) && (code c <=? 57)) eqn:E; [done|].
  apply andb_false_iff in E. lia.
Qed.

(** One row: the inner loop of [load_board] from column [i] on. *)
Lemma load_line (b : loc) (y : Z) (cs : list ascii) :
  ∀ (i : Z) (h : heap),
    wf_board b h → 0 <= i →
    (∀ (k : nat) c, cs !! k = Some c → i + Z.of_nat k < 9 → c ≠ " "%char →
       0 <= y <= 8 ∧ 48 <= code c <= 57) →
    ∃ h',
      for_break (enumerate_from i cs) (λ '(x, char),
        if x >=? 9 then ret false
        else if negb (Ascii.eqb char " ") then
          let! n := read (λ _, int_of_char char) in
          let! _ := set_board_item b (VInt n) x y in
          ret true
        else ret true) h = (Ok tt, h') ∧
      wf_board b h' ∧
      (∀ l, ¬ owns b h l → h' !! l = h !! l) ∧
      h' !! b = h !! b ∧
      ∀ x' y', 0 <= x' <= 8 → 0 <= y' <= 8 →
        get_board_item b x' y' h' =
        loaded (if decide (y' = y ∧ i <= x') then cs !! Z.to_nat (x' - i) else None)
               (get_board_item b x' y' h).
Proof.
  induction cs as [|c cs IH]; intros i h Hwf Hi Hcs.
  - exists h. simpl. repeat split; try done.
    intros x' y' _ _. by destruct (decide _).
  - simpl. unfold bind at 1.
    destruct (i >=? 9) eqn:E9.
    { exists h. simpl. repeat split; try done.
      intros x' y' Hx' Hy'. destruct (decide _) as [[_ ?]|]; [lia|done]. }
    destruct (Ascii.eqb c " ") eqn:Ec; simpl.
    + (* a space: nothing is written *)
      destruct (IH (i + 1) h) as (h' & Hrun & Hwf' & Hfr & Hb & Hget);
        [done|lia| |].
      { intros k c' Hk Hlt Hne. apply (Hcs (S k) c'); [done|lia|done]. }
      exists h'. split; [done|]. repeat split; try done.
      intros x' y' Hx' Hy'. rewrite Hget by done.
      destruct (decide (y' = y ∧ i + 1 <= x')) as [[-> Hlt]|Hn].
      * rewrite decide_True by lia. by rewrite (lookup_cons_shift c cs) by lia.
      * destruct (decide (y' = y ∧ i <= x')) as [[-> Hle]|]; [|done].
        assert (x' = i) as -> by lia. rewrite Z.sub_diag. simpl. by rewrite Ec.
    + (* a digit: one cell is written *)
      destruct (Hcs 0%nat c) as [Hy Hdig]; [done|lia| |].
      { intros ->. by rewrite Ascii.eqb_refl in Ec. }
      unfold bind at 1, read. rewrite int_of_char_digit by done.
      unfold bind at 1.
      destruct (set_board_item_in b h (VInt (code c - 48)) i y) as
        (s & cells & Hown & Hsb & Hs & Hset & Hwf1 & Hget1 & Hother1);
        [done|lia|done|].
      rewrite Hset. unfold ret at 1.
      set (h1 := <[s:=OSection (<[slot (i mod 3) (y mod 3):=VInt (code c - 48)]> cells)]> h)
        in *.
      assert (Hb1 : h1 !! b = h !! b) by (unfold h1; by rewrite lookup_insert_ne).
      destruct (IH (i + 1) h1) as (h' & Hrun & Hwf' & Hfr & Hb & Hget);
        [done|lia| |].
      { intros k c' Hk Hlt Hne. apply (Hcs (S k) c'); [done|lia|done]. }
      exists h'. split; [done|]. split; [done|]. split; [|split; [congruence|]].
      * intros l Hl. rewrite Hfr.
        -- unfold h1. rewrite lookup_insert_ne; [done|]. by intros <-.
        -- intros Ho. apply Hl. by eapply owns_frame; [|exact Ho].
      * intros x' y' Hx' Hy'. rewrite Hget by done.
        destruct (decide (y' = y ∧ i + 1 <= x')) as [[-> Hlt]|Hn].
        -- rewrite decide_True by lia.
           rewrite (lookup_cons_shift c cs) by lia.
           rewrite Hother1; [done|]. intros [= -> ]. lia.
        -- destruct (decide (y' = y ∧ i <= x')) as [[-> Hle]|Hn'].
           ++ assert (x' = i) as -> by lia. rewrite Z.sub_diag. simpl.
              by rewrite Ec.
           ++ simpl. apply Hother1. intros [= -> ->]. lia.
Qed.

(** All rows: the outer loop of [load_board] from row [j] on. *)
Lemma load_rows (b : loc) (lines : list string) :
  ∀ (j : Z) (h : heap),
    wf_board b h → 0 <= j →
    (∀ (k x : nat) line c,
       lines !! k = Some line → list_ascii_of_string line !! x = Some c →
       (x < 9)%nat → c ≠ " "%char →
       j + Z.of_nat k <= 8 ∧ 48 <= code c <= 57) →
    ∃ h',
      for_each (enumerate_from j lines) (λ '(y, line),
        for_break (enumerate (list_ascii_of_string line)) (λ '(x, char),
          if x >=? 9 then ret false
          else if negb (Ascii.eqb char " ") then
            let! n := read (λ _, int_of_char char) in
            let! _ := set_board_item b (VInt n) x y in
            ret true
          else ret true)) h = (Ok tt, h') ∧
      wf_board b h' ∧
      (∀ l, ¬ owns b h l → h' !! l = h !! l) ∧
      h' !! b = h !! b ∧
      ∀ x' y', 0 <= x' <= 8 → 0 <= y' <= 8 →
        get_board_item b x' y' h' =
        loaded (if decide (j <= y')
                then line ← lines !! Z.to_nat (y' - j);
                     list_ascii_of_string line !! Z.to_nat x'
                else None)
               (get_board_item b x' y' h).
Proof.
  induction lines as [|line lines IH]; intros j h Hwf Hj Hok.
  - exists h. simpl. repeat split; try done.
    intros x' y' _ _. by destruct (decide _).
  - simpl. unfold bind at 1, enumerate.
    destruct (load_line b j (list_ascii_of_string line) 0 h)
      as (h1 & -> & Hwf1 & Hfr1 & Hb1 & Hget1); [done|lia| |].
    { intros k c Hk Hlt Hne.
      destruct (Hok 0%nat k line c) as [? ?]; [done|done|lia|done|]. lia. }
    destruct (IH (j + 1) h1) as (h' & Hrun & Hwf' & Hfr & Hb & Hget);
      [done|lia| |].
    { intros k x line' c Hk Hx Hlt Hne.
      destruct (Hok (S k) x line' c) as [? ?]; [done|done|lia|done|]. lia. }
    exists h'. split; [done|]. split; [done|]. split; [|split; [congruence|]].
    + intros l Hl. rewrite Hfr; [by apply Hfr1|].
      intros Ho. apply Hl. by eapply owns_frame; [|exact Ho].
    + intros x' y' Hx' Hy'. rewrite Hget, Hget1 by done.
      destruct (decide (j + 1 <= y')) as [Hlt|Hn].
      * rewrite (decide_True (P := j <= y')) by lia.
        rewrite (decide_False (P := y' = j ∧ 0 <= x')) by lia.
        by rewrite (lookup_cons_shift line lines) by lia.
      * simpl. destruct (decide (j <= y')) as [Hle|Hn'].
        -- assert (y' = j) as -> by lia.
           rewrite (decide_True (P := j = j ∧ 0 <= x')) by lia.
           rewrite Z.sub_diag, Z.sub_0_r. done.
        -- by rewrite (decide_False (P := y' = j ∧ 0 <= x')) by lia.
Qed.

(** ** Out-of-range coordinates *)

Lemma div3_out (x : Z) : ¬ (0 <= x <= 8) → ¬ (0 <= x / 3 <= 2).
Proof.
  pose proof (Z.div_mod x 3) as Hd.
  pose proof (Z.mod_pos_bound x 3 eq_refl) as Hm. lia.
Qed.

Lemma get_at_out (s : loc) (x y : Z) (h : heap) :
  ¬ (0 <= x <= 2 ∧ 0 <= y <= 2) → get_at s x y h = Raise IndexError.
Proof.
  intros Hout. unfold get_at.
  destruct (negb _) eqn:E; [done|].
  apply negb_false_iff in E. repeat (apply andb_true_iff in E as [E ?]). lia.
Qed.

Lemma set_board_item_out (b : loc) (v : value) (x y : Z) (h : heap) :
  ¬ (0 <= x <= 8 ∧ 0 <= y <= 8) →
  set_board_item b v x y h = (Raise IndexError, h).
Proof.
  intros Hout. unfold set_board_item, bind, read.
  rewrite get_at_out; [done|].
  intros [Hx Hy]. apply Hout. split.
  - destruct (decide (0 <= x <= 8)) as [|Hn]; [done|]. by apply div3_out in Hn.
  - destruct (decide (0 <= y <= 8)) as [|Hn]; [done|]. by apply div3_out in Hn.
Qed.

(** ** Soundness of the executable checks *)

Lemma cells_all_sound (P : value → bool) (b : loc) (h : heap) :
  cells_all P b h = true →
  ∀ x y, 0 <= x <= 8 → 0 <= y <= 8 →
    ∃ v, get_board_item b x y h = Ok v ∧ P v = true.
Proof.
  unfold cells_all. rewrite forallb_forall. intros Hall x y Hx Hy.
  assert (Hin : In (x, y) (pairs (range 9) (range 9))).
  { apply list_elem_of_In, elem_of_pairs. split; apply elem_of_range; lia. }
  specialize (Hall (x, y) Hin). cbn [fst snd] in Hall.
  destruct (get_board_item b x y h) as [v|e]; [eauto | done].
Qed.

Lemma grid_okb_sound (b : loc) (h : heap) : grid_okb b h = true → grid_ok b h.
Proof.
  intros Hc x y Hx Hy.
  destruct (cells_all_sound _ b h Hc x y Hx Hy) as (v & Hv & HP).
  exists v. split; [done|]. intros n ->. apply andb_true_iff in HP. lia.
Qed.

Lemma sudoku_gridb_sound (b : loc) (h : heap) :
  sudoku_gridb b h = true → sudoku_grid b h.
Proof.
  intros Hc x y Hx Hy.
  destruct (cells_all_sound _ b h Hc x y Hx Hy) as (v & Hv & HP).
  destruct v as [|n|l]; [by left| |done].
  right. exists n. split; [|done]. apply andb_true_iff in HP. lia.
Qed.

Lemma wf_boardb_sound (b : loc) (h : heap) : wf_boardb b h = true → wf_board b h.
Proof.
  unfold wf_boardb. destruct (h !! b) as [[slots|]|] eqn:Hb; try done.
  intros [[Hlen Hall]%andb_true_iff Hnd%bool_decide_eq_true]%andb_true_iff.
  apply Nat.eqb_eq in Hlen. rewrite forallb_forall in Hall.
  exists slots. repeat split; try done.
  - intros i Hi. destruct (lookup_lt_is_Some_2 slots i) as [v Hv]; [lia|].
    specialize (Hall v). unfold section_okb in Hall.
    destruct v as [|n|s]; try (discriminate Hall;
      by eapply list_elem_of_In, list_elem_of_lookup_2).
    assert (Hok := Hall ltac:(by eapply list_elem_of_In, list_elem_of_lookup_2)).
    apply andb_true_iff in Hok as [Hne Hsec].
    destruct (h !! s) as [[cells|]|] eqn:Hs; try done.
    exists s, cells. repeat split; try done.
    + intros ->. by rewrite Pos.eqb_refl in Hne.
    + by apply Nat.eqb_eq.
  - intros i j s Hi Hj. by eapply NoDup_lookup.
Qed.

(** ** Soundness of the check of [loadable] *)

Lemma line_okb_sound (row_ok : bool) (cs : list ascii) :
  ∀ k0, line_okb row_ok k0 cs = true →
  ∀ k c, cs !! k = Some c → (k0 + k < 9)%nat → c ≠ " "%char →
    row_ok = true ∧ 48 <= code c <= 57.
Proof.
  induction cs as [|c0 cs IH]; intros k0 Hok k c Hk Hlt Hne; [done|].
  simpl in Hok. apply andb_true_iff in Hok as [Hhd Htl].
  destruct k as [|k]; simpl in Hk.
  - injection Hk as ->.
    assert (E1 : Nat.ltb k0 9 = true) by (apply Nat.ltb_lt; lia).
    assert (E2 : Ascii.eqb c " " = false) by by apply Ascii.eqb_neq.
    rewrite E1, E2 in Hhd. simpl in Hhd. apply andb_true_iff in Hhd as [[? ?]%andb_true_iff ?].
    split; [done|lia].
  - apply (IH (S k0) Htl k c Hk); [lia|done].
Qed.

Lemma rows_okb_sound (ls : list string) :
  ∀ j0, rows_okb j0 ls = true →
  ∀ j k line c,
    ls !! j = Some line → list_ascii_of_string line !! k = Some c →
    (k < 9)%nat → c ≠ " "%char →
    (j0 + j < 9)%nat ∧ 48 <= code c <= 57.
Proof.
  induction ls as [|l ls IH]; intros j0 Hok j k line c Hj Hk Hlt Hne; [done|].
  simpl in Hok. apply andb_true_iff in Hok as [Hhd Htl].
  destruct j as [|j]; simpl in Hj.
  - injection Hj as ->.
    destruct (line_okb_sound _ _ 0%nat Hhd k c Hk) as [Hrow Hd]; [lia|done|].
    apply Nat.ltb_lt in Hrow. split; [lia|done].
  - destruct (IH (S j0) Htl j k line c Hj Hk Hlt Hne). split; [lia|done].
Qed.

Lemma loadableb_sound (board_raw : string) :
  loadableb board_raw = true → loadable board_raw.
Proof.
  intros Hok j k line c Hj Hk Hlt Hne.
  by apply (rows_okb_sound _ 0%nat Hok j k line c).
Qed.

(** ** Empty units *)

Lemma is_line_valid_horizontal_empty (b : loc) (y : Z) (h : heap) :
  grid_ok b h → 0 <= y <= 8 →
  (∀ x, 0 <= x <= 8 → get_board_item b x y h = Ok VNone) →
  is_line_valid_horizontal b y h = Ok true.
Proof.
  intros Hok Hy Hempty.
  destruct (is_line_valid_horizontal_spec b y h Hok Hy) as (r & -> & Hiff).
  f_equal. apply Hiff. intros x1 x2 d Hx1 _ _ H1. rewrite Hempty in H1; done.
Qed.

Lemma is_line_valid_vertical_empty (b : loc) (x : Z) (h : heap) :
  grid_ok b h → 0 <= x <= 8 →
  (∀ y, 0 <= y <= 8 → get_board_item b x y h = Ok VNone) →
  is_line_valid_vertical b x h = Ok true.
Proof.
  intros Hok Hx Hempty.
  destruct (is_line_valid_vertical_spec b x h Hok Hx) as (r & -> & Hiff).
  f_equal. apply Hiff. intros y1 y2 d Hy1 _ _ H1. rewrite Hempty in H1; done.
Qed.

Lemma is_section_valid_empty (b : loc) (mx my : Z) (h : heap) :
  grid_ok b h → 0 <= mx <= 2 → 0 <= my <= 2 →
  (∀ lx ly, 0 <= lx <= 2 → 0 <= ly <= 2 →
     get_board_item b (3 * mx + lx) (3 * my + ly) h = Ok VNone) →
  is_section_valid b mx my h = Ok true.
Proof.
  intros Hok Hx Hy Hempty.
  destruct (is_section_valid_spec b mx my h Hok Hx Hy) as (r & -> & Hiff).
  f_equal. apply Hiff. intros lx1 ly1 lx2 ly2 d Hx1 Hy1 _ _ _ H1.
  rewrite Hempty in H1; done.
Qed.

(** * Properties of the operations *)

(** ** Sections *)

Lemma is_sectionb_sound (s : loc) (h : heap) :
  is_sectionb s h = true → is_section s h.
Proof.
  unfold is_sectionb, is_section.
  destruct (h !! s) as [[cells|]|]; try done.
  intros Hlen%Nat.eqb_eq. eauto.
Qed.

Lemma local_coord (k : Z) :
  0 <= k <= 8 → 0 <= k mod 3 <= 2 ∧ 0 <= k / 3 <= 2 ∧ k mod 3 + k / 3 * 3 = k.
Proof.
  intros Hk. pose proof (Z.div_mod k 3) as Hd.
  pose proof (Z.mod_pos_bound k 3 eq_refl) as Hm. lia.
Qed.

(** X1: [Section()] allocates a new object and leaves every existing one
    as it was; in the new section, [get_at] returns [None] at every (x, y)
    of [0,2] x [0,2] and raises IndexError at every other (x, y). *)
Theorem Section_init_spec (h : heap) :
  ∃ s h',
    Section_init h = (Ok s, h') ∧ (s ∉ dom h) ∧
    (∀ l, l ∈ dom h → h' !! l = h !! l) ∧
    is_section s h' ∧
    (∀ x y, 0 <= x <= 2 → 0 <= y <= 2 → get_at s x y h' = Ok VNone) ∧
    (∀ x y, ¬ (0 <= x <= 2 ∧ 0 <= y <= 2) → get_at s x y h' = Raise IndexError).
Proof.
  unfold Section_init.
  destruct (alloc_fresh (OSection (replicate 9 VNone)) h) as (s & -> & Hs).
  exists s. eexists. split; [done|]. split; [done|].
  assert (Hsec : <[s:=OSection (replicate 9 VNone)]> h !! s
                 = Some (OSection (replicate 9 VNone))) by apply lookup_insert_eq.
  repeat split.
  - intros l Hl. rewrite lookup_insert_ne; [done|]. by intros ->.
  - by exists (replicate 9 VNone).
  - intros x y Hx Hy.
    destruct (get_at_in s _ _ x y Hsec eq_refl Hx Hy) as (v & Hv & ->).
    apply lookup_replicate in Hv as [-> _]. done.
  - intros x y Hout. by apply get_at_out.
Qed.

(** The reads that follow a write inside the section. *)
Lemma section_write_reads (s : loc) (h : heap) (cells : list value)
    (item : value) (x y : Z) :
  h !! s = Some (OSection cells) → length cells = 9%nat →
  0 <= x <= 2 → 0 <= y <= 2 →
  let h' := <[s:=OSection (<[slot x y:=item]> cells)]> h in
  is_section s h' ∧
  get_at s x y h' = Ok item ∧
  (∀ x' y', (x', y') ≠ (x, y) → get_at s x' y' h' = get_at s x' y' h).
Proof.
  intros Hs Hlen Hx Hy.
  set (cells' := <[slot x y:=item]> cells). intros h'.
  assert (Hs' : h' !! s = Some (OSection cells')) by apply lookup_insert_eq.
  assert (Hlen' : length cells' = 9%nat) by (unfold cells'; by rewrite length_insert).
  pose proof (slot_lt x y Hx Hy) as Hk.
  split; [|split].
  - by exists cells'.
  - destruct (get_at_in s _ cells' x y Hs' Hlen' Hx Hy) as (v & Hv & ->).
    unfold cells' in Hv. rewrite list_lookup_insert_eq in Hv by lia. congruence.
  - intros x' y' Hne.
    destruct (decide (0 <= x' <= 2 ∧ 0 <= y' <= 2)) as [[Hx' Hy']|Hout];
      [|by rewrite !get_at_out].
    destruct (get_at_in s _ cells' x' y' Hs' Hlen' Hx' Hy') as (v' & Hv' & ->).
    destruct (get_at_in s h cells x' y' Hs Hlen Hx' Hy') as (v & Hv & ->).
    unfold cells' in Hv'. rewrite list_lookup_insert_ne in Hv'; [congruence|].
    intros Heq. apply slot_inj in Heq as [-> ->]; try done.
Qed.

(** X2: in a section, for (x, y) in [0,2] x [0,2], [set_at(item, x, y)]
    returns normally, [get_at(x, y)] then returns the item, every other
    slot of the section reads as before, and no other object changes. *)
Theorem set_at_get_at (s : loc) (h : heap) (item : value) (x y : Z) :
  is_section s h → 0 <= x <= 2 → 0 <= y <= 2 →
  ∃ h',
    set_at s item x y h = (Ok tt, h') ∧ is_section s h' ∧
    get_at s x y h' = Ok item ∧
    (∀ x' y', (x', y') ≠ (x, y) → get_at s x' y' h' = get_at s x' y' h) ∧
    (∀ l, l ≠ s → h' !! l = h !! l).
Proof.
  intros (cells & Hs & Hlen) Hx Hy.
  rewrite (set_at_in s h cells item x y Hs Hlen Hx Hy).
  eexists. split; [done|].
  destruct (section_write_reads s h cells item x y Hs Hlen Hx Hy)
    as (Hsec' & Hget & Hother).
  split; [exact Hsec'|]. split; [exact Hget|]. split; [exact Hother|].
  intros l Hl. by rewrite lookup_insert_ne.
Qed.

(** In [section_store], writing 4 at (2, 1). *)
Lemma set_at_get_at_witness :
  is_section section0 section_store ∧
  ∃ h', set_at section0 (VInt 4) 2 1 section_store = (Ok tt, h') ∧
        get_at section0 2 1 h' = Ok (VInt 4) ∧
        get_at section0 1 2 h' = Ok VNone.
Proof.
  assert (Hsec : is_section section0 section_store).
  { apply is_sectionb_sound. vm_compute. reflexivity. }
  split; [exact Hsec|].
  destruct (set_at_get_at section0 section_store (VInt 4) 2 1 Hsec)
    as (h' & Hset & _ & Hget & Hother & _); [lia|lia|].
  exists h'. split; [exact Hset|]. split; [exact Hget|].
  rewrite Hother by (intros [=]). vm_compute. reflexivity.
Defined.

(** X3: [set_at] checks nothing itself.  In a section, [set_at(item, x, y)]
    returns normally exactly when -9 <= x + 3 * y <= 8, and then it is the
    slot number (x + 3 * y) mod 9 that is overwritten, i.e. local cell
    (k mod 3, k / 3) for that k, the other slots reading as before;
    outside that interval it raises IndexError and writes nothing. *)
Theorem set_at_wraps (s : loc) (h : heap) (item : value) (x y : Z) :
  is_section s h →
  (-9 <= x + y * 3 <= 8 →
     let k := (x + y * 3) mod 9 in
     ∃ h', set_at s item x y h = (Ok tt, h') ∧ is_section s h' ∧
           get_at s (k mod 3) (k / 3) h' = Ok item ∧
           (∀ x' y', (x', y') ≠ (k mod 3, k / 3) →
              get_at s x' y' h' = get_at s x' y' h)) ∧
  (¬ (-9 <= x + y * 3 <= 8) → set_at s item x y h = (Raise IndexError, h)).
Proof.
  intros Hsec. split.
  - intros Hi k.
    pose proof (Z.mod_pos_bound (x + y * 3) 9 eq_refl) as Hk. fold k in Hk.
    destruct (local_coord k) as (Hkx & Hky & Hkk); [lia|].
    destruct Hsec as (cells & Hs & Hlen).
    destruct (section_write_reads s h cells item (k mod 3) (k / 3) Hs Hlen Hkx Hky)
      as (Hsec' & Hget & Hother).
    eexists. split; [|split; [exact Hsec'|split; [exact Hget|exact Hother]]].
    rewrite <- (set_at_in s h cells item (k mod 3) (k / 3) Hs Hlen Hkx Hky).
    unfold set_at, bind, read, slots_of. rewrite Hs.
    assert (Hnorm : norm_index cells (x + y * 3) = Some (Z.to_nat k)).
    { unfold norm_index. rewrite Hlen. change (Z.of_nat 9) with 9.
      assert (Hcase : x + y * 3 < 0 ∧ k = x + y * 3 + 9 ∨
                      0 <= x + y * 3 ∧ k = x + y * 3).
      { pose proof (Z.div_mod (x + y * 3) 9) as Hd. unfold k in *. lia. }
      destruct Hcase as [[Hneg Hkeq]|[Hpos Hkeq]].
      - destruct (x + y * 3 <? 0) eqn:E; [|lia].
        destruct ((0 <=? x + y * 3 + 9) && (x + y * 3 + 9 <? 9)) eqn:E2;
          [do 2 f_equal; lia | apply andb_false_iff in E2; lia].
      - destruct (x + y * 3 <? 0) eqn:E; [lia|].
        destruct ((0 <=? x + y * 3) && (x + y * 3 <? 9)) eqn:E2;
          [do 2 f_equal; lia | apply andb_false_iff in E2; lia]. }
    unfold setitem. rewrite Hnorm.
    assert (Hnorm' : norm_index cells (k mod 3 + k / 3 * 3) = Some (Z.to_nat k)).
    { rewrite Hkk. unfold norm_index. rewrite Hlen. change (Z.of_nat 9) with 9.
      destruct (k <? 0) eqn:E; [lia|].
      destruct ((0 <=? k) && (k <? 9)) eqn:E2;
        [done | apply andb_false_iff in E2; lia]. }
    by rewrite Hnorm'.
  - intros Hout. destruct Hsec as (cells & Hs & Hlen).
    unfold set_at, bind, read, slots_of. rewrite Hs.
    unfold setitem, norm_index. rewrite Hlen. change (Z.of_nat 9) with 9.
    destruct (x + y * 3 <? 0) eqn:E.
    + destruct ((0 <=? x + y * 3 + 9) && (x + y * 3 + 9 <? 9)) eqn:E2;
        [apply andb_true_iff in E2; lia | done].
    + destruct ((0 <=? x + y * 3) && (x + y * 3 <? 9)) eqn:E2;
        [apply andb_true_iff in E2; lia | done].
Qed.

(** In [section_store]: (3, 0) lands on local cell (0, 1), (-1, 0) on
    (2, 2), and (9, 0) raises. *)
Lemma set_at_wraps_witness :
  is_section section0 section_store ∧
  (∃ h', set_at section0 (VInt 7) 3 0 section_store = (Ok tt, h') ∧
         get_at section0 0 1 h' = Ok (VInt 7)) ∧
  set_at section0 (VInt 7) 9 0 section_store = (Raise IndexError, section_store).
Proof.
  assert (Hsec : is_section section0 section_store).
  { apply is_sectionb_sound. vm_compute. reflexivity. }
  split; [exact Hsec|].
  destruct (set_at_wraps section0 section_store (VInt 7) 3 0 Hsec) as [Hin _].
  destruct (set_at_wraps section0 section_store (VInt 7) 9 0 Hsec) as [_ Hout].
  split.
  - destruct Hin as (h' & Hset & _ & Hget & _); [lia|].
    exists h'. split; [exact Hset | exact Hget].
  - apply Hout. lia.
Defined.

(** ** A new board *)

Lemma all_empty_grid_ok (b : loc) (h : heap) :
  (∀ x y, 0 <= x <= 8 → 0 <= y <= 8 → get_board_item b x y h = Ok VNone) →
  grid_ok b h.
Proof.
  intros Hempty x y Hx Hy. exists VNone. split; [by apply Hempty | by intros n].
Qed.

Lemma all_empty_verdict (b : loc) (h : heap) :
  (∀ x y, 0 <= x <= 8 → 0 <= y <= 8 → get_board_item b x y h = Ok VNone) →
  is_valid b h = Ok true ∧ is_solved b h = Ok false.
Proof.
  intros Hempty. pose proof (all_empty_grid_ok b h Hempty) as Hok. split.
  - apply is_valid_true_iff. repeat split.
    + intros x Hx. apply is_line_valid_vertical_empty; try done.
      intros y Hy. by apply Hempty.
    + intros y Hy. apply is_line_valid_horizontal_empty; try done.
      intros x Hx. by apply Hempty.
    + intros mx my Hx Hy. apply is_section_valid_empty; try done.
      intros lx ly Hlx Hly. apply Hempty; lia.
  - destruct (is_solved_total b h Hok) as [[] Hr]; [|done].
    apply is_solved_true_iff in Hr as [Hall _].
    destruct (Hall 0 0) as (v & Hv & Hne); [lia|lia|].
    rewrite Hempty in Hv by lia. congruence.
Qed.

(** X4: [Board()] builds a well-formed board out of objects that are all
    new, leaving every existing object as it was; each of its 81 cells
    reads [None], it is valid and it is not solved. *)
Theorem Board_init_fresh (h : heap) :
  ∃ b h',
    Board_init h = (Ok b, h') ∧ wf_board b h' ∧
    (∀ l, owns b h' l → l ∉ dom h) ∧
    (∀ l, l ∈ dom h → h' !! l = h !! l) ∧
    (∀ x y, 0 <= x <= 8 → 0 <= y <= 8 → get_board_item b x y h' = Ok VNone) ∧
    is_valid b h' = Ok true ∧ is_solved b h' = Ok false.
Proof.
  destruct (Board_init_spec h) as (b & h' & Hrun & _ & Hwf & Hext & Hsep & Hempty).
  destruct (all_empty_verdict b h' Hempty) as [Hv Hs].
  exists b, h'. repeat split; done.
Qed.

(** ** Writing cells *)

(** X5: on a well-formed board, [set_board_item] returns normally exactly
    when x and y are in [0,8]; whether it returns or raises, the board is
    still well-formed afterwards and no object was created. *)
Theorem set_board_item_keeps_board (b : loc) (h : heap) (v : value) (x y : Z) :
  wf_board b h →
  ((set_board_item b v x y h).1 = Ok tt ↔ 0 <= x <= 8 ∧ 0 <= y <= 8) ∧
  wf_board b (set_board_item b v x y h).2 ∧
  dom (set_board_item b v x y h).2 = dom h.
Proof.
  intros Hwf.
  destruct (decide (0 <= x <= 8 ∧ 0 <= y <= 8)) as [[Hx Hy]|Hout].
  - destruct (set_board_item_in b h v x y Hwf Hx Hy)
      as (s & cells & _ & _ & Hs & Hset & Hwf' & _).
    rewrite Hset. simpl. split; [by split|]. split; [done|].
    apply dom_insert_lookup_L. eauto.
  - rewrite set_board_item_out by done. simpl.
    split; [split; [by intros [=] | by intros ?]|]. by split.
Qed.

(** At the empty grid, writing at (4, 8) and at (4, 9). *)
Lemma set_board_item_keeps_board_witness :
  wf_board board0 empty_store ∧
  wf_board board0 (set_board_item board0 (VInt 7) 4 8 empty_store).2 ∧
  (set_board_item board0 (VInt 7) 4 9 empty_store).1 ≠ Ok tt.
Proof.
  assert (Hwf : wf_board board0 empty_store).
  { apply wf_boardb_sound. vm_compute. reflexivity. }
  split; [exact Hwf|].
  destruct (set_board_item_keeps_board board0 empty_store (VInt 7) 4 8 Hwf)
    as (_ & Hwf' & _).
  destruct (set_board_item_keeps_board board0 empty_store (VInt 7) 4 9 Hwf)
    as (Hiff & _ & _).
  split; [exact Hwf'|]. intros Hok. apply Hiff in Hok. lia.
Defined.

(** ** [contains_value] *)

Lemma contains_value_Ok (b : loc) (x y : Z) (h : heap) (v : value) :
  get_board_item b x y h = Ok v → contains_value b x y h = Ok (is_int v).
Proof. intros Hv. unfold contains_value. by rewrite Hv. Qed.

(** X6: on a grid whose cells hold [None] or a digit 1..9,
    [contains_value(x, y)] is false exactly at the cells that read [None],
    and [is_solved] returns true iff [contains_value] is true at all 81
    coordinates and [is_valid] returns true. *)
Theorem contains_value_solved (b : loc) (h : heap) :
  sudoku_grid b h →
  (∀ x y, 0 <= x <= 8 → 0 <= y <= 8 →
     (contains_value b x y h = Ok false ↔ get_board_item b x y h = Ok VNone) ∧
     (contains_value b x y h = Ok true ∨ contains_value b x y h = Ok false)) ∧
  (is_solved b h = Ok true ↔
     (∀ x y, 0 <= x <= 8 → 0 <= y <= 8 → contains_value b x y h = Ok true) ∧
     is_valid b h = Ok true).
Proof.
  intros Hsg.
  assert (Hcv : ∀ x y, 0 <= x <= 8 → 0 <= y <= 8 →
            (contains_value b x y h = Ok false ↔ get_board_item b x y h = Ok VNone) ∧
            (contains_value b x y h = Ok true ∨ contains_value b x y h = Ok false)).
  { intros x y Hx Hy. destruct (Hsg x y Hx Hy) as [Hn|(d & _ & Hd)].
    - rewrite (contains_value_Ok b x y h VNone Hn). simpl. split; [done|by right].
    - rewrite (contains_value_Ok b x y h (VInt d) Hd). simpl.
      split; [|by left]. rewrite Hd. split; intros [=]. }
  split; [done|].
  rewrite is_solved_true_iff. split.
  - intros [Hall Hv]. split; [|done]. intros x y Hx Hy.
    destruct (Hall x y Hx Hy) as (v & Hg & Hne).
    destruct (Hcv x y Hx Hy) as [Hiff [Ht|Hf]]; [done|].
    apply Hiff in Hf. congruence.
  - intros [Hall Hv]. split; [|done]. intros x y Hx Hy.
    destruct (Hsg x y Hx Hy) as [Hn|(d & _ & Hd)].
    + destruct (Hcv x y Hx Hy) as [Hiff _]. apply Hiff in Hn.
      rewrite Hall in Hn by done. done.
    + by exists (VInt d).
Qed.

(** At [clash_store], where (0, 0) holds 5 and (1, 0) is empty. *)
Lemma contains_value_solved_witness :
  sudoku_grid board0 clash_store ∧
  contains_value board0 0 0 clash_store = Ok true ∧
  contains_value board0 1 0 clash_store = Ok false ∧
  is_solved board0 clash_store ≠ Ok true.
Proof.
  assert (Hsg : sudoku_grid board0 clash_store).
  { apply sudoku_gridb_sound. vm_compute. reflexivity. }
  split; [exact Hsg|].
  destruct (contains_value_solved board0 clash_store Hsg) as [Hcv Hiff].
  split; [vm_compute; reflexivity|].
  assert (Hf : contains_value board0 1 0 clash_store = Ok false).
  { apply (Hcv 1 0); [lia|lia|]. vm_compute. reflexivity. }
  split; [exact Hf|].
  intros Hs. apply Hiff in Hs as [Hall _].
  rewrite (Hall 1 0) in Hf by lia. discriminate Hf.
Defined.

(** ** Rows and columns *)

Lemma comprehension_fmap {A B} (xs : list A) (f : A → result B) (g : A → B) :
  (∀ x, x ∈ xs → f x = Ok (g x)) → comprehension xs f = Ok (g <$> xs).
Proof.
  induction xs as [|x xs IH]; intros Hf; simpl; [done|].
  rewrite Hf by left. simpl. rewrite IH; [done|].
  intros x' Hx'. apply Hf. by right.
Qed.

Lemma lookup_range (n : nat) (x : Z) :
  0 <= x < Z.of_nat n → range n !! Z.to_nat x = Some x.
Proof.
  intros Hx. unfold range. rewrite list_lookup_fmap, lookup_seq_lt by lia.
  simpl. f_equal. lia.
Qed.

(** X7: on a well-formed board, for c in [0,8], [get_row(c)] and
    [get_column(c)] each return nine values, the one at position x of the
    row being the cell (x, c) and the one at position y of the column the
    cell (c, y); hence entry x of row y is entry y of column x. *)
Theorem rows_and_columns (b : loc) (h : heap) (c : Z) :
  wf_board b h → 0 <= c <= 8 →
  ∃ row col,
    get_row b c h = Ok row ∧ get_column b c h = Ok col ∧
    length row = 9%nat ∧ length col = 9%nat ∧
    (∀ x, 0 <= x <= 8 → getitem row x = get_board_item b x c h) ∧
    (∀ y, 0 <= y <= 8 → getitem col y = get_board_item b c y h) ∧
    (∀ x col', 0 <= x <= 8 → get_column b x h = Ok col' →
       getitem row x = getitem col' c).
Proof.
  intros Hwf Hc.
  assert (Hcell : ∀ x y, 0 <= x <= 8 → 0 <= y <= 8 →
            get_board_item b x y h = Ok (cell b h x y)).
  { intros x y Hx Hy. destruct (get_board_item_total b h x y Hwf Hx Hy) as [v Hv].
    unfold cell. by rewrite Hv. }
  assert (Hrow : ∀ y, 0 <= y <= 8 →
            get_row b y h = Ok ((λ x, cell b h x y) <$> range 9)).
  { intros y Hy. apply comprehension_fmap.
    intros x Hx%elem_of_range. apply Hcell; lia. }
  assert (Hcol : ∀ x, 0 <= x <= 8 →
            get_column b x h = Ok ((λ y, cell b h x y) <$> range 9)).
  { intros x Hx. apply comprehension_fmap.
    intros y Hy%elem_of_range. apply Hcell; lia. }
  assert (Hget : ∀ (g : Z → value) i, 0 <= i <= 8 →
            getitem (g <$> range 9) i = Ok (g i)).
  { intros g i Hi.
    destruct (getitem_in (g <$> range 9) i) as (v & Hv & ->).
    { rewrite length_fmap. unfold range. rewrite length_fmap, length_seq. lia. }
    rewrite list_lookup_fmap, lookup_range in Hv by lia. simpl in Hv. congruence. }
  eexists _, _. split; [by apply Hrow|]. split; [by apply Hcol|].
  split; [done|]. split; [done|]. repeat split.
  - intros x Hx. rewrite Hget by done. symmetry. by apply Hcell.
  - intros y Hy. rewrite Hget by done. symmetry. by apply Hcell.
  - intros x col' Hx Hcol'. rewrite Hcol in Hcol' by done.
    assert (col' = (λ y, cell b h x y) <$> range 9) as -> by congruence.
    by rewrite !Hget by done.
Qed.

(** At [solved_store]: row 8 is the last row of [solved_text]. *)
Lemma rows_and_columns_witness :
  wf_board board0 solved_store ∧
  get_row board0 8 solved_store
  = Ok (VInt <$> [3; 4; 5; 2; 8; 6; 1; 7; 9]) ∧
  ∃ col, get_column board0 8 solved_store = Ok col ∧ length col = 9%nat.
Proof.
  assert (Hwf : wf_board board0 solved_store).
  { apply wf_boardb_sound. vm_compute. reflexivity. }
  split; [exact Hwf|]. split; [vm_compute; reflexivity|].
  destruct (rows_and_columns board0 solved_store 8 Hwf)
    as (row & col & _ & Hcol & _ & Hlen & _); [lia|].
  exists col. split; [exact Hcol | exact Hlen].
Defined.

(** ** Checks outside the grid *)

(** X8: the checks raise IndexError on a coordinate outside their range,
    in any store: [is_line_valid_horizontal], [is_line_valid_vertical] and
    [contains_value] for a coordinate outside [0,8], [is_section_valid]
    for a section coordinate outside [0,2]. *)
Theorem checks_out_of_range (b : loc) (h : heap) (c o : Z) :
  (¬ (0 <= c <= 8) →
     is_line_valid_horizontal b c h = Raise IndexError ∧
     is_line_valid_vertical b c h = Raise IndexError ∧
     contains_value b c o h = Raise IndexError ∧
     contains_value b o c h = Raise IndexError) ∧
  (¬ (0 <= c <= 2) →
     is_section_valid b c o h = Raise IndexError ∧
     is_section_valid b o c h = Raise IndexError).
Proof.
  split.
  - intros Hc.
    assert (H1 : ∀ o', get_board_item b c o' h = Raise IndexError)
      by (intros; apply get_board_item_out; lia).
    assert (H2 : ∀ o', get_board_item b o' c h = Raise IndexError)
      by (intros; apply get_board_item_out; lia).
    repeat split.
    + unfold is_line_valid_horizontal. simpl. by rewrite H2.
    + unfold is_line_valid_vertical. simpl. by rewrite H1.
    + unfold contains_value. by rewrite H1.
    + unfold contains_value. by rewrite H2.
  - intros Hc. split; unfold is_section_valid; rewrite get_at_out; done || lia.
Qed.

(** With the coordinates 9 and 3. *)
Lemma checks_out_of_range_witness :
  ¬ (0 <= 9 <= 8) ∧ ¬ (0 <= 3 <= 2) ∧
  is_line_valid_horizontal board0 9 empty_store = Raise IndexError ∧
  is_section_valid board0 3 0 empty_store = Raise IndexError.
Proof.
  assert (H9 : ¬ (0 <= 9 <= 8)) by lia.
  assert (H3 : ¬ (0 <= 3 <= 2)) by lia.
  split; [exact H9|]. split; [exact H3|].
  destruct (checks_out_of_range board0 empty_store 9 0) as [Hline _].
  destruct (checks_out_of_range board0 empty_store 3 0) as [_ Hbox].
  destruct (Hline H9) as (Hrow & _). destruct (Hbox H3) as (Hsec & _).
  split; [exact Hrow | exact Hsec].
Defined.

(** ** Validity in terms of peers *)

Lemma coord_box (x : Z) : x = 3 * (x / 3) + x mod 3.
Proof. pose proof (Z.div_mod x 3). lia. Qed.

Lemma is_valid_no_clash (b : loc) (h : heap) :
  grid_ok b h → is_valid b h = Ok true ↔ no_clash b h.
Proof.
  intros Hok. rewrite is_valid_true_iff. split.
  - intros (Hcol & Hrow & Hbox) x y x' y' d Hx Hy Hx' Hy' [Hne Hpeer] H1 H2.
    assert (Hd : 1 <= d <= 9).
    { destruct (Hok x y Hx Hy) as (v & Hv & Hc). apply Hc. congruence. }
    destruct Hpeer as [->|[->|[Ebx Eby]]].
    + destruct (is_line_valid_horizontal_spec b y h Hok Hy) as (r & Hr & Hiff).
      rewrite Hrow in Hr by done. injection Hr as <-.
      destruct Hiff as [Hdist _]. specialize (Hdist eq_refl).
      apply Hne. f_equal. by apply (Hdist x' x d).
    + destruct (is_line_valid_vertical_spec b x h Hok Hx) as (r & Hr & Hiff).
      rewrite Hcol in Hr by done. injection Hr as <-.
      destruct Hiff as [Hdist _]. specialize (Hdist eq_refl).
      apply Hne. f_equal. by apply (Hdist y' y d).
    + destruct (div3_range x Hx) as [Hmx Hlx], (div3_range y Hy) as [Hmy Hly].
      destruct (div3_range x' Hx') as [_ Hlx'], (div3_range y' Hy') as [_ Hly'].
      destruct (is_section_valid_spec b (x / 3) (y / 3) h Hok Hmx Hmy)
        as (r & Hr & Hiff).
      rewrite Hbox in Hr by done. injection Hr as <-.
      destruct Hiff as [Hdist _]. specialize (Hdist eq_refl).
      destruct (Hdist (x mod 3) (y mod 3) (x' mod 3) (y' mod 3) d) as [Ex Ey];
        try done.
      * by rewrite <- !coord_box.
      * rewrite <- Ebx, <- Eby. by rewrite <- !coord_box.
      * apply Hne. f_equal; by apply coord_split.
  - intros Hnc. repeat split.
    + intros x Hx.
      destruct (is_line_valid_vertical_spec b x h Hok Hx) as (r & -> & Hiff).
      f_equal. apply Hiff. intros y1 y2 d Hy1 Hy2 Hd H1 H2.
      destruct (decide (y1 = y2)) as [|Hne]; [done|]. exfalso.
      apply (Hnc x y1 x y2 d); try done.
      split; [intros [=]; congruence | by right; left].
    + intros y Hy.
      destruct (is_line_valid_horizontal_spec b y h Hok Hy) as (r & -> & Hiff).
      f_equal. apply Hiff. intros x1 x2 d Hx1 Hx2 Hd H1 H2.
      destruct (decide (x1 = x2)) as [|Hne]; [done|]. exfalso.
      apply (Hnc x1 y x2 y d); try done.
      split; [intros [=]; congruence | by left].
    + intros mx my Hmx Hmy.
      destruct (is_section_valid_spec b mx my h Hok Hmx Hmy) as (r & -> & Hiff).
      f_equal. apply Hiff. intros lx1 ly1 lx2 ly2 d Hx1 Hy1 Hx2 Hy2 Hd H1 H2.
      destruct (decide ((lx1, ly1) = (lx2, ly2))) as [[= -> ->]|Hne]; [done|].
      exfalso.
      destruct (box_coord mx lx1 Hx1) as [E1 _], (box_coord my ly1 Hy1) as [E2 _].
      destruct (box_coord mx lx2 Hx2) as [E3 _], (box_coord my ly2 Hy2) as [E4 _].
      apply (Hnc (3 * mx + lx1) (3 * my + ly1) (3 * mx + lx2) (3 * my + ly2) d);
        try done; try lia.
      split; [|right; right; lia].
      intros [= Ex Ey]. apply Hne. f_equal; lia.
Qed.

(** X9: on a grid whose cells hold [None], a digit 1..9 or an object that
    is not an [int], [is_valid] returns true iff no digit is held by two
    distinct cells that share a row, a column or a box, and false
    otherwise. *)
Theorem is_valid_no_peer_clash (b : loc) (h : heap) :
  grid_ok b h →
  ∃ r, is_valid b h = Ok r ∧ (r = true ↔ no_clash b h).
Proof.
  intros Hok. destruct (is_valid_total b h Hok) as [r Hr].
  exists r. split; [done|].
  rewrite <- (is_valid_no_clash b h Hok), Hr.
  split; [by intros -> | by intros [= ->]].
Qed.

(** At [clash_store]: the 5 at (0, 0) and the 5 at (3, 0) are peers. *)
Lemma is_valid_no_peer_clash_witness :
  grid_ok board0 clash_store ∧ ¬ no_clash board0 clash_store.
Proof.
  assert (Hok : grid_ok board0 clash_store).
  { apply grid_okb_sound. vm_compute. reflexivity. }
  split; [exact Hok|].
  destruct (is_valid_no_peer_clash board0 clash_store Hok) as (r & Hr & Hiff).
  intros Hnc. apply Hiff in Hnc. subst r. vm_compute in Hr. discriminate Hr.
Defined.

(** ** The verdicts depend on the cells only *)

Lemma box_cells_wf (b : loc) (mx my : Z) (h : heap) :
  wf_board b h → 0 <= mx <= 2 → 0 <= my <= 2 →
  ∃ s, get_at b mx my h = Ok (VRef s) ∧
       ∀ lx ly, 0 <= lx <= 2 → 0 <= ly <= 2 →
         get_at s lx ly h = get_board_item b (3 * mx + lx) (3 * my + ly) h.
Proof.
  intros Hwf Hmx Hmy.
  assert (Hcell : ∀ lx ly, 0 <= lx <= 2 → 0 <= ly <= 2 →
            ∃ s, get_at b mx my h = Ok (VRef s) ∧
                 get_at s lx ly h = get_board_item b (3 * mx + lx) (3 * my + ly) h).
  { intros lx ly Hlx Hly.
    destruct (get_board_item_total b h (3 * mx + lx) (3 * my + ly)) as [v Hv];
      [done|lia|lia|].
    rewrite Hv. apply get_board_item_Ok in Hv as (s & G1 & G2).
    destruct (box_coord mx lx Hlx) as [Ex1 Ex2].
    destruct (box_coord my ly Hly) as [Ey1 Ey2].
    rewrite Ex1, Ey1 in G1. rewrite Ex2, Ey2 in G2. eauto. }
  destruct (Hcell 0 0) as (s & Hs & _); [lia|lia|].
  exists s. split; [done|]. intros lx ly Hlx Hly.
  destruct (Hcell lx ly Hlx Hly) as (s' & Hs' & Hg). congruence.
Qed.

Lemma is_section_valid_cells (b : loc) (mx my : Z) (h : heap) :
  wf_board b h → 0 <= mx <= 2 → 0 <= my <= 2 →
  is_section_valid b mx my h =
  let? r := for_in (pairs (range 3) (range 3))
              (λ p t, let? v := get_board_item b (3 * mx + p.1) (3 * my + p.2) h in
                      mark (λ t, t >? 0) v t) (replicate 9 0) in
  finish r (λ _, Ok true).
Proof.
  intros Hwf Hmx Hmy.
  destruct (box_cells_wf b mx my h Hwf Hmx Hmy) as (s & Hs & Hcells).
  transitivity
    (let? r := for_in (pairs (range 3) (range 3))
                 (λ p t, let? v := get_at s p.1 p.2 h in
                         mark (λ t, t >? 0) v t) (replicate 9 0) in
     finish r (λ _, Ok true)).
  - unfold is_section_valid. rewrite Hs.
    exact (f_equal (λ m, let? r := m in finish r (λ _, Ok true))
             (for_in_nested (range 3) (range 3)
                (λ x y t, let? v := get_at s x y h in mark (λ t, t >? 0) v t)
                (replicate 9 0))).
  - f_equal. apply for_in_ext.
    intros [lx ly] t [Hx%elem_of_range Hy%elem_of_range]%elem_of_pairs.
    simpl. rewrite Hcells by lia. done.
Qed.

Lemma check_loop_ext {A V} (f g : A → result V) (p : V → bool) (xs : list A) :
  (∀ x, f x = g x) →
  for_in xs (check_body f p) tt = for_in xs (check_body g p) tt.
Proof.
  intros Hfg. apply for_in_ext. intros x u _. unfold check_body. by rewrite Hfg.
Qed.

Lemma same_cells_everywhere (b1 b2 : loc) (h1 h2 : heap) :
  (∀ x y, 0 <= x <= 8 → 0 <= y <= 8 →
     get_board_item b1 x y h1 = get_board_item b2 x y h2) →
  ∀ x y, get_board_item b1 x y h1 = get_board_item b2 x y h2.
Proof.
  intros Hsame x y.
  destruct (decide (0 <= x <= 8 ∧ 0 <= y <= 8)) as [[Hx Hy]|Hout];
    [by apply Hsame | by rewrite !get_board_item_out].
Qed.

Lemma same_cells_units (b1 b2 : loc) (h1 h2 : heap) :
  wf_board b1 h1 → wf_board b2 h2 →
  (∀ x y, 0 <= x <= 8 → 0 <= y <= 8 →
     get_board_item b1 x y h1 = get_board_item b2 x y h2) →
  (∀ y, is_line_valid_horizontal b1 y h1 = is_line_valid_horizontal b2 y h2) ∧
  (∀ x, is_line_valid_vertical b1 x h1 = is_line_valid_vertical b2 x h2) ∧
  (∀ mx my, is_section_valid b1 mx my h1 = is_section_valid b2 mx my h2).
Proof.
  intros Hwf1 Hwf2 Hsame.
  pose proof (same_cells_everywhere b1 b2 h1 h2 Hsame) as Hall.
  repeat split.
  - intros y. unfold is_line_valid_horizontal. f_equal. apply for_in_ext.
    intros x t _. by rewrite Hall.
  - intros x. unfold is_line_valid_vertical. f_equal. apply for_in_ext.
    intros y t _. by rewrite Hall.
  - intros mx my.
    destruct (decide (0 <= mx <= 2 ∧ 0 <= my <= 2)) as [[Hmx Hmy]|Hout].
    + rewrite !is_section_valid_cells by done. f_equal. apply for_in_ext.
      intros p t _. by rewrite Hall.
    + unfold is_section_valid. by rewrite !get_at_out.
Qed.

Lemma same_cells_verdicts (b1 b2 : loc) (h1 h2 : heap) :
  wf_board b1 h1 → wf_board b2 h2 →
  (∀ x y, 0 <= x <= 8 → 0 <= y <= 8 →
     get_board_item b1 x y h1 = get_board_item b2 x y h2) →
  is_valid b1 h1 = is_valid b2 h2 ∧ is_solved b1 h1 = is_solved b2 h2.
Proof.
  intros Hwf1 Hwf2 Hsame.
  destruct (same_cells_units b1 b2 h1 h2 Hwf1 Hwf2 Hsame) as (Hrow & Hcol & Hbox).
  assert (Hv : is_valid b1 h1 = is_valid b2 h2).
  { rewrite !is_valid_unfold.
    rewrite (check_loop_ext (λ x, is_line_valid_vertical b1 x h1)
               (λ x, is_line_valid_vertical b2 x h2)) by done.
    rewrite (check_loop_ext (λ y, is_line_valid_horizontal b1 y h1)
               (λ y, is_line_valid_horizontal b2 y h2)) by done.
    rewrite (check_loop_ext (λ p, is_section_valid b1 p.1 p.2 h1)
               (λ p, is_section_valid b2 p.1 p.2 h2)) by done.
    done. }
  split; [done|].
  rewrite !is_solved_unfold, Hv.
  rewrite (check_loop_ext (λ p, get_board_item b1 p.1 p.2 h1)
             (λ p, get_board_item b2 p.1 p.2 h2)); [done|].
  intros p. by apply same_cells_everywhere.
Qed.

(** X10: the checks look at nothing but the 81 cells: two well-formed
    boards (in the same store or not) whose cells read the same at every
    coordinate of [0,8] x [0,8] get the same answer, or the same
    exception, from every row, column and box check, from [is_valid] and
    from [is_solved]. *)
Theorem verdicts_depend_on_cells (b1 b2 : loc) (h1 h2 : heap) :
  wf_board b1 h1 → wf_board b2 h2 →
  (∀ x y, 0 <= x <= 8 → 0 <= y <= 8 →
     get_board_item b1 x y h1 = get_board_item b2 x y h2) →
  (∀ y, is_line_valid_horizontal b1 y h1 = is_line_valid_horizontal b2 y h2) ∧
  (∀ x, is_line_valid_vertical b1 x h1 = is_line_valid_vertical b2 x h2) ∧
  (∀ mx my, is_section_valid b1 mx my h1 = is_section_valid b2 mx my h2) ∧
  is_valid b1 h1 = is_valid b2 h2 ∧
  is_solved b1 h1 = is_solved b2 h2.
Proof.
  intros Hwf1 Hwf2 Hsame.
  destruct (same_cells_units b1 b2 h1 h2 Hwf1 Hwf2 Hsame) as (Hrow & Hcol & Hbox).
  destruct (same_cells_verdicts b1 b2 h1 h2 Hwf1 Hwf2 Hsame) as [Hv Hs].
  done.
Qed.

(** X11: the copy that [get_copy] returns is a well-formed board that gets
    from [is_valid] and from [is_solved] the answers the original gets,
    and making the copy does not change the answers for the original. *)
Theorem get_copy_same_verdict (b : loc) (h : heap) :
  wf_board b h →
  ∃ b2 h2,
    get_copy b h = (Ok b2, h2) ∧ wf_board b2 h2 ∧
    is_valid b2 h2 = is_valid b h ∧ is_solved b2 h2 = is_solved b h ∧
    is_valid b h2 = is_valid b h ∧ is_solved b h2 = is_solved b h.
Proof.
  intros Hwf.
  destruct (get_copy_spec b h Hwf) as (b2 & h2 & Hrun & Hwf2 & Hwfb & Hext & _ & Hsame).
  destruct (same_cells_verdicts b2 b h2 h Hwf2 Hwf Hsame) as [Hv Hs].
  destruct (same_cells_verdicts b b h2 h Hwfb Hwf) as [Hv' Hs'].
  { intros x y _ _. by apply get_board_item_extend. }
  exists b2, h2. done.
Qed.

(** Copying [solved_store]: the copy is solved. *)
Lemma get_copy_same_verdict_witness :
  wf_board board0 solved_store ∧
  ∃ b2 h2, get_copy board0 solved_store = (Ok b2, h2) ∧
           is_solved b2 h2 = Ok true.
Proof.
  assert (Hwf : wf_board board0 solved_store).
  { apply wf_boardb_sound. vm_compute. reflexivity. }
  split; [exact Hwf|].
  destruct (get_copy_same_verdict board0 solved_store Hwf)
    as (b2 & h2 & Hrun & _ & _ & Hs & _).
  exists b2, h2. split; [exact Hrun|]. rewrite Hs. vm_compute. reflexivity.
Defined.

(** Copying [clash_store]: row 0 of the copy is invalid like row 0 of the
    original. *)
Lemma verdicts_depend_on_cells_witness :
  wf_board board0 clash_store ∧
  ∃ b2 h2, get_copy board0 clash_store = (Ok b2, h2) ∧ wf_board b2 h2 ∧
           is_line_valid_horizontal b2 0 h2 = Ok false.
Proof.
  assert (Hwf : wf_board board0 clash_store).
  { apply wf_boardb_sound. vm_compute. reflexivity. }
  split; [exact Hwf|].
  destruct (get_copy_spec board0 clash_store Hwf)
    as (b2 & h2 & Hrun & Hwf2 & _ & _ & _ & Hsame).
  destruct (verdicts_depend_on_cells b2 board0 h2 clash_store Hwf2 Hwf Hsame)
    as (Hrow & _).
  exists b2, h2. split; [exact Hrun|]. split; [exact Hwf2|].
  rewrite Hrow. vm_compute. reflexivity.
Defined.

(** ** Solved grids *)

(** Nine cells holding pairwise different digits 1..9 hold them all. *)
Lemma digits_complete {K} (g : K → value) (keys : list K) :
  NoDup keys → length keys = 9%nat →
  (∀ k, k ∈ keys → ∃ d, 1 <= d <= 9 ∧ g k = VInt d) →
  (∀ k1 k2 d, k1 ∈ keys → k2 ∈ keys → g k1 = VInt d → g k2 = VInt d → k1 = k2) →
  ∀ d, 1 <= d <= 9 → ∃ k, k ∈ keys ∧ g k = VInt d.
Proof.
  intros Hnd Hlen Hdig Hinj d Hd.
  set (digit := λ k, match g k with VInt n => n | _ => 0 end).
  assert (Hg : ∀ k, k ∈ keys → g k = VInt (digit k) ∧ 1 <= digit k <= 9).
  { intros k Hk. destruct (Hdig k Hk) as (n & Hn & Hgk).
    unfold digit. rewrite Hgk. done. }
  assert (Hperm : digit <$> keys ≡ₚ seqZ 1 9).
  { apply submseteq_length_Permutation.
    - apply NoDup_submseteq.
      + apply NoDup_fmap_2_strong; [|done].
        intros k1 k2 Hk1 Hk2 Heq.
        destruct (Hg k1 Hk1) as [G1 _], (Hg k2 Hk2) as [G2 _].
        apply (Hinj k1 k2 (digit k1)); try done. by rewrite Heq.
      + intros n (k & -> & Hk)%list_elem_of_fmap.
        destruct (Hg k Hk) as [_ Hr]. apply elem_of_seqZ. lia.
    - rewrite length_fmap, length_seqZ, Hlen. lia. }
  assert (Hin : d ∈ digit <$> keys).
  { rewrite Hperm. apply elem_of_seqZ. lia. }
  apply list_elem_of_fmap in Hin as (k & -> & Hk).
  exists k. split; [done|]. by apply Hg.
Qed.

(** X12: in a grid of [None] and digits 1..9 on which [is_solved] returns
    true, every row, every column and every box holds each digit 1..9, at
    exactly one of its cells. *)
Theorem solved_units_complete (b : loc) (h : heap) (d : Z) :
  sudoku_grid b h → is_solved b h = Ok true → 1 <= d <= 9 →
  (∀ y, 0 <= y <= 8 →
     ∃ x, 0 <= x <= 8 ∧ get_board_item b x y h = Ok (VInt d) ∧
          ∀ x', 0 <= x' <= 8 → get_board_item b x' y h = Ok (VInt d) → x' = x) ∧
  (∀ x, 0 <= x <= 8 →
     ∃ y, 0 <= y <= 8 ∧ get_board_item b x y h = Ok (VInt d) ∧
          ∀ y', 0 <= y' <= 8 → get_board_item b x y' h = Ok (VInt d) → y' = y) ∧
  (∀ mx my, 0 <= mx <= 2 → 0 <= my <= 2 →
     ∃ lx ly, 0 <= lx <= 2 ∧ 0 <= ly <= 2 ∧
       get_board_item b (3 * mx + lx) (3 * my + ly) h = Ok (VInt d) ∧
       ∀ lx' ly', 0 <= lx' <= 2 → 0 <= ly' <= 2 →
         get_board_item b (3 * mx + lx') (3 * my + ly') h = Ok (VInt d) →
         lx' = lx ∧ ly' = ly).
Proof.
  intros Hsg Hsolved Hd.
  pose proof (sudoku_grid_ok b h Hsg) as Hok.
  apply is_solved_true_iff in Hsolved as [Hfull Hvalid].
  apply is_valid_true_iff in Hvalid as (Hcol & Hrow & Hbox).
  assert (Hdigit : ∀ x y, 0 <= x <= 8 → 0 <= y <= 8 →
            ∃ n, 1 <= n <= 9 ∧ cell b h x y = VInt n).
  { intros x y Hx Hy. destruct (Hsg x y Hx Hy) as [Hn|(n & Hn & Hg)].
    - destruct (Hfull x y Hx Hy) as (v & Hv & Hne). congruence.
    - exists n. split; [done|]. unfold cell. by rewrite Hg. }
  assert (Hcell : ∀ x y n, 0 <= x <= 8 → 0 <= y <= 8 →
            cell b h x y = VInt n ↔ get_board_item b x y h = Ok (VInt n)).
  { intros x y n Hx Hy. destruct (grid_ok_cell b h x y Hok Hx Hy) as [G _].
    rewrite G. split; [by intros -> | by intros [= ->]]. }
  repeat split.
  - intros y Hy.
    destruct (is_line_valid_horizontal_spec b y h Hok Hy) as (r & Hr & Hiff).
    rewrite Hrow in Hr by done. injection Hr as <-.
    destruct Hiff as [Hdist _]. specialize (Hdist eq_refl).
    destruct (digits_complete (λ x, cell b h x y) (range 9)) with (d := d)
      as (x & Hx%elem_of_range & Hgx); try done.
    + apply NoDup_range.
    + intros k Hk%elem_of_range. apply Hdigit; lia.
    + intros k1 k2 n Hk1%elem_of_range Hk2%elem_of_range G1 G2.
      destruct (Hdigit k1 y) as (n' & Hn' & E); [lia|done|].
      apply (Hdist k1 k2 n); try lia; try (apply Hcell; [lia|done|done]).
      congruence.
    + exists x. split; [lia|]. split; [apply Hcell; [lia|done|done]|].
      intros x' Hx' G'. apply (Hdist x' x d); try lia; try done.
      apply Hcell; [lia|done|done].
  - intros x Hx.
    destruct (is_line_valid_vertical_spec b x h Hok Hx) as (r & Hr & Hiff).
    rewrite Hcol in Hr by done. injection Hr as <-.
    destruct Hiff as [Hdist _]. specialize (Hdist eq_refl).
    destruct (digits_complete (λ y, cell b h x y) (range 9)) with (d := d)
      as (y & Hy%elem_of_range & Hgy); try done.
    + apply NoDup_range.
    + intros k Hk%elem_of_range. apply Hdigit; lia.
    + intros k1 k2 n Hk1%elem_of_range Hk2%elem_of_range G1 G2.
      destruct (Hdigit x k1) as (n' & Hn' & E); [done|lia|].
      apply (Hdist k1 k2 n); try lia; try (apply Hcell; [done|lia|done]).
      congruence.
    + exists y. split; [lia|]. split; [apply Hcell; [done|lia|done]|].
      intros y' Hy' G'. apply (Hdist y' y d); try lia; try done.
      apply Hcell; [done|lia|done].
  - intros mx my Hmx Hmy.
    destruct (is_section_valid_spec b mx my h Hok Hmx Hmy) as (r & Hr & Hiff).
    rewrite Hbox in Hr by done. injection Hr as <-.
    destruct Hiff as [Hdist _]. specialize (Hdist eq_refl).
    destruct (digits_complete
                (λ p : Z * Z, cell b h (3 * mx + p.1) (3 * my + p.2))
                (pairs (range 3) (range 3))) with (d := d)
      as ([lx ly] & [Hlx%elem_of_range Hly%elem_of_range]%elem_of_pairs & Hg);
      try done.
    + apply NoDup_pairs; apply NoDup_range.
    + intros [kx ky] [Hkx%elem_of_range Hky%elem_of_range]%elem_of_pairs.
      apply Hdigit; simpl; lia.
    + intros [x1 y1] [x2 y2] n
        [Hx1%elem_of_range Hy1%elem_of_range]%elem_of_pairs
        [Hx2%elem_of_range Hy2%elem_of_range]%elem_of_pairs G1 G2.
      simpl in G1, G2.
      destruct (Hdigit (3 * mx + x1) (3 * my + y1)) as (n' & Hn' & E); [lia|lia|].
      destruct (Hdist x1 y1 x2 y2 n) as [-> ->]; try lia;
        try (apply Hcell; [lia|lia|done]); [congruence|done].
    + simpl in Hg. exists lx, ly. split; [lia|]. split; [lia|].
      split; [apply Hcell; [lia|lia|done]|].
      intros lx' ly' Hlx' Hly' G'.
      apply (Hdist lx' ly' lx ly d); try lia; try done.
      apply Hcell; [lia|lia|done].
Qed.

(** At [solved_store], for the digit 7. *)
Lemma solved_units_complete_witness :
  sudoku_grid board0 solved_store ∧ is_solved board0 solved_store = Ok true ∧
  ∃ x, 0 <= x <= 8 ∧ get_board_item board0 x 4 solved_store = Ok (VInt 7).
Proof.
  assert (Hsg : sudoku_grid board0 solved_store).
  { apply sudoku_gridb_sound. vm_compute. reflexivity. }
  assert (Hs : is_solved board0 solved_store = Ok true).
  { vm_compute. reflexivity. }
  split; [exact Hsg|]. split; [exact Hs|].
  destruct (solved_units_complete board0 solved_store 7 Hsg Hs) as (Hrow & _);
    [lia|].
  destruct (Hrow 4) as (x & Hx & Hg & _); [lia|].
  exists x. split; [exact Hx | exact Hg].
Defined.

(** ** Writing a cell of a valid grid *)

Lemma peer_sym (x y x' y' : Z) : peer x y x' y' → peer x' y' x y.
Proof.
  intros [Hne Hp]. split; [congruence|].
  destruct Hp as [->|[->|[-> ->]]]; [by left | by right; left | by right; right].
Qed.

Lemma grid_ok_set (b : loc) (h h' : heap) (v : value) (x y : Z) :
  grid_ok b h → cell_ok v →
  get_board_item b x y h' = Ok v →
  (∀ x' y', (x', y') ≠ (x, y) →
     get_board_item b x' y' h' = get_board_item b x' y' h) →
  grid_ok b h'.
Proof.
  intros Hok Hv Hget Hother x' y' Hx' Hy'.
  destruct (decide ((x', y') = (x, y))) as [[= -> ->]|Hne]; [by exists v|].
  rewrite Hother by done. by apply Hok.
Qed.

(** X13: take a well-formed grid of [None], digits and non-[int] objects
    that [is_valid] accepts, and write at an in-range (x, y) a value that
    is [None], a digit 1..9 or a non-[int] object.  The grid is valid
    afterwards iff the value is not a digit that a peer of (x, y) holds (a
    peer being another cell of the same row, column or box); what the
    cell held before plays no part, and writing [None] always leaves the
    grid valid. *)
Theorem is_valid_after_set (b : loc) (h : heap) (v : value) (x y : Z) :
  wf_board b h → grid_ok b h → is_valid b h = Ok true → cell_ok v →
  0 <= x <= 8 → 0 <= y <= 8 →
  ∃ h',
    set_board_item b v x y h = (Ok tt, h') ∧
    (is_valid b h' = Ok true ∨ is_valid b h' = Ok false) ∧
    (is_valid b h' = Ok true ↔
       ∀ d x' y', v = VInt d → 0 <= x' <= 8 → 0 <= y' <= 8 →
         peer x y x' y' → get_board_item b x' y' h ≠ Ok (VInt d)) ∧
    (v = VNone → is_valid b h' = Ok true).
Proof.
  intros Hwf Hok Hvalid Hv Hx Hy.
  destruct (set_board_item_in b h v x y Hwf Hx Hy)
    as (s & cells & _ & _ & _ & Hset & _ & Hget & Hother).
  eexists. split; [exact Hset|].
  set (h' := <[s:=OSection (<[slot (x mod 3) (y mod 3):=v]> cells)]> h) in *.
  pose proof (grid_ok_set b h h' v x y Hok Hv Hget Hother) as Hok'.
  apply (is_valid_no_clash b h Hok) in Hvalid.
  assert (Hiff : is_valid b h' = Ok true ↔
            ∀ d x' y', v = VInt d → 0 <= x' <= 8 → 0 <= y' <= 8 →
              peer x y x' y' → get_board_item b x' y' h ≠ Ok (VInt d)).
  { rewrite (is_valid_no_clash b h' Hok'). split.
    - intros Hnc d x' y' -> Hx' Hy' Hp.
      rewrite <- (Hother x' y') by apply Hp.
      by apply (Hnc x y x' y' d).
    - intros Hfree x1 y1 x2 y2 d Hx1 Hy1 Hx2 Hy2 Hp G1.
      destruct (decide ((x1, y1) = (x, y))) as [[= -> ->]|Hne1].
      + rewrite Hother by apply Hp.
        apply (Hfree d x2 y2); try done. congruence.
      + rewrite Hother in G1 by done.
        destruct (decide ((x2, y2) = (x, y))) as [[= -> ->]|Hne2].
        * rewrite Hget. intros [= ->].
          by apply (Hfree d x1 y1 eq_refl Hx1 Hy1 (peer_sym _ _ _ _ Hp)).
        * rewrite Hother by done. by apply (Hvalid x1 y1 x2 y2 d). }
  split; [|split; [done|]].
  - destruct (is_valid_total b h' Hok') as [[] Hr]; [by left | by right].
  - intros ->. apply Hiff. by intros d x' y'.
Qed.

(** At [solved_store] with its cell (4, 8) emptied: writing a 3 there
    makes the grid invalid, since (0, 8) holds a 3. *)
Lemma is_valid_after_set_witness :
  let h := (set_board_item board0 VNone 4 8 solved_store).2 in
  wf_board board0 h ∧ grid_ok board0 h ∧ is_valid board0 h = Ok true ∧
  cell_ok (VInt 3) ∧
  ∃ h', set_board_item board0 (VInt 3) 4 8 h = (Ok tt, h') ∧
        is_valid board0 h' = Ok false.
Proof.
  intros h.
  assert (Hwf : wf_board board0 h).
  { apply wf_boardb_sound. vm_compute. reflexivity. }
  assert (Hok : grid_ok board0 h).
  { apply grid_okb_sound. vm_compute. reflexivity. }
  assert (Hvalid : is_valid board0 h = Ok true) by (vm_compute; reflexivity).
  assert (H3 : cell_ok (VInt 3)) by (intros n [= <-]; lia).
  split; [exact Hwf|]. split; [exact Hok|]. split; [exact Hvalid|].
  split; [exact H3|].
  destruct (is_valid_after_set board0 h (VInt 3) 4 8 Hwf Hok Hvalid H3)
    as (h' & Hset & [Ht|Hf] & Hiff & _); [lia|lia| |].
  - exfalso. destruct Hiff as [Hfwd _].
    apply (Hfwd Ht 3 0 8 eq_refl); [lia|lia| |].
    + split; [by intros [=] | by left].
    + vm_compute. reflexivity.
  - exists h'. split; [exact Hset | exact Hf].
Defined.

(** ** [load_board] on any text *)

Lemma line_okb_beyond (row_ok : bool) (cs : list ascii) :
  ∀ k, (9 <= k)%nat → line_okb row_ok k cs = true.
Proof.
  induction cs as [|c cs IH]; intros k Hk; simpl; [done|].
  assert (Nat.ltb k 9 = false) as -> by (apply Nat.ltb_ge; lia).
  simpl. apply IH. lia.
Qed.

(** The inner loop of [load_board] on any row, from column [k] on. *)
Lemma load_line_any (b : loc) (y : Z) (row_ok : bool) (cs : list ascii) :
  (row_ok = true ↔ 0 <= y <= 8) →
  ∀ (k : nat) (h : heap),
    wf_board b h →
    ∃ r h',
      for_break (enumerate_from (Z.of_nat k) cs) (λ '(x, char),
        if x >=? 9 then ret false
        else if negb (Ascii.eqb char " ") then
          let! n := read (λ _, int_of_char char) in
          let! _ := set_board_item b (VInt n) x y in
          ret true
        else ret true) h = (r, h') ∧
      wf_board b h' ∧
      (∀ l, ¬ owns b h l → h' !! l = h !! l) ∧
      h' !! b = h !! b ∧
      (r = Ok tt ↔ line_okb row_ok k cs = true) ∧
      (r = Ok tt ∨ r = Raise ValueError ∨ r = Raise IndexError).
Proof.
  intros Hrow. induction cs as [|c cs IH]; intros k h Hwf.
  - exists (Ok tt), h. simpl. repeat split; try done. by left.
  - simpl. unfold bind at 1.
    destruct (Z.of_nat k >=? 9) eqn:E9.
    { exists (Ok tt), h. simpl.
      assert (Nat.ltb k 9 = false) as -> by (apply Nat.ltb_ge; lia). simpl.
      rewrite line_okb_beyond by lia. repeat split; try done. by left. }
    assert (Nat.ltb k 9 = true) as -> by (apply Nat.ltb_lt; lia).
    replace (Z.of_nat k + 1) with (Z.of_nat (S k)) by lia.
    destruct (Ascii.eqb c " ") eqn:Ec; simpl.
    { destruct (IH (S k) h Hwf) as (r & h' & Hrun & Hwf' & Hfr & Hb & Hiff & Herr).
      exists r, h'. done. }
    unfold bind at 1, read, int_of_char.
    rewrite <- (andb_assoc row_ok).
    destruct ((48 <=? code c) && (code c <=? 57)) eqn:Ed; simpl.
    2:{ exists (Raise ValueError), h. rewrite andb_false_r. simpl.
        repeat split; try done. by right; left. }
    rewrite andb_true_r. unfold bind at 1.
    destruct (decide (0 <= y <= 8)) as [Hy|Hy].
    + assert (row_ok = true) as -> by by apply Hrow.
      destruct (set_board_item_in b h (VInt (code c - 48)) (Z.of_nat k) y) as
        (s & cells & Hown & Hsb & Hs & Hset & Hwf1 & _); [done|lia|done|].
      rewrite Hset. unfold ret at 1.
      set (h1 := <[s:=OSection _]> h) in *.
      assert (Hb1 : h1 !! b = h !! b) by (unfold h1; by rewrite lookup_insert_ne).
      destruct (IH (S k) h1 Hwf1) as (r & h' & Hrun & Hwf' & Hfr & Hb & Hiff & Herr).
      exists r, h'. split; [done|]. split; [done|].
      split; [|split; [congruence|done]].
      intros l Hl. rewrite Hfr.
      * unfold h1. rewrite lookup_insert_ne; [done|]. by intros <-.
      * intros Ho. apply Hl. by eapply owns_frame; [|exact Ho].
    + assert (row_ok = false) as ->.
      { destruct row_ok; [|done]. by destruct Hy; apply Hrow. }
      rewrite set_board_item_out by (intros [_ ?]; done).
      exists (Raise IndexError), h. simpl. repeat split; try done. by right; right.
Qed.

(** The outer loop of [load_board] on any rows, from row [j] on. *)
Lemma load_rows_any (b : loc) (lines : list string) :
  ∀ (j : nat) (h : heap),
    wf_board b h →
    ∃ r h',
      for_each (enumerate_from (Z.of_nat j) lines) (λ '(y, line),
        for_break (enumerate (list_ascii_of_string line)) (λ '(x, char),
          if x >=? 9 then ret false
          else if negb (Ascii.eqb char " ") then
            let! n := read (λ _, int_of_char char) in
            let! _ := set_board_item b (VInt n) x y in
            ret true
          else ret true)) h = (r, h') ∧
      wf_board b h' ∧
      (∀ l, ¬ owns b h l → h' !! l = h !! l) ∧
      h' !! b = h !! b ∧
      (r = Ok tt ↔ rows_okb j lines = true) ∧
      (r = Ok tt ∨ r = Raise ValueError ∨ r = Raise IndexError).
Proof.
  induction lines as [|line lines IH]; intros j h Hwf.
  - exists (Ok tt), h. simpl. repeat split; try done. by left.
  - simpl. unfold bind at 1, enumerate.
    destruct (load_line_any b (Z.of_nat j) (Nat.ltb j 9)
                (list_ascii_of_string line)) with (k := 0%nat) (h := h)
      as (r1 & h1 & Hrun1 & Hwf1 & Hfr1 & Hb1 & Hiff1 & Herr1); [|done|].
    { rewrite Nat.ltb_lt. lia. }
    change (Z.of_nat 0) with 0 in Hrun1. rewrite Hrun1.
    destruct r1 as [[]|e].
    + replace (Z.of_nat j + 1) with (Z.of_nat (S j)) by lia.
      destruct (IH (S j) h1 Hwf1) as (r & h' & Hrun & Hwf' & Hfr & Hb & Hiff & Herr).
      exists r, h'. split; [done|]. split; [done|].
      split; [|split; [congruence|]].
      * intros l Hl. rewrite Hfr; [by apply Hfr1|].
        intros Ho. apply Hl. by eapply owns_frame; [|exact Ho].
      * destruct Hiff1 as [-> _]; [done|]. simpl. done.
    + exists (Raise e), h1. split; [done|]. split; [done|].
      split; [done|]. split; [done|]. split.
      * split; [done|]. intros [Hl _]%andb_true_iff.
        by apply Hiff1 in Hl.
      * destruct Herr1 as [|[|]]; [done | by right; left | by right; right].
Qed.

(** X14: [load_board] on any text, into a well-formed board: the call
    returns normally iff, within the first nine columns, every character
    other than a space is a decimal digit and sits in one of the first
    nine rows; otherwise it raises ValueError or IndexError.  Either way
    the board is still well-formed afterwards, and nothing but cells of
    the grid has been written. *)
Theorem load_board_outcome (b : loc) (h : heap) (board_raw : string) :
  wf_board b h →
  ∃ r h',
    load_board b board_raw h = (r, h') ∧
    wf_board b h' ∧
    (∀ l, ¬ owns b h l → h' !! l = h !! l) ∧
    h' !! b = h !! b ∧
    (r = Ok tt ↔ loadable board_raw) ∧
    (r = Ok tt ∨ r = Raise ValueError ∨ r = Raise IndexError).
Proof.
  intros Hwf.
  destruct (load_rows_any b (splitlines board_raw) 0%nat h Hwf)
    as (r & h' & Hrun & Hwf' & Hfr & Hb & Hiff & Herr).
  exists r, h'. split; [exact Hrun|].
  split; [done|]. split; [done|]. split; [done|]. split; [|done]. split.
  - intros Hr. apply loadableb_sound. by apply Hiff.
  - intros Hload.
    destruct (load_rows b (splitlines board_raw) 0 h) as (h2 & Hrun2 & _);
      [done|lia| |].
    { intros k x line c Hk Hx Hlt Hne.
      destruct (Hload k x line c Hk Hx Hlt Hne). split; [lia|done]. }
    change (Z.of_nat 0) with 0 in Hrun. rewrite Hrun in Hrun2. congruence.
Qed.

(** Loading [ten_rows] into the empty grid raises and leaves the board
    well-formed. *)
Lemma load_board_outcome_witness :
  wf_board board0 empty_store ∧
  wf_board board0 (load_board board0 ten_rows empty_store).2 ∧
  ¬ loadable ten_rows.
Proof.
  assert (Hwf : wf_board board0 empty_store).
  { apply wf_boardb_sound. vm_compute. reflexivity. }
  split; [exact Hwf|].
  destruct (load_board_outcome board0 empty_store ten_rows Hwf)
    as (r & h' & Hrun & Hwf' & _ & _ & Hiff & _).
  split.
  - by rewrite Hrun.
  - intros Hload. apply Hiff in Hload. subst r.
    vm_compute in Hrun. discriminate Hrun.
Defined.

(** ** Loading, composed *)

Lemma loaded_twice (c : option ascii) (old : result value) :
  loaded c (loaded c old) = loaded c old.
Proof. destruct c as [c|]; [|done]. simpl. by destruct (Ascii.eqb c " "). Qed.

(** X15: [Board()] followed by [load_board] on a text within the layout
    (in the first nine columns, every character other than a space is a
    digit in one of the first nine rows): both return normally, and the
    cell (x, y), for x and y in [0,8], holds the digit written at column x
    of row y of the text, and [None] where the text has a space or nothing;
    the objects that existed before are as they were. *)
Theorem load_into_new_board (h : heap) (board_raw : string) :
  loadable board_raw →
  ∃ b h1 h2,
    Board_init h = (Ok b, h1) ∧ load_board b board_raw h1 = (Ok tt, h2) ∧
    wf_board b h2 ∧
    (∀ l, l ∈ dom h → h2 !! l = h !! l) ∧
    ∀ x y, 0 <= x <= 8 → 0 <= y <= 8 →
      get_board_item b x y h2 =
      Ok (match char_at board_raw x y with
          | Some c => if Ascii.eqb c " " then VNone else VInt (code c - 48)
          | None => VNone
          end).
Proof.
  intros Hload.
  destruct (Board_init_spec h) as (b & h1 & Hinit & _ & Hwf & Hext & Hsep & Hempty).
  destruct (load_rows b (splitlines board_raw) 0 h1) as
    (h2 & Hrun & Hwf2 & Hfr & _ & Hget); [done|lia| |].
  { intros k x line c Hk Hx Hlt Hne.
    destruct (Hload k x line c Hk Hx Hlt Hne). split; [lia|done]. }
  exists b, h1, h2. split; [done|]. split; [exact Hrun|]. split; [done|]. split.
  - intros l Hl. rewrite Hfr; [by apply Hext|]. intros Ho. by apply (Hsep l).
  - intros x y Hx Hy. rewrite Hget, Hempty by done.
    rewrite decide_True by lia. rewrite Z.sub_0_r.
    fold (char_at board_raw x y).
    destruct (char_at board_raw x y) as [c|]; [|done]. simpl.
    by destruct (Ascii.eqb c " ").
Qed.

(** Loading [sample_text] into a new board in the empty store. *)
Lemma load_into_new_board_witness :
  loadable sample_text ∧
  ∃ b h1 h2,
    Board_init ∅ = (Ok b, h1) ∧ load_board b sample_text h1 = (Ok tt, h2) ∧
    get_board_item b 8 0 h2 = Ok (VInt 9) ∧
    get_board_item b 0 1 h2 = Ok VNone ∧
    get_board_item b 0 8 h2 = Ok VNone.
Proof.
  assert (Hld : loadable sample_text).
  { apply loadableb_sound. vm_compute. reflexivity. }
  split; [exact Hld|].
  destruct (load_into_new_board ∅ sample_text Hld)
    as (b & h1 & h2 & Hinit & Hrun & _ & _ & Hget).
  exists b, h1, h2. split; [exact Hinit|]. split; [exact Hrun|].
  rewrite !Hget by lia. repeat split; vm_compute; reflexivity.
Defined.

(** X16: loading is idempotent: on a well-formed board, loading a text
    within the layout a second time returns normally again and leaves
    every cell as the first loading left it. *)
Theorem load_board_twice (b : loc) (h : heap) (board_raw : string) :
  wf_board b h → loadable board_raw →
  ∃ h1 h2,
    load_board b board_raw h = (Ok tt, h1) ∧
    load_board b board_raw h1 = (Ok tt, h2) ∧
    ∀ x y, get_board_item b x y h2 = get_board_item b x y h1.
Proof.
  intros Hwf Hload.
  assert (Hrows : ∀ (k x : nat) line c,
            splitlines board_raw !! k = Some line →
            list_ascii_of_string line !! x = Some c →
            (x < 9)%nat → c ≠ " "%char →
            0 + Z.of_nat k <= 8 ∧ 48 <= code c <= 57).
  { intros k x line c Hk Hx Hlt Hne.
    destruct (Hload k x line c Hk Hx Hlt Hne). split; [lia|done]. }
  destruct (load_rows b (splitlines board_raw) 0 h) as
    (h1 & Hrun1 & Hwf1 & _ & _ & Hget1); [done|lia|done|].
  destruct (load_rows b (splitlines board_raw) 0 h1) as
    (h2 & Hrun2 & _ & _ & _ & Hget2); [done|lia|done|].
  exists h1, h2. split; [exact Hrun1|]. split; [exact Hrun2|].
  intros x y.
  destruct (decide (0 <= x <= 8 ∧ 0 <= y <= 8)) as [[Hx Hy]|Hout];
    [|by rewrite !get_board_item_out].
  rewrite Hget2, Hget1 by done. apply loaded_twice.
Qed.

(** Loading [sample_text] twice into the solved grid. *)
Lemma load_board_twice_witness :
  wf_board board0 solved_store ∧ loadable sample_text ∧
  ∃ h1 h2,
    load_board board0 sample_text solved_store = (Ok tt, h1) ∧
    load_board board0 sample_text h1 = (Ok tt, h2) ∧
    get_board_item board0 0 1 h2 = get_board_item board0 0 1 h1.
Proof.
  assert (Hwf : wf_board board0 solved_store).
  { apply wf_boardb_sound. vm_compute. reflexivity. }
  assert (Hld : loadable sample_text).
  { apply loadableb_sound. vm_compute. reflexivity. }
  split; [exact Hwf|]. split; [exact Hld|].
  destruct (load_board_twice board0 solved_store sample_text Hwf Hld)
    as (h1 & h2 & Hrun1 & Hrun2 & Hsame).
  exists h1, h2. split; [exact Hrun1|]. split; [exact Hrun2|]. apply Hsame.
Defined.

(** ** Rendering *)













Lemma wf_cell (b : loc) (h : heap) (x y : Z) :
  wf_board b h → 0 <= x <= 8 → 0 <= y <= 8 →
  get_board_item b x y h = Ok (cell b h x y).
Proof.
  intros Hwf Hx Hy. destruct (get_board_item_total b h x y Hwf Hx Hy) as [v Hv].
  unfold cell. by rewrite Hv.
Qed.



















(** ** The scans on any integers *)

Lemma mark_of_lt (n : Z) : (mark_of n < 9)%nat.
Proof. unfold mark_of. pose proof (Z.mod_pos_bound (n - 1) 9 eq_refl). lia. Qed.

Lemma norm_index_wrap {A} (l : list A) (i : Z) :
  length l = 9%nat → -9 <= i <= 8 →
  norm_index l i = Some (Z.to_nat (i mod 9)).
Proof.
  intros Hlen Hi. unfold norm_index. rewrite Hlen. change (Z.of_nat 9) with 9.
  pose proof (Z.div_mod i 9) as Hd. pose proof (Z.mod_pos_bound i 9 eq_refl) as Hm.
  destruct (i <? 0) eqn:E.
  - destruct ((0 <=? i + 9) && (i + 9 <? 9)) eqn:E2;
      [do 2 f_equal; lia | apply andb_false_iff in E2; lia].
  - destruct ((0 <=? i) && (i <? 9)) eqn:E2;
      [do 2 f_equal; lia | apply andb_false_iff in E2; lia].
Qed.

Lemma norm_index_out {A} (l : list A) (i : Z) :
  length l = 9%nat → ¬ (-9 <= i <= 8) → norm_index l i = None.
Proof.
  intros Hlen Hi. unfold norm_index. rewrite Hlen. change (Z.of_nat 9) with 9.
  destruct (i <? 0) eqn:E.
  - destruct ((0 <=? i + 9) && (i + 9 <? 9)) eqn:E2;
      [apply andb_true_iff in E2; lia | done].
  - destruct ((0 <=? i) && (i <? 9)) eqn:E2;
      [apply andb_true_iff in E2; lia | done].
Qed.

Lemma distinct_marks_cons (v : value) (vs : list value) :
  distinct_marks (v :: vs) ↔
  (∀ n j n2, v = VInt n → vs !! j = Some (VInt n2) → mark_of n2 ≠ mark_of n) ∧
  distinct_marks vs.
Proof.
  unfold distinct_marks. split.
  - intros H. split.
    + intros n j n2 -> Hj Heq. specialize (H 0%nat (S j) n n2 eq_refl Hj). lia.
    + intros i j n1 n2 Hi Hj Heq. specialize (H (S i) (S j) n1 n2 Hi Hj Heq). lia.
  - intros [H1 H2] [|i] [|j] n1 n2 Hi Hj Heq; simpl in *.
    + done.
    + injection Hi as ->. by destruct (H1 n1 j n2 eq_refl Hj).
    + injection Hj as ->. by destruct (H1 n2 i n1 eq_refl Hi).
    + f_equal. eauto.
Qed.

(** The scan on any list of cells: it goes through exactly when every
    integer is markable and no two of them share a mark; otherwise it
    returns [False] or raises IndexError. *)
Lemma scan_wrap (test : Z → bool) (vs : list value) :
  test 0 = false → test 1 = true →
  ∀ taken, marks_ok taken →
    ((∃ t, for_in vs (mark test) taken = Ok (Next t)) ∨
     for_in vs (mark test) taken = Ok (Return false) ∨
     for_in vs (mark test) taken = Raise IndexError) ∧
    ((∃ t, for_in vs (mark test) taken = Ok (Next t)) ↔
     Forall markable vs ∧ distinct_marks vs ∧ unmarked_marks taken vs).
Proof.
  intros Ht0 Ht1. induction vs as [|v vs IH]; intros taken Hm.
  - simpl. split; [left; eauto|]. split; [|eauto]. intros _.
    split; [done|]. split; intros ?; intros; done.
  - assert (Hskip : (∀ n, v ≠ VInt n) → mark test v taken = Ok (Next taken) →
              ((∃ t, for_in (v :: vs) (mark test) taken = Ok (Next t)) ∨
               for_in (v :: vs) (mark test) taken = Ok (Return false) ∨
               for_in (v :: vs) (mark test) taken = Raise IndexError) ∧
              ((∃ t, for_in (v :: vs) (mark test) taken = Ok (Next t)) ↔
               Forall markable (v :: vs) ∧ distinct_marks (v :: vs)
               ∧ unmarked_marks taken (v :: vs))).
    { intros Hni Hmk. destruct (IH taken Hm) as [Hcases Hiff].
      simpl. rewrite Hmk. split; [done|].
      rewrite Hiff, Forall_cons, distinct_marks_cons. unfold unmarked_marks. split.
      - intros (Hall & Hd & Hu). split; [split; [|done]|split; [split; [|done]|]].
        + intros n ->. by destruct (Hni n).
        + intros n j n2 ->. by destruct (Hni n).
        + intros [|j] n Hj; simpl in Hj; [|by eauto].
          injection Hj as ->. by destruct (Hni n).
      - intros ([_ Hall] & [_ Hd] & Hu). split; [done|]. split; [done|].
        intros j n Hj. by apply (Hu (S j)). }
    destruct v as [|n|l]; [by apply Hskip | | by apply Hskip]. clear Hskip.
    destruct Hm as [Hlen Hbit].
    destruct (decide (-8 <= n <= 9)) as [Hn|Hn].
    + (* the index is within the marks *)
      assert (Hnorm : norm_index taken (n - 1) = Some (mark_of n))
        by (apply norm_index_wrap; [done|lia]).
      pose proof (mark_of_lt n) as Hk.
      destruct (lookup_lt_is_Some_2 taken (mark_of n)) as [t Ht]; [lia|].
      assert (Hget : getitem taken (n - 1) = Ok t).
      { unfold getitem. by rewrite Hnorm, Ht. }
      assert (Hset : setitem taken (n - 1) 1 = Ok (<[mark_of n:=1]> taken)).
      { unfold setitem. by rewrite Hnorm. }
      destruct (Hbit _ _ Ht) as [-> | ->].
      * set (taken' := <[mark_of n:=1]> taken).
        assert (Hm' : marks_ok taken').
        { split; [unfold taken'; by rewrite length_insert|].
          intros i t. unfold taken'.
          destruct (decide (i = mark_of n)) as [->|Hne].
          - rewrite list_lookup_insert_eq by lia. intros [= <-]. by right.
          - rewrite list_lookup_insert_ne by done. apply Hbit. }
        destruct (IH taken' Hm') as [Hcases Hiff].
        simpl. rewrite Hget. simpl. rewrite Ht0, Hset. simpl. fold taken'.
        split; [done|].
        rewrite Hiff, Forall_cons, distinct_marks_cons. unfold unmarked_marks.
        split.
        -- intros (Hall & Hd & Hu).
           assert (Hfresh : ∀ j n2, vs !! j = Some (VInt n2) → mark_of n2 ≠ mark_of n).
           { intros j n2 Hj Heq. specialize (Hu j n2 Hj). unfold taken' in Hu.
             rewrite Heq, list_lookup_insert_eq in Hu by lia. done. }
           split; [split; [by intros ? [= <-]|done]|].
           split; [split; [by intros ? j n2 [= <-]; apply Hfresh|done]|].
           intros [|j] n2 Hj; simpl in Hj; [by injection Hj as <-|].
           specialize (Hu j n2 Hj). unfold taken' in Hu.
           rewrite list_lookup_insert_ne in Hu; [done|].
           intros Heq. by apply (Hfresh j n2).
        -- intros ([_ Hall] & [Hfresh Hd] & Hu). split; [done|]. split; [done|].
           intros j n2 Hj. unfold taken'.
           rewrite list_lookup_insert_ne; [by apply (Hu (S j))|].
           intros Heq. by apply (Hfresh n j n2).
      * simpl. rewrite Hget. simpl. rewrite Ht1.
        split; [by right; left|]. split; [by intros [? [=]]|].
        intros (_ & _ & Hu). specialize (Hu 0%nat n eq_refl). congruence.
    + (* the index is outside the marks *)
      assert (Hget : getitem taken (n - 1) = Raise IndexError).
      { unfold getitem. rewrite norm_index_out; [done|done|lia]. }
      simpl. rewrite Hget. simpl.
      split; [by right; right|]. split; [by intros [? [=]]|].
      intros (Hall & _). apply Forall_cons in Hall as [Hv _].
      by destruct Hn; apply Hv.
Qed.

(** The scan from fresh marks over the cells [g k], for [k] in [keys]. *)
Lemma scan_keys {K} (test : Z → bool) (g : K → value) (keys : list K) :
  test 0 = false → test 1 = true → NoDup keys →
  let run := let? r := for_in (g <$> keys) (mark test) (replicate 9 0) in
             finish r (λ _, Ok true) in
  (run = Ok true ∨ run = Ok false ∨ run = Raise IndexError) ∧
  (run = Ok true ↔
   (∀ k n, k ∈ keys → g k = VInt n → -8 <= n <= 9) ∧
   (∀ k1 k2 n1 n2, k1 ∈ keys → k2 ∈ keys → g k1 = VInt n1 → g k2 = VInt n2 →
      mark_of n1 = mark_of n2 → k1 = k2)).
Proof.
  intros Ht0 Ht1 Hnd run.
  destruct (scan_wrap test (g <$> keys) Ht0 Ht1 (replicate 9 0) marks_ok_fresh)
    as [Hcases Hiff].
  assert (Hrun : run = Ok true ↔
            ∃ t, for_in (g <$> keys) (mark test) (replicate 9 0) = Ok (Next t)).
  { unfold run. destruct Hcases as [[t ->]|[-> | ->]]; simpl.
    - split; [eauto|done].
    - split; [done | by intros [? [=]]].
    - split; [done | by intros [? [=]]]. }
  split.
  - unfold run. destruct Hcases as [[t ->]|[-> | ->]]; simpl;
      [by left | by right; left | by right; right].
  - rewrite Hrun, Hiff. split.
    + intros (Hall & Hd & _). split.
      * intros k n Hk Hg. rewrite Forall_fmap, Forall_forall in Hall.
        by apply (Hall k Hk n).
      * intros k1 k2 n1 n2 [i Hi]%list_elem_of_lookup [j Hj]%list_elem_of_lookup
          G1 G2 Heq.
        assert (i = j) as ->.
        { apply (Hd i j n1 n2); try done;
            rewrite list_lookup_fmap; [rewrite Hi | rewrite Hj]; simpl; congruence. }
        congruence.
    + intros [Hall Hd]. split; [|split].
      * apply Forall_fmap, Forall_forall. intros k Hk n Hg. by apply (Hall k n).
      * intros i j n1 n2 Hi Hj Heq. rewrite list_lookup_fmap in Hi, Hj.
        destruct (keys !! i) as [k1|] eqn:E1; [|done].
        destruct (keys !! j) as [k2|] eqn:E2; [|done].
        simpl in Hi, Hj. injection Hi as Hi. injection Hj as Hj.
        assert (k1 = k2) as ->.
        { apply (Hd k1 k2 n1 n2); try done; by eapply list_elem_of_lookup_2. }
        by eapply NoDup_lookup.
      * intros j n Hj. apply lookup_replicate. split; [done | apply mark_of_lt].
Qed.

Lemma wf_cell_VInt (b : loc) (h : heap) (x y n : Z) :
  wf_board b h → 0 <= x <= 8 → 0 <= y <= 8 →
  cell b h x y = VInt n ↔ get_board_item b x y h = Ok (VInt n).
Proof.
  intros Hwf Hx Hy. rewrite (wf_cell b h x y Hwf Hx Hy).
  split; [by intros -> | by intros [= ->]].
Qed.

(** X20: the unit checks on a well-formed board whatever integers it
    holds.  A check returns True, returns False or raises IndexError.  It
    returns True exactly when every integer n of the unit has -8 <= n <= 9
    and no two cells of the unit hold integers with the same mark, the
    mark of n being (n - 1) mod 9: so 0 counts as a 9, -8 as a 1, and an
    integer above 9 or below -8 is never accepted. *)
Theorem unit_checks_any_int (b : loc) (h : heap) :
  wf_board b h →
  (∀ y, 0 <= y <= 8 →
     let run := is_line_valid_horizontal b y h in
     (run = Ok true ∨ run = Ok false ∨ run = Raise IndexError) ∧
     (run = Ok true ↔
      (∀ x n, 0 <= x <= 8 → get_board_item b x y h = Ok (VInt n) → -8 <= n <= 9) ∧
      (∀ x1 x2 n1 n2, 0 <= x1 <= 8 → 0 <= x2 <= 8 →
         get_board_item b x1 y h = Ok (VInt n1) →
         get_board_item b x2 y h = Ok (VInt n2) →
         mark_of n1 = mark_of n2 → x1 = x2))) ∧
  (∀ x, 0 <= x <= 8 →
     let run := is_line_valid_vertical b x h in
     (run = Ok true ∨ run = Ok false ∨ run = Raise IndexError) ∧
     (run = Ok true ↔
      (∀ y n, 0 <= y <= 8 → get_board_item b x y h = Ok (VInt n) → -8 <= n <= 9) ∧
      (∀ y1 y2 n1 n2, 0 <= y1 <= 8 → 0 <= y2 <= 8 →
         get_board_item b x y1 h = Ok (VInt n1) →
         get_board_item b x y2 h = Ok (VInt n2) →
         mark_of n1 = mark_of n2 → y1 = y2))) ∧
  (∀ mx my, 0 <= mx <= 2 → 0 <= my <= 2 →
     let run := is_section_valid b mx my h in
     (run = Ok true ∨ run = Ok false ∨ run = Raise IndexError) ∧
     (run = Ok true ↔
      (∀ lx ly n, 0 <= lx <= 2 → 0 <= ly <= 2 →
         get_board_item b (3 * mx + lx) (3 * my + ly) h = Ok (VInt n) →
         -8 <= n <= 9) ∧
      (∀ lx1 ly1 lx2 ly2 n1 n2,
         0 <= lx1 <= 2 → 0 <= ly1 <= 2 → 0 <= lx2 <= 2 → 0 <= ly2 <= 2 →
         get_board_item b (3 * mx + lx1) (3 * my + ly1) h = Ok (VInt n1) →
         get_board_item b (3 * mx + lx2) (3 * my + ly2) h = Ok (VInt n2) →
         mark_of n1 = mark_of n2 → lx1 = lx2 ∧ ly1 = ly2))).
Proof.
  intros Hwf. split; [|split].
  - intros y Hy run.
    assert (Erun : run = let? r := for_in ((λ x, cell b h x y) <$> range 9)
                                     (mark (λ t, negb (t =? 0))) (replicate 9 0) in
                         finish r (λ _, Ok true)).
    { unfold run, is_line_valid_horizontal.
      rewrite (for_in_ext _ _
        (λ x s, let? v := get_board_item b x y h in
                mark (λ t, negb (t =? 0)) v s)) by done.
      rewrite (for_in_read _ _ (λ x, cell b h x y)); [done|].
      intros x Hx%elem_of_range. apply wf_cell; [done|lia|done]. }
    rewrite Erun.
    destruct (scan_keys (λ t, negb (t =? 0)) (λ x, cell b h x y) (range 9))
      as [Hcases Hiff]; [done|done|apply NoDup_range|].
    split; [exact Hcases|]. rewrite Hiff. split.
    + intros [Hall Hd]. split.
      * intros x n Hx G. apply (Hall x n); [apply elem_of_range; lia|].
        by apply wf_cell_VInt.
      * intros x1 x2 n1 n2 Hx1 Hx2 G1 G2 Heq.
        apply (Hd x1 x2 n1 n2); try (apply elem_of_range; lia);
          try (by apply wf_cell_VInt); done.
    + intros [Hall Hd]. split.
      * intros x n Hx%elem_of_range G. apply (Hall x n); [lia|].
        apply wf_cell_VInt; [done|lia|done|done].
      * intros x1 x2 n1 n2 Hx1%elem_of_range Hx2%elem_of_range G1 G2 Heq.
        apply (Hd x1 x2 n1 n2); try lia; try done;
          apply wf_cell_VInt; (done || lia).
  - intros x Hx run.
    assert (Erun : run = let? r := for_in ((λ y, cell b h x y) <$> range 9)
                                     (mark (λ t, negb (t =? 0))) (replicate 9 0) in
                         finish r (λ _, Ok true)).
    { unfold run, is_line_valid_vertical.
      rewrite (for_in_ext _ _
        (λ y s, let? v := get_board_item b x y h in
                mark (λ t, negb (t =? 0)) v s)) by done.
      rewrite (for_in_read _ _ (λ y, cell b h x y)); [done|].
      intros y Hy%elem_of_range. apply wf_cell; [done|done|lia]. }
    rewrite Erun.
    destruct (scan_keys (λ t, negb (t =? 0)) (λ y, cell b h x y) (range 9))
      as [Hcases Hiff]; [done|done|apply NoDup_range|].
    split; [exact Hcases|]. rewrite Hiff. split.
    + intros [Hall Hd]. split.
      * intros y n Hy G. apply (Hall y n); [apply elem_of_range; lia|].
        by apply wf_cell_VInt.
      * intros y1 y2 n1 n2 Hy1 Hy2 G1 G2 Heq.
        apply (Hd y1 y2 n1 n2); try (apply elem_of_range; lia);
          try (by apply wf_cell_VInt); done.
    + intros [Hall Hd]. split.
      * intros y n Hy%elem_of_range G. apply (Hall y n); [lia|].
        apply wf_cell_VInt; [done|done|lia|done].
      * intros y1 y2 n1 n2 Hy1%elem_of_range Hy2%elem_of_range G1 G2 Heq.
        apply (Hd y1 y2 n1 n2); try lia; try done;
          apply wf_cell_VInt; (done || lia).
  - intros mx my Hmx Hmy run.
    set (g := λ p : Z * Z, cell b h (3 * mx + p.1) (3 * my + p.2)).
    assert (Erun : run = let? r := for_in (g <$> pairs (range 3) (range 3))
                                     (mark (λ t, t >? 0)) (replicate 9 0) in
                         finish r (λ _, Ok true)).
    { unfold run. rewrite is_section_valid_cells by done.
      rewrite (for_in_read _ _ g); [done|].
      intros [lx ly] [Hlx%elem_of_range Hly%elem_of_range]%elem_of_pairs.
      apply wf_cell; simpl; (done || lia). }
    rewrite Erun.
    destruct (scan_keys (λ t, t >? 0) g (pairs (range 3) (range 3)))
      as [Hcases Hiff]; [done|done|apply NoDup_pairs; apply NoDup_range|].
    split; [exact Hcases|]. rewrite Hiff. split.
    + intros [Hall Hd]. split.
      * intros lx ly n Hlx Hly G. apply (Hall (lx, ly) n).
        -- apply elem_of_pairs. split; apply elem_of_range; lia.
        -- unfold g. simpl. apply wf_cell_VInt; (done || lia).
      * intros lx1 ly1 lx2 ly2 n1 n2 Hx1 Hy1 Hx2 Hy2 G1 G2 Heq.
        assert ((lx1, ly1) = (lx2, ly2)) as [= -> ->]; [|done].
        apply (Hd (lx1, ly1) (lx2, ly2) n1 n2);
          try (apply elem_of_pairs; split; apply elem_of_range; lia);
          try (unfold g; simpl; apply wf_cell_VInt; (done || lia)); done.
    + intros [Hall Hd]. split.
      * intros [lx ly] n [Hlx%elem_of_range Hly%elem_of_range]%elem_of_pairs G.
        unfold g in G. simpl in G.
        apply (Hall lx ly n); try lia. apply wf_cell_VInt; (done || lia).
      * intros [lx1 ly1] [lx2 ly2] n1 n2
          [Hx1%elem_of_range Hy1%elem_of_range]%elem_of_pairs
          [Hx2%elem_of_range Hy2%elem_of_range]%elem_of_pairs G1 G2 Heq.
        unfold g in G1, G2. simpl in G1, G2.
        destruct (Hd lx1 ly1 lx2 ly2 n1 n2) as [-> ->]; try lia; try done;
          apply wf_cell_VInt; (done || lia).
Qed.

(** At [wrap_store], whose row 0 holds -8 and 1: the row is rejected. *)
Lemma unit_checks_any_int_witness :
  wf_board board0 wrap_store ∧
  mark_of (-8) = mark_of 1 ∧
  is_line_valid_horizontal board0 0 wrap_store ≠ Ok true.
Proof.
  assert (Hwf : wf_board board0 wrap_store).
  { apply wf_boardb_sound. vm_compute. reflexivity. }
  split; [exact Hwf|]. split; [reflexivity|].
  destruct (unit_checks_any_int board0 wrap_store Hwf) as (Hrow & _).
  destruct (Hrow 0) as [_ Hiff]; [lia|].
  intros Hrun. apply Hiff in Hrun as [_ Hd].
  assert (E : 0 = 1); [|lia].
  apply (Hd 0 1 (-8) 1); try lia; vm_compute; reflexivity.
Defined.

(** ** The unit checks on a well-formed board *)

(** The scan of the cells read by [rd] at [keys], from fresh marks: a
    [True] result excludes a repeated digit, and when every integer read
    is a digit the scan returns, with [True] exactly when no digit is
    repeated. *)
Lemma scan_read {K} (test : Z → bool) (rd : K → result value) (keys : list K) :
  test 0 = false → test 1 = true → NoDup keys →
  (∀ k, k ∈ keys → ∃ v, rd k = Ok v) →
  let run := let? r := for_in keys (λ k s, let? v := rd k in mark test v s)
                         (replicate 9 0) in
             finish r (λ _, Ok true) in
  let once := ∀ k1 k2 d, k1 ∈ keys → k2 ∈ keys → 1 <= d <= 9 →
                rd k1 = Ok (VInt d) → rd k2 = Ok (VInt d) → k1 = k2 in
  (run = Ok true → once) ∧
  ((∀ k n, k ∈ keys → rd k = Ok (VInt n) → 1 <= n <= 9) →
   ∃ r, run = Ok r ∧ (r = true ↔ once)).
Proof.
  intros Ht0 Ht1 Hnd Hrd run once.
  set (g := λ k, match rd k with Ok v => v | Raise _ => VNone end).
  assert (Hg : ∀ k, k ∈ keys → rd k = Ok (g k)).
  { intros k Hk. unfold g. by destruct (Hrd k Hk) as [v ->]. }
  assert (Hgv : ∀ k n, k ∈ keys → rd k = Ok (VInt n) ↔ g k = VInt n).
  { intros k n Hk. rewrite (Hg k Hk). split; [by intros [= ->] | by intros ->]. }
  assert (Erun : run = let? r := for_in (g <$> keys) (mark test) (replicate 9 0) in
                       finish r (λ _, Ok true)).
  { unfold run. by rewrite (for_in_read keys rd g (mark test) _ Hg). }
  split.
  - rewrite Erun. intros Hrun.
    destruct (scan_keys test g keys Ht0 Ht1 Hnd) as [_ Hiff].
    apply Hiff in Hrun as [_ Hd].
    intros k1 k2 d Hk1 Hk2 Hdr G1 G2.
    apply (Hd k1 k2 d d Hk1 Hk2); [by apply Hgv | by apply Hgv | done].
  - intros Hdig.
    destruct (scan_fresh test (g <$> keys) Ht0 Ht1) as (r & Hr & Hiff).
    { apply Forall_fmap, Forall_forall. intros k Hk n Hn.
      apply (Hdig k n Hk). by apply Hgv. }
    exists r. split; [by rewrite Erun|].
    rewrite Hiff, (distinct_fmap g keys Hnd). unfold once. split.
    + intros H k1 k2 d Hk1 Hk2 _ G1 G2.
      apply (H k1 k2 d); try done; by apply Hgv.
    + intros H k1 k2 d Hk1 Hk2 G1 G2.
      apply (H k1 k2 d); try done; try (by apply Hgv).
      apply (Hdig k1 d Hk1). by apply Hgv.
Qed.

Lemma row_check (b : loc) (y : Z) (h : heap) :
  wf_board b h → 0 <= y <= 8 →
  (is_line_valid_horizontal b y h = Ok true → row_distinct b y h) ∧
  (row_digits b y h →
   ∃ r, is_line_valid_horizontal b y h = Ok r ∧ (r = true ↔ row_distinct b y h)).
Proof.
  intros Hwf Hy.
  assert (E : is_line_valid_horizontal b y h =
              let? r := for_in (range 9)
                          (λ x s, let? v := get_board_item b x y h in
                                  mark (λ t, negb (t =? 0)) v s) (replicate 9 0) in
              finish r (λ _, Ok true)).
  { unfold is_line_valid_horizontal.
    by rewrite (for_in_ext _ _
      (λ x s, let? v := get_board_item b x y h in
              mark (λ t, negb (t =? 0)) v s)) by done. }
  assert (Hrd : ∀ x, x ∈ range 9 → ∃ v, get_board_item b x y h = Ok v).
  { intros x Hx%elem_of_range. apply get_board_item_total; [done|lia|done]. }
  pose proof (scan_read (λ t, negb (t =? 0)) (λ x, get_board_item b x y h)
                (range 9) eq_refl eq_refl (NoDup_range 9) Hrd) as H.
  cbv beta zeta in H. rewrite <- E in H. destruct H as [Hsound Hdig]. split.
  - intros Hrun x1 x2 d Hx1 Hx2 Hd G1 G2.
    apply (Hsound Hrun x1 x2 d); try done; apply elem_of_range; lia.
  - intros Hrow. destruct Hdig as (r & Hr & Hiff).
    { intros x n Hx%elem_of_range G. apply (Hrow x n); [lia|done]. }
    exists r. split; [done|]. rewrite Hiff. unfold row_distinct. split.
    + intros H x1 x2 d Hx1 Hx2 Hd G1 G2.
      apply (H x1 x2 d); try done; apply elem_of_range; lia.
    + intros H x1 x2 d Hx1%elem_of_range Hx2%elem_of_range Hd G1 G2.
      apply (H x1 x2 d); try done; lia.
Qed.

Lemma column_check (b : loc) (x : Z) (h : heap) :
  wf_board b h → 0 <= x <= 8 →
  (is_line_valid_vertical b x h = Ok true → column_distinct b x h) ∧
  (column_digits b x h →
   ∃ r, is_line_valid_vertical b x h = Ok r ∧ (r = true ↔ column_distinct b x h)).
Proof.
  intros Hwf Hx.
  assert (E : is_line_valid_vertical b x h =
              let? r := for_in (range 9)
                          (λ y s, let? v := get_board_item b x y h in
                                  mark (λ t, negb (t =? 0)) v s) (replicate 9 0) in
              finish r (λ _, Ok true)).
  { unfold is_line_valid_vertical.
    by rewrite (for_in_ext _ _
      (λ y s, let? v := get_board_item b x y h in
              mark (λ t, negb (t =? 0)) v s)) by done. }
  assert (Hrd : ∀ y, y ∈ range 9 → ∃ v, get_board_item b x y h = Ok v).
  { intros y Hy%elem_of_range. apply get_board_item_total; [done|done|lia]. }
  pose proof (scan_read (λ t, negb (t =? 0)) (λ y, get_board_item b x y h)
                (range 9) eq_refl eq_refl (NoDup_range 9) Hrd) as H.
  cbv beta zeta in H. rewrite <- E in H. destruct H as [Hsound Hdig]. split.
  - intros Hrun y1 y2 d Hy1 Hy2 Hd G1 G2.
    apply (Hsound Hrun y1 y2 d); try done; apply elem_of_range; lia.
  - intros Hcol. destruct Hdig as (r & Hr & Hiff).
    { intros y n Hy%elem_of_range G. apply (Hcol y n); [lia|done]. }
    exists r. split; [done|]. rewrite Hiff. unfold column_distinct. split.
    + intros H y1 y2 d Hy1 Hy2 Hd G1 G2.
      apply (H y1 y2 d); try done; apply elem_of_range; lia.
    + intros H y1 y2 d Hy1%elem_of_range Hy2%elem_of_range Hd G1 G2.
      apply (H y1 y2 d); try done; lia.
Qed.

Lemma box_check (b : loc) (mx my : Z) (h : heap) :
  wf_board b h → 0 <= mx <= 2 → 0 <= my <= 2 →
  (is_section_valid b mx my h = Ok true → box_distinct b mx my h) ∧
  (box_digits b mx my h →
   ∃ r, is_section_valid b mx my h = Ok r ∧ (r = true ↔ box_distinct b mx my h)).
Proof.
  intros Hwf Hmx Hmy.
  pose proof (is_section_valid_cells b mx my h Hwf Hmx Hmy) as E.
  set (rd := λ p : Z * Z, get_board_item b (3 * mx + p.1) (3 * my + p.2) h).
  assert (Hrd : ∀ p, p ∈ pairs (range 3) (range 3) → ∃ v, rd p = Ok v).
  { intros [lx ly] [Hlx%elem_of_range Hly%elem_of_range]%elem_of_pairs.
    apply get_board_item_total; simpl; (done || lia). }
  pose proof (scan_read (λ t, t >? 0) rd (pairs (range 3) (range 3))
                eq_refl eq_refl (NoDup_pairs _ _ (NoDup_range 3) (NoDup_range 3))
                Hrd) as H.
  cbv beta zeta in H. unfold rd in H. rewrite <- E in H.
  destruct H as [Hsound Hdig]. split.
  - intros Hrun lx1 ly1 lx2 ly2 d Hx1 Hy1 Hx2 Hy2 Hd G1 G2.
    assert ((lx1, ly1) = (lx2, ly2)) as [= -> ->]; [|done].
    apply (Hsound Hrun (lx1, ly1) (lx2, ly2) d); try done;
      apply elem_of_pairs; split; apply elem_of_range; lia.
  - intros Hbox. destruct Hdig as (r & Hr & Hiff).
    { intros [lx ly] n [Hlx%elem_of_range Hly%elem_of_range]%elem_of_pairs G.
      apply (Hbox lx ly n); [lia|lia|done]. }
    exists r. split; [done|]. rewrite Hiff. unfold box_distinct. split.
    + intros H lx1 ly1 lx2 ly2 d Hx1 Hy1 Hx2 Hy2 Hd G1 G2.
      assert ((lx1, ly1) = (lx2, ly2)) as [= -> ->]; [|done].
      apply (H (lx1, ly1) (lx2, ly2) d); try done;
        apply elem_of_pairs; split; apply elem_of_range; lia.
    + intros H [lx1 ly1] [lx2 ly2] d
        [Hx1%elem_of_range Hy1%elem_of_range]%elem_of_pairs
        [Hx2%elem_of_range Hy2%elem_of_range]%elem_of_pairs Hd G1 G2.
      destruct (H lx1 ly1 lx2 ly2 d) as [-> ->]; try done; lia.
Qed.

(** Whenever no unit check raises, [is_valid] returns. *)
Lemma is_valid_returns (b : loc) (h : heap) :
  units_return b h → ∃ r, is_valid b h = Ok r.
Proof.
  intros (Hv & Hh & Hs). rewrite is_valid_unfold.
  apply check_then_total.
  { intros x Hx%elem_of_range. apply Hv. lia. }
  apply check_then_total.
  { intros y Hy%elem_of_range. apply Hh. lia. }
  apply check_then_total; [|eauto].
  intros [mx my] [Hx%elem_of_range Hy%elem_of_range]%elem_of_pairs.
  apply Hs; simpl; lia.
Qed.

Lemma grid_ok_units_return (b : loc) (h : heap) : grid_ok b h → units_return b h.
Proof.
  intros Hok. split; [|split].
  - intros x Hx.
    destruct (is_line_valid_vertical_spec b x h Hok Hx) as (r & ? & _). eauto.
  - intros y Hy.
    destruct (is_line_valid_horizontal_spec b y h Hok Hy) as (r & ? & _). eauto.
  - intros mx my Hx Hy.
    destruct (is_section_valid_spec b mx my h Hok Hx Hy) as (r & ? & _). eauto.
Qed.

(** A blank cell stops the first loop of [is_solved]. *)
Lemma is_solved_blank (b : loc) (h : heap) (x y : Z) :
  wf_board b h → 0 <= x <= 8 → 0 <= y <= 8 →
  get_board_item b x y h = Ok VNone → is_solved b h = Ok false.
Proof.
  intros Hwf Hx Hy Hn. rewrite is_solved_unfold.
  destruct (for_in_check_total (λ p, get_board_item b p.1 p.2 h) occupied
              (pairs (range 9) (range 9))) as [r Hr].
  { intros [x' y'] [Hx'%elem_of_range Hy'%elem_of_range]%elem_of_pairs.
    apply get_board_item_total; simpl; (done || lia). }
  rewrite Hr. destruct r as [[]|r]; simpl.
  - pose proof (proj1 (for_in_check_Next _ _ _ tt) Hr) as Hall.
    destruct (Hall (x, y)) as (v & Hv & Ho).
    { apply elem_of_pairs. split; apply elem_of_range; lia. }
    simpl in Hv. rewrite Hn in Hv. injection Hv as <-. done.
  - by apply for_in_check_Return in Hr as ->.
Qed.

(** * The claims of the specification *)

(** C1 (as amended): on every grid and for every y in [0,8], if the row
    check returns true then no digit 1-9 occurs in two distinct cells of
    row y; and when every integer held in row y is a digit 1-9, the row
    check returns a boolean, which is true iff no digit 1-9 occurs in two
    distinct cells of row y.  Likewise the column check for every x in
    [0,8] and the box check for every mx, my in [0,2].  A row, column or
    box whose nine cells are all empty is valid. *)
Theorem unit_checks_spec (b : loc) (h : heap) :
  wf_board b h →
  (∀ y, 0 <= y <= 8 →
     (is_line_valid_horizontal b y h = Ok true → row_distinct b y h) ∧
     (row_digits b y h →
      ∃ r, is_line_valid_horizontal b y h = Ok r ∧
           (r = true ↔ row_distinct b y h)) ∧
     ((∀ x, 0 <= x <= 8 → get_board_item b x y h = Ok VNone) →
      is_line_valid_horizontal b y h = Ok true)) ∧
  (∀ x, 0 <= x <= 8 →
     (is_line_valid_vertical b x h = Ok true → column_distinct b x h) ∧
     (column_digits b x h →
      ∃ r, is_line_valid_vertical b x h = Ok r ∧
           (r = true ↔ column_distinct b x h)) ∧
     ((∀ y, 0 <= y <= 8 → get_board_item b x y h = Ok VNone) →
      is_line_valid_vertical b x h = Ok true)) ∧
  (∀ mx my, 0 <= mx <= 2 → 0 <= my <= 2 →
     (is_section_valid b mx my h = Ok true → box_distinct b mx my h) ∧
     (box_digits b mx my h →
      ∃ r, is_section_valid b mx my h = Ok r ∧
           (r = true ↔ box_distinct b mx my h)) ∧
     ((∀ lx ly, 0 <= lx <= 2 → 0 <= ly <= 2 →
         get_board_item b (3 * mx + lx) (3 * my + ly) h = Ok VNone) →
      is_section_valid b mx my h = Ok true)).
Proof.
  intros Hwf. split; [|split].
  - intros y Hy. destruct (row_check b y h Hwf Hy) as [Hsound Hdig].
    split; [exact Hsound|]. split; [exact Hdig|].
    intros Hempty. destruct Hdig as (r & -> & Hiff).
    { intros x n Hx G. rewrite Hempty in G; done. }
    f_equal. apply Hiff. intros x1 x2 d Hx1 _ _ G1. rewrite Hempty in G1; done.
  - intros x Hx. destruct (column_check b x h Hwf Hx) as [Hsound Hdig].
    split; [exact Hsound|]. split; [exact Hdig|].
    intros Hempty. destruct Hdig as (r & -> & Hiff).
    { intros y n Hy G. rewrite Hempty in G; done. }
    f_equal. apply Hiff. intros y1 y2 d Hy1 _ _ G1. rewrite Hempty in G1; done.
  - intros mx my Hmx Hmy.
    destruct (box_check b mx my h Hwf Hmx Hmy) as [Hsound Hdig].
    split; [exact Hsound|]. split; [exact Hdig|].
    intros Hempty. destruct Hdig as (r & -> & Hiff).
    { intros lx ly n Hlx Hly G. rewrite Hempty in G; done. }
    f_equal. apply Hiff. intros lx1 ly1 lx2 ly2 d Hx1 Hy1 _ _ _ G1.
    rewrite Hempty in G1; done.
Qed.

(** At [clash_store]: the integers of row 0 are digits, and the row, with
    its two 5s, is invalid. *)
Lemma unit_checks_spec_witness :
  wf_board board0 clash_store ∧
  row_digits board0 0 clash_store ∧
  is_line_valid_horizontal board0 0 clash_store = Ok false ∧
  ¬ row_distinct board0 0 clash_store.
Proof.
  assert (Hwf : wf_board board0 clash_store).
  { apply wf_boardb_sound. vm_compute. reflexivity. }
  assert (Hok : grid_ok board0 clash_store).
  { apply grid_okb_sound. vm_compute. reflexivity. }
  assert (Hdig : row_digits board0 0 clash_store).
  { intros x n Hx G. destruct (Hok x 0) as (v & Hv & Hc); [lia|lia|].
    apply Hc. congruence. }
  destruct (unit_checks_spec board0 clash_store Hwf) as (Hrow & _).
  destruct (Hrow 0 ltac:(lia)) as (_ & Hiff & _).
  destruct (Hiff Hdig) as (r & Hr & Hd).
  split; [exact Hwf|]. split; [exact Hdig|]. split; [vm_compute; reflexivity|].
  intros Hdist. apply Hd in Hdist. subst r. vm_compute in Hr. discriminate Hr.
Defined.

(** C1 as first stated fails on integers that are not digits.  Row 0 of
    the board loaded from the text [09] holds 0 and 9: no digit 1-9 occurs
    twice in it, yet the row check returns false, the 0 falling on the
    mark of 9 (index -1).  Row 0 of [ten_store] holds 10 only, and the row
    check raises IndexError. *)
Lemma unit_checks_beyond_digits :
  (wf_board board0 zero_nine_store ∧
   row_distinct board0 0 zero_nine_store ∧
   is_line_valid_horizontal board0 0 zero_nine_store = Ok false) ∧
  (wf_board board0 ten_store ∧
   row_distinct board0 0 ten_store ∧
   is_line_valid_horizontal board0 0 ten_store = Raise IndexError).
Proof.
  assert (Hx : ∀ x, 0 <= x <= 8 →
            x = 0 ∨ x = 1 ∨ x = 2 ∨ x = 3 ∨ x = 4 ∨ x = 5 ∨ x = 6 ∨ x = 7 ∨ x = 8)
    by (intros; lia).
  split; (split; [apply wf_boardb_sound; vm_compute; reflexivity|]);
    (split; [|vm_compute; reflexivity]).
  - intros x1 x2 d Hx1 Hx2 Hd G1 G2.
    destruct (Hx x1 Hx1) as [->|[->|[->|[->|[->|[->|[->|[->| ->]]]]]]]];
      vm_compute in G1; try discriminate G1;
      destruct (Hx x2 Hx2) as [->|[->|[->|[->|[->|[->|[->|[->| ->]]]]]]]];
      vm_compute in G2; try discriminate G2; try reflexivity;
      first [congruence | injection G1 as <-; lia].
  - intros x1 x2 d Hx1 Hx2 Hd G1 G2.
    destruct (Hx x1 Hx1) as [->|[->|[->|[->|[->|[->|[->|[->| ->]]]]]]]];
      vm_compute in G1; try discriminate G1.
    injection G1 as <-. lia.
Qed.

(** C2 (as amended): on every grid, [is_valid] returns true iff all 9
    rows, all 9 columns and all 9 boxes are valid (the conjunction of the
    27 unit checks).  When none of the 27 unit checks raises, as on every
    grid whose integer cells are digits 1-9, [is_valid] returns a boolean
    and any single invalid unit makes it false. *)
Theorem is_valid_spec (b : loc) (h : heap) :
  (is_valid b h = Ok true ↔
     (∀ x, 0 <= x <= 8 → is_line_valid_vertical b x h = Ok true) ∧
     (∀ y, 0 <= y <= 8 → is_line_valid_horizontal b y h = Ok true) ∧
     (∀ mx my, 0 <= mx <= 2 → 0 <= my <= 2 →
        is_section_valid b mx my h = Ok true)) ∧
  (units_return b h →
   ∃ r, is_valid b h = Ok r ∧
     (∀ x, 0 <= x <= 8 → is_line_valid_vertical b x h = Ok false → r = false) ∧
     (∀ y, 0 <= y <= 8 → is_line_valid_horizontal b y h = Ok false → r = false) ∧
     (∀ mx my, 0 <= mx <= 2 → 0 <= my <= 2 →
        is_section_valid b mx my h = Ok false → r = false)) ∧
  (grid_ok b h → units_return b h).
Proof.
  split; [apply is_valid_true_iff|]. split; [|apply grid_ok_units_return].
  intros Hret. destruct (is_valid_returns b h Hret) as [r Hr].
  exists r. split; [done|].
  pose proof (is_valid_true_iff b h) as Hiff. rewrite Hr in Hiff.
  assert (Hall : r = true →
            (∀ x, 0 <= x <= 8 → is_line_valid_vertical b x h = Ok true) ∧
            (∀ y, 0 <= y <= 8 → is_line_valid_horizontal b y h = Ok true) ∧
            (∀ mx my, 0 <= mx <= 2 → 0 <= my <= 2 →
               is_section_valid b mx my h = Ok true)).
  { intros ->. by apply Hiff. }
  split; [|split].
  - intros x Hx Hbad. destruct r; [|done].
    destruct (Hall eq_refl) as (Hv & _ & _). rewrite Hv in Hbad; done.
  - intros y Hy Hbad. destruct r; [|done].
    destruct (Hall eq_refl) as (_ & Hh & _). rewrite Hh in Hbad; done.
  - intros mx my Hx Hy Hbad. destruct r; [|done].
    destruct (Hall eq_refl) as (_ & _ & Hs). rewrite Hs in Hbad; done.
Qed.

(** At [clash_store]: no unit check raises, and the invalid row 0 makes
    the grid invalid. *)
Lemma is_valid_spec_witness :
  grid_ok board0 clash_store ∧ units_return board0 clash_store ∧
  is_valid board0 clash_store = Ok false.
Proof.
  assert (Hok : grid_ok board0 clash_store).
  { apply grid_okb_sound. vm_compute. reflexivity. }
  destruct (is_valid_spec board0 clash_store) as (_ & Hfalse & Hret).
  split; [exact Hok|]. split; [exact (Hret Hok)|].
  destruct (Hfalse (Hret Hok)) as (r & -> & _ & Hrow & _).
  f_equal. apply (Hrow 0); [lia|]. vm_compute. reflexivity.
Defined.

(** C2 as first stated fails where a unit check raises.  In
    [ten_fives_store] column 4, with its two 5s, is invalid, but
    [is_valid] does not return false: the check of column 0, which holds
    10, comes first and raises IndexError. *)
Lemma is_valid_raises :
  wf_board board0 ten_fives_store ∧
  is_line_valid_vertical board0 4 ten_fives_store = Ok false ∧
  is_valid board0 ten_fives_store = Raise IndexError.
Proof.
  split; [apply wf_boardb_sound; vm_compute; reflexivity|].
  split; vm_compute; reflexivity.
Qed.

(** C3 (as amended): on every grid, [is_solved] returns true iff none of
    the 81 cells is Empty and [is_valid] returns true, a cell holding any
    object other than Empty counting as occupied; on a grid whose cells
    hold Empty or a digit 1-9 it returns a boolean, true iff every one of
    the 81 cells holds a digit and [is_valid] returns true.  On a grid
    with at least one empty cell [is_solved] returns false; in particular
    on an all-empty grid [is_valid] is true and [is_solved] is false. *)
Theorem is_solved_spec (b : loc) (h : heap) :
  wf_board b h →
  (is_solved b h = Ok true ↔
     (∀ x y, 0 <= x <= 8 → 0 <= y <= 8 →
        ∃ v, get_board_item b x y h = Ok v ∧ v ≠ VNone) ∧
     is_valid b h = Ok true) ∧
  (sudoku_grid b h →
   ∃ r, is_solved b h = Ok r ∧
     (r = true ↔
        (∀ x y, 0 <= x <= 8 → 0 <= y <= 8 →
           ∃ d, 1 <= d <= 9 ∧ get_board_item b x y h = Ok (VInt d)) ∧
        is_valid b h = Ok true)) ∧
  (∀ x y, 0 <= x <= 8 → 0 <= y <= 8 →
     get_board_item b x y h = Ok VNone → is_solved b h = Ok false) ∧
  ((∀ x y, 0 <= x <= 8 → 0 <= y <= 8 → get_board_item b x y h = Ok VNone) →
   is_valid b h = Ok true ∧ is_solved b h = Ok false).
Proof.
  intros Hwf. split; [apply is_solved_true_iff|]. split; [|split].
  - intros Hsg. pose proof (sudoku_grid_ok b h Hsg) as Hok.
    destruct (is_solved_total b h Hok) as [r Hr].
    exists r. split; [done|].
    pose proof (is_solved_true_iff b h) as Hiff. rewrite Hr in Hiff. split.
    + intros ->. destruct Hiff as [Hall _]. destruct Hall as [Hall Hv]; [done|].
      split; [|done]. intros x y Hx Hy.
      destruct (Hsg x y Hx Hy) as [Hn|Hd]; [|done].
      destruct (Hall x y Hx Hy) as (v & Hv' & Hne). congruence.
    + intros [Hall Hv]. destruct Hiff as [_ Hback].
      assert (Ok r = Ok true) as [= ->]; [|done].
      apply Hback. split; [|done]. intros x y Hx Hy.
      destruct (Hall x y Hx Hy) as (d & _ & Hd). by exists (VInt d).
  - intros x y Hx Hy Hn. by apply (is_solved_blank b h x y).
  - intros Hempty.
    assert (Hok : grid_ok b h).
    { intros x y Hx Hy. exists VNone. split; [by apply Hempty | by intros n]. }
    split; [|apply (is_solved_blank b h 0 0); [done|lia|lia|apply Hempty; lia]].
    apply is_valid_true_iff. split; [|split].
    + intros x Hx. apply is_line_valid_vertical_empty; try done.
      intros y Hy. by apply Hempty.
    + intros y Hy. apply is_line_valid_horizontal_empty; try done.
      intros x Hx. by apply Hempty.
    + intros mx my Hx Hy. apply is_section_valid_empty; try done.
      intros lx ly Hlx Hly. apply Hempty; lia.
Qed.

(** At [solved_store]: the grid is solved and every cell holds a digit. *)
Lemma is_solved_spec_witness :
  wf_board board0 solved_store ∧ sudoku_grid board0 solved_store ∧
  is_solved board0 solved_store = Ok true ∧
  ∀ x y, 0 <= x <= 8 → 0 <= y <= 8 →
    ∃ d, 1 <= d <= 9 ∧ get_board_item board0 x y solved_store = Ok (VInt d).
Proof.
  assert (Hwf : wf_board board0 solved_store).
  { apply wf_boardb_sound. vm_compute. reflexivity. }
  assert (Hsg : sudoku_grid board0 solved_store).
  { apply sudoku_gridb_sound. vm_compute. reflexivity. }
  split; [exact Hwf|]. split; [exact Hsg|].
  destruct (is_solved_spec board0 solved_store Hwf) as (_ & Hgrid & _).
  destruct (Hgrid Hsg) as (r & Hr & Hiff).
  assert (r = true) as ->.
  { vm_compute in Hr. by injection Hr as <-. }
  split; [exact Hr|]. by apply Hiff.
Defined.

(** C3 as first stated fails where a cell holds an object that is neither
    Empty nor a digit.  In [candidates_store], the solved grid with a list
    of candidates written at (0, 0), that cell holds no digit
    ([contains_value] is false there), yet [is_solved] returns true. *)
Lemma is_solved_counts_objects :
  wf_board board0 candidates_store ∧
  (∃ l items, get_board_item board0 0 0 candidates_store = Ok (VRef l) ∧
              candidates_store !! l = Some (OList items)) ∧
  contains_value board0 0 0 candidates_store = Ok false ∧
  is_solved board0 candidates_store = Ok true.
Proof.
  split; [apply wf_boardb_sound; vm_compute; reflexivity|].
  split; [|split; vm_compute; reflexivity].
  eexists _, _. split; vm_compute; reflexivity.
Qed.

(** C4: for every well-formed grid, every value v and every (x, y) in
    [0,8] x [0,8], [set_board_item(v, x, y)] succeeds and
    [get_board_item(x, y)] then returns v. *)
Theorem set_then_get (b : loc) (h : heap) (v : value) (x y : Z) :
  wf_board b h → 0 <= x <= 8 → 0 <= y <= 8 →
  ∃ h', set_board_item b v x y h = (Ok tt, h') ∧
        get_board_item b x y h' = Ok v.
Proof.
  intros Hwf Hx Hy.
  destruct (set_board_item_in b h v x y Hwf Hx Hy)
    as (s & cells & _ & _ & _ & Hset & _ & Hget & _).
  eauto.
Qed.

(** At the empty grid, writing 7 at (4, 8). *)
Lemma set_then_get_witness :
  wf_board board0 empty_store ∧
  ∃ h', set_board_item board0 (VInt 7) 4 8 empty_store = (Ok tt, h') ∧
        get_board_item board0 4 8 h' = Ok (VInt 7).
Proof.
  assert (Hwf : wf_board board0 empty_store).
  { apply wf_boardb_sound. vm_compute. reflexivity. }
  split; [exact Hwf|].
  apply (set_then_get board0 empty_store (VInt 7) 4 8 Hwf); lia.
Defined.

(** C5: for every well-formed grid, every value v and every (x, y) in
    [0,8] x [0,8], after [set_board_item(v, x, y)] every cell at another
    coordinate reads as before; the call replaces one slot of one section
    and nothing else in the store. *)
Theorem set_leaves_other_cells (b : loc) (h : heap) (v : value) (x y : Z) :
  wf_board b h → 0 <= x <= 8 → 0 <= y <= 8 →
  ∃ h', set_board_item b v x y h = (Ok tt, h') ∧
    (∀ x' y', 0 <= x' <= 8 → 0 <= y' <= 8 → (x', y') ≠ (x, y) →
       get_board_item b x' y' h' = get_board_item b x' y' h) ∧
    ∃ s cells,
      s ≠ b ∧ h !! s = Some (OSection cells) ∧
      h' = <[s:=OSection (<[slot (x mod 3) (y mod 3):=v]> cells)]> h.
Proof.
  intros Hwf Hx Hy.
  destruct (set_board_item_in b h v x y Hwf Hx Hy)
    as (s & cells & _ & Hsb & Hs & Hset & _ & _ & Hother).
  eexists. split; [exact Hset|]. split; [by intros x' y' _ _; apply Hother|].
  by exists s, cells.
Qed.

(** At [solved_store], emptying (4, 8) leaves its neighbours as they were. *)
Lemma set_leaves_other_cells_witness :
  wf_board board0 solved_store ∧
  ∃ h', set_board_item board0 VNone 4 8 solved_store = (Ok tt, h') ∧
        get_board_item board0 3 8 h' = Ok (VInt 2) ∧
        get_board_item board0 4 7 h' = Ok (VInt 1).
Proof.
  assert (Hwf : wf_board board0 solved_store).
  { apply wf_boardb_sound. vm_compute. reflexivity. }
  split; [exact Hwf|].
  destruct (set_leaves_other_cells board0 solved_store VNone 4 8 Hwf)
    as (h' & Hset & Hother & _); [lia|lia|].
  exists h'. split; [exact Hset|].
  rewrite !Hother by (try lia; intros [=]).
  split; vm_compute; reflexivity.
Defined.

(** C6: a coordinate c outside [0,8] makes the grid-level operations raise
    IndexError wherever it is passed: [get_board_item] and
    [set_board_item] with c as x or as y (whatever the other coordinate),
    [get_row(c)] and [get_column(c)]. *)
Theorem out_of_range_raises (b : loc) (h : heap) (v : value) (c o : Z) :
  ¬ (0 <= c <= 8) →
  get_board_item b c o h = Raise IndexError ∧
  get_board_item b o c h = Raise IndexError ∧
  (set_board_item b v c o h).1 = Raise IndexError ∧
  (set_board_item b v o c h).1 = Raise IndexError ∧
  get_row b c h = Raise IndexError ∧
  get_column b c h = Raise IndexError.
Proof.
  intros Hc.
  assert (H1 : get_board_item b c o h = Raise IndexError)
    by (apply get_board_item_out; lia).
  assert (H2 : get_board_item b o c h = Raise IndexError)
    by (apply get_board_item_out; lia).
  repeat split; try done.
  - rewrite set_board_item_out; [done|lia].
  - rewrite set_board_item_out; [done|lia].
  - unfold get_row. simpl. by rewrite get_board_item_out by lia.
  - unfold get_column. simpl. by rewrite get_board_item_out by lia.
Qed.

(** With the coordinate 9. *)
Lemma out_of_range_raises_witness :
  ¬ (0 <= 9 <= 8) ∧
  get_board_item board0 9 0 empty_store = Raise IndexError ∧
  (set_board_item board0 (VInt 1) 0 9 empty_store).1 = Raise IndexError ∧
  get_row board0 9 empty_store = Raise IndexError.
Proof.
  assert (Hc : ¬ (0 <= 9 <= 8)) by lia.
  split; [exact Hc|].
  destruct (out_of_range_raises board0 empty_store (VInt 1) 9 0 Hc)
    as (H1 & _ & _ & H4 & H5 & _).
  done.
Defined.

(** C7 (the code departs from the claim): [Section.set_at] has no range
    check.  On a fresh section, [set_at(7, 3, 0)] returns normally and
    overwrites slot 3, which is local cell (0, 1); only an index outside
    [-9, 8] makes the list assignment itself raise. *)
Theorem set_at_unchecked :
  ∃ s h1 h2,
    Section_init ∅ = (Ok s, h1) ∧
    get_at s 3 0 h1 = Raise IndexError ∧
    set_at s (VInt 7) 3 0 h1 = (Ok tt, h2) ∧
    get_at s 0 1 h2 = Ok (VInt 7) ∧
    (set_at s (VInt 7) (-1) 0 h1).1 = Ok tt ∧
    (set_at s (VInt 7) 9 0 h1).1 = Raise IndexError.
Proof.
  do 3 eexists. split; [reflexivity|].
  repeat split; vm_compute; reflexivity.
Qed.



(** The claim of C9 fails as stated: a tenth row that holds a digit is not
    ignored, loading it raises IndexError (the same text without that row
    loads); and a character that is neither a space nor a digit raises
    ValueError, so that the digit after it is never written. *)
Lemma load_board_not_total :
  splitlines ten_rows !! 9%nat = Some "5"%string ∧
  (load_board board0 ten_rows empty_store).1 = Raise IndexError ∧
  (load_board board0 nine_rows empty_store).1 = Ok tt ∧
  (load_board board0 "x5" empty_store).1 = Raise ValueError ∧
  get_board_item board0 1 0 (load_board board0 "x5" empty_store).2 = Ok VNone.
Proof. repeat split; vm_compute; reflexivity. Qed.

(** C9 (amended): let the text be such that, within the first nine
    columns, every character other than a space is a decimal digit and
    sits in one of the first nine rows.  Then loading into a well-formed
    grid returns normally; afterwards the cell (x, y), for x and y in
    [0,8], holds the digit written at column x of row y, and reads as
    before when that character is a space or is missing (short row,
    missing row); characters beyond the ninth column play no part; and
    nothing but cells of the grid is written (the board object and every
    object that is not one of its sections are as before). *)
Theorem load_board_spec (b : loc) (h : heap) (board_raw : string) :
  wf_board b h → loadable board_raw →
  ∃ h',
    load_board b board_raw h = (Ok tt, h') ∧
    wf_board b h' ∧
    (∀ l, ¬ owns b h l → h' !! l = h !! l) ∧
    h' !! b = h !! b ∧
    ∀ x y, 0 <= x <= 8 → 0 <= y <= 8 →
      get_board_item b x y h' =
      loaded (char_at board_raw x y) (get_board_item b x y h).
Proof.
  intros Hwf Hload.
  destruct (load_rows b (splitlines board_raw) 0 h) as
    (h' & Hrun & Hwf' & Hfr & Hb & Hget); [done|lia| |].
  { intros k x line c Hk Hx Hlt Hne.
    destruct (Hload k x line c Hk Hx Hlt Hne). split; [lia|done]. }
  exists h'. repeat split; try done.
  intros x y Hx Hy. rewrite Hget by done.
  rewrite decide_True by lia. unfold char_at. by rewrite Z.sub_0_r.
Qed.

(** Loading [sample_text] into the empty grid. *)
Lemma load_board_spec_witness :
  wf_board board0 empty_store ∧ loadable sample_text ∧
  ∃ h', load_board board0 sample_text empty_store = (Ok tt, h') ∧
        get_board_item board0 8 0 h' = Ok (VInt 9) ∧
        get_board_item board0 2 1 h' = Ok (VInt 3) ∧
        get_board_item board0 3 1 h' = Ok VNone.
Proof.
  assert (Hwf : wf_board board0 empty_store).
  { apply wf_boardb_sound. vm_compute. reflexivity. }
  assert (Hld : loadable sample_text).
  { apply loadableb_sound. vm_compute. reflexivity. }
  split; [exact Hwf|]. split; [exact Hld|].
  destruct (load_board_spec board0 empty_store sample_text Hwf Hld)
    as (h' & Hrun & _ & _ & _ & Hget).
  exists h'. split; [exact Hrun|].
  rewrite !Hget by lia. repeat split; vm_compute; reflexivity.
Defined.

(** C10: [set_board_item] with x or y outside [0,8] raises IndexError
    before anything is written: the store it leaves is the store it was
    called in, so every cell reads as before. *)
Theorem set_out_of_range_atomic (b : loc) (h : heap) (v : value) (x y : Z) :
  ¬ (0 <= x <= 8 ∧ 0 <= y <= 8) →
  set_board_item b v x y h = (Raise IndexError, h) ∧
  ∀ x' y', get_board_item b x' y' (set_board_item b v x y h).2 =
           get_board_item b x' y' h.
Proof.
  intros Hout. rewrite set_board_item_out by done. done.
Qed.

(** At [solved_store], with y = -1. *)
Lemma set_out_of_range_atomic_witness :
  ¬ (0 <= 3 <= 8 ∧ 0 <= -1 <= 8) ∧
  set_board_item board0 (VInt 4) 3 (-1) solved_store
  = (Raise IndexError, solved_store).
Proof.
  assert (Hout : ¬ (0 <= 3 <= 8 ∧ 0 <= -1 <= 8)) by lia.
  split; [exact Hout|].
  apply (set_out_of_range_atomic board0 solved_store (VInt 4) 3 (-1) Hout).
Defined.
